(** * HR_system: the employee model of [employee.py] and the record codec of [gui.py]

    A shallow embedding of the employee class hierarchy (validated
    properties, identifier counter, pay calculation, [__repr__]) and of
    the row loader [MainWindow.create_employee] / [load_file].

    Conventions of the embedding:
    - a Python [str] is a [string] (characters are 8-bit code points);
    - a Python [int] is a [Z];
    - a Python [float] is an IEEE-754 binary64 value, [spec_float] at
      precision 53 and maximal exponent 1024, with the Standard
      Library's bit-exact operations;
    - an instance is a record of attribute slots, [None] until the
      attribute is first assigned;
    - a method is a state transformer that may raise. *)

From Stdlib Require Import ZArith List String Ascii Bool Lia Sorted.
From Stdlib Require Import SpecFloat.
Import ListNotations.

Local Open Scope string_scope.
Local Open Scope Z_scope.

(** ** Characters and strings *)

Module Str.

Definition code (c : ascii) : Z := Z.of_N (N_of_ascii c).

Definition is_digit (c : ascii) : bool :=
  (48 <=? code c) && (code c <=? 57).

Definition digit_val (c : ascii) : Z := code c - 48.

Definition digit_char (d : Z) : ascii := ascii_of_N (Z.to_N (48 + d)).

(** [str.isspace] on the code points below 256. *)
Definition is_space (c : ascii) : bool :=
  let n := code c in
  ((9 <=? n) && (n <=? 13)) || ((28 <=? n) && (n <=? 32))
  || (n =? 133) || (n =? 160).

(** ASCII lower-casing, enough for the keywords [inf] and [nan]. *)
Definition lower (c : ascii) : ascii :=
  let n := code c in
  if (65 <=? n) && (n <=? 90) then ascii_of_N (Z.to_N (n + 32)) else c.

Fixpoint map (f : ascii -> ascii) (s : string) : string :=
  match s with
  | EmptyString => EmptyString
  | String c t => String (f c) (map f t)
  end.

Fixpoint rev_onto (s acc : string) : string :=
  match s with
  | EmptyString => acc
  | String c t => rev_onto t (String c acc)
  end.

Definition rev (s : string) : string := rev_onto s EmptyString.

Fixpoint lstrip (s : string) : string :=
  match s with
  | String c t => if is_space c then lstrip t else s
  | EmptyString => EmptyString
  end.

(** The white space of the C locale ([Py_ISSPACE]): the only
    characters [float] and [int] skip around a literal. *)
Definition is_c_space (c : ascii) : bool :=
  let n := code c in
  ((9 <=? n) && (n <=? 13)) || (n =? 32).

(** What [float] and [int] make of a character before they parse: a
    code point below 127 is kept, a white-space code point from 127 on
    becomes a blank, and any other one (none of them is a decimal
    digit below 256) becomes a question mark, which no literal
    contains. *)
Definition to_ascii (c : ascii) : ascii :=
  if code c <? 127 then c
  else if is_space c then " "%char
  else "?"%char.

Fixpoint lstrip_c (s : string) : string :=
  match s with
  | String c t => if is_c_space c then lstrip_c t else s
  | EmptyString => EmptyString
  end.

(** The text the number parsers read: the string made ASCII, without
    the C white space at its two ends. *)
Definition literal (s : string) : string :=
  rev (lstrip_c (rev (lstrip_c (map to_ascii s)))).

(** [needle in hay] *)
Fixpoint contains (needle hay : string) : bool :=
  prefix needle hay ||
  match hay with
  | EmptyString => false
  | String _ t => contains needle t
  end.

Fixpoint has_char (c : ascii) (s : string) : bool :=
  match s with
  | EmptyString => false
  | String d t => Ascii.eqb c d || has_char c t
  end.

(** Every character of [s] passes [p]. *)
Fixpoint all (p : ascii -> bool) (s : string) : bool :=
  match s with
  | EmptyString => true
  | String c t => p c && all p t
  end.

(** [sep.join(parts)] for a one-character separator. *)
Fixpoint join (sep : ascii) (parts : list string) : string :=
  match parts with
  | [] => EmptyString
  | [p] => p
  | p :: rest => p ++ String sep (join sep rest)
  end.

(** Decimal digits of a natural number, most significant first;
    [fuel] bounds the number of digits produced. *)
Fixpoint digits_go (fuel : nat) (n : Z) (acc : string) : string :=
  match fuel with
  | O => acc
  | S f =>
      let acc' := String (digit_char (n mod 10)) acc in
      if n / 10 =? 0 then acc' else digits_go f (n / 10) acc'
  end.

(** [str(n)] for [n >= 0]. *)
Definition of_nonneg (n : Z) : string :=
  digits_go (S (Z.to_nat (Z.log2 n))) n EmptyString.

(** [str(n)] *)
Definition of_Z (n : Z) : string :=
  if n <? 0 then String "-" (of_nonneg (- n)) else of_nonneg n.

(** ["%0wd" % n] for [0 <= n < 10^w]: exactly [w] digits. *)
Fixpoint zero_pad (w : nat) (n : Z) : string :=
  match w with
  | O => EmptyString
  | S w' => zero_pad w' (n / 10) ++ String (digit_char (n mod 10)) EmptyString
  end.

(** The value of a string of decimal digits, [None] on any other
    character. *)
Fixpoint digits_value (acc : Z) (s : string) : option Z :=
  match s with
  | EmptyString => Some acc
  | String c t =>
      if is_digit c then digits_value (10 * acc + digit_val c) t else None
  end.

End Str.

(** ** Python floats: IEEE-754 binary64 *)

Module PyFloat.

Definition prec : Z := 53.
Definition emax : Z := 1024.

Definition float : Type := spec_float.

Definition valid (x : float) : bool := valid_binary prec emax x.

Definition mul : float -> float -> float := SFmul prec emax.
Definition div : float -> float -> float := SFdiv prec emax.
Definition leb : float -> float -> bool := SFleb.
Definition ltb : float -> float -> bool := SFltb.
Definition eqb : float -> float -> bool := SFeqb.

Definition is_nan (x : float) : bool :=
  match x with S754_nan => true | _ => false end.

(** The binary64 value nearest to [n * 10^k] (ties to even): what the
    interpreter computes for a decimal literal or a decimal string. *)
Definition of_decimal (neg : bool) (n : Z) (k : Z) : float :=
  match n with
  | Zpos p =>
      if 0 <=? k then binary_round prec emax neg (p * Z.to_pos (10 ^ k)) 0
      else div (S754_finite neg p 0)
               (S754_finite false (Z.to_pos (10 ^ (- k))) 0)
  | _ => S754_zero neg
  end.

(** [float(n)] for an [int] [n]; [None] stands for [OverflowError]
    (the nearest binary64 value would be infinite). *)
Definition of_int (n : Z) : option float :=
  match binary_normalize prec emax n 0 false with
  | S754_infinity _ => None
  | x => Some x
  end.

(** *** [float(s)] for a [str] [s] *)

(** [digit (["_"] digit)*] continued: value so far, number of digits so
    far, and the unread rest. *)
Fixpoint digitpart_go (acc : Z) (n : Z) (s : string) : Z * Z * string :=
  match s with
  | String c t =>
      if Str.is_digit c then digitpart_go (10 * acc + Str.digit_val c) (n + 1) t
      else if Ascii.eqb c "_" then
        match t with
        | String d u =>
            if Str.is_digit d
            then digitpart_go (10 * acc + Str.digit_val d) (n + 1) u
            else (acc, n, s)
        | EmptyString => (acc, n, s)
        end
      else (acc, n, s)
  | EmptyString => (acc, n, s)
  end.

Definition digitpart (s : string) : option (Z * Z * string) :=
  match s with
  | String c t =>
      if Str.is_digit c then Some (digitpart_go (Str.digit_val c) 1 t) else None
  | EmptyString => None
  end.

(** An optional sign: [true] for ["-"]. *)
Definition sign (s : string) : bool * string :=
  match s with
  | String "-" t => (true, t)
  | String "+" t => (false, t)
  | _ => (false, s)
  end.

(** [number ::= [digitpart] "." digitpart | digitpart ["."]]: the digits
    read as an integer, and how many of them follow the point. *)
Definition number (s : string) : option (Z * Z * string) :=
  match digitpart s with
  | Some (i, _, String "." t) =>
      match digitpart t with
      | Some (f, nf, rest) => Some (i * 10 ^ nf + f, nf, rest)
      | None => Some (i, 0, t)
      end
  | Some (i, _, rest) => Some (i, 0, rest)
  | None =>
      match s with
      | String "." t =>
          match digitpart t with
          | Some (f, nf, rest) => Some (f, nf, rest)
          | None => None
          end
      | _ => None
      end
  end.

(** [exponent ::= ("e" | "E") [sign] digitpart], absent when the rest
    is empty. *)
Definition exponent (s : string) : option Z :=
  match s with
  | EmptyString => Some 0
  | String c t =>
      if Ascii.eqb (Str.lower c) "e" then
        let '(neg, u) := sign t in
        match digitpart u with
        | Some (x, _, EmptyString) => Some (if neg then - x else x)
        | _ => None
        end
      else None
  end.

(** [float(s)]; [None] stands for [ValueError]. *)
Definition of_str (s : string) : option float :=
  let '(neg, body) := sign (Str.literal s) in
  let word := Str.map Str.lower body in
  if String.eqb word "inf" || String.eqb word "infinity"
  then Some (S754_infinity neg)
  else if String.eqb word "nan" then Some S754_nan
  else
    match number body with
    | Some (n, nf, rest) =>
        match exponent rest with
        | Some x => Some (of_decimal neg n (x - nf))
        | None => None
        end
    | None => None
    end.

(** *** [format(x, ".2f")] *)

(** [a / b] rounded to the nearest integer, ties to even ([b > 0]). *)
Definition div_half_even (a b : Z) : Z :=
  let q := a / b in
  match 2 * (a mod b) ?= b with
  | Lt => q
  | Gt => q + 1
  | Eq => if Z.even q then q else q + 1
  end.

(** [|x| * 100] rounded to an integer, ties to even, from the exact
    binary value [m * 2^e]. *)
Definition hundredths (m : positive) (e : Z) : Z :=
  if 0 <=? e then 100 * Zpos m * 2 ^ e
  else div_half_even (100 * Zpos m) (2 ^ (- e)).

Definition sign_str (s : bool) : string := if s then "-" else "".

Definition fixed2 (c : Z) : string :=
  Str.of_nonneg (c / 100) ++ "." ++ Str.zero_pad 2 (c mod 100).

Definition format_2f (x : float) : string :=
  match x with
  | S754_nan => "nan"
  | S754_infinity s => sign_str s ++ "inf"
  | S754_zero s => sign_str s ++ "0.00"
  | S754_finite s m e => sign_str s ++ fixed2 (hundredths m e)
  end.

(** *** The literals of [employee.py] *)

Definition lit_50000 : float := Eval vm_compute in of_decimal false 50000 0.
Definition lit_15 : float := Eval vm_compute in of_decimal false 15 0.
Definition lit_99_99 : float := Eval vm_compute in of_decimal false 9999 (-2).
Definition lit_52 : float := Eval vm_compute in of_decimal false 52 0.
Definition lit_40 : float := Eval vm_compute in of_decimal false 40 0.

End PyFloat.

(** ** [datetime.datetime] (naive) *)

Module Datetime.

Record datetime := mk {
  year : Z; month : Z; day : Z;
  hour : Z; minute : Z; second : Z; microsecond : Z }.

Definition is_leap (y : Z) : bool :=
  (y mod 4 =? 0) && (negb (y mod 100 =? 0) || (y mod 400 =? 0)).

Definition days_in_month (y m : Z) : Z :=
  if m =? 2 then (if is_leap y then 29 else 28)
  else if (m =? 4) || (m =? 6) || (m =? 9) || (m =? 11) then 30
  else 31.

(** The range checks of the [datetime] constructor. *)
Definition valid (d : datetime) : bool :=
  (1 <=? year d) && (year d <=? 9999)
  && (1 <=? month d) && (month d <=? 12)
  && (1 <=? day d) && (day d <=? days_in_month (year d) (month d))
  && (0 <=? hour d) && (hour d <=? 23)
  && (0 <=? minute d) && (minute d <=? 59)
  && (0 <=? second d) && (second d <=? 59)
  && (0 <=? microsecond d) && (microsecond d <=? 999999).

(** [str(d)], that is [d.isoformat(sep=" ")]: the fraction is printed
    only when the microsecond is not zero. *)
Definition to_str (d : datetime) : string :=
  Str.zero_pad 4 (year d) ++ "-" ++ Str.zero_pad 2 (month d) ++ "-"
  ++ Str.zero_pad 2 (day d) ++ " " ++ Str.zero_pad 2 (hour d) ++ ":"
  ++ Str.zero_pad 2 (minute d) ++ ":" ++ Str.zero_pad 2 (second d)
  ++ (if microsecond d =? 0 then "" else "." ++ Str.zero_pad 6 (microsecond d)).

(** *** [datetime.strptime(s, "%Y-%m-%d %H:%M:%S")]

    The format compiles to the regular expression
    [\d\d\d\d - (1[0-2]|0[1-9]|[1-9]) - (3[0-1]|[1-2]\d|0[1-9]|[1-9]| [1-9])
     \s+ (2[0-3]|[0-1]\d|\d) : ([0-5]\d|\d) : (6[0-1]|[0-5]\d|\d)]
    which must consume the whole string.  Every numeric field is
    followed by a character that is not a digit (or by the end), so a
    field is the maximal run of digits at its position. *)

Fixpoint span_digits (s : string) : string * string :=
  match s with
  | String c t =>
      if Str.is_digit c
      then let '(run, rest) := span_digits t in (String c run, rest)
      else (EmptyString, s)
  | EmptyString => (EmptyString, EmptyString)
  end.

(** A numeric field of one or two digits: [two a b] accepts the
    two-digit alternatives, [one a] the one-digit alternative. *)
Definition field (two : Z -> Z -> bool) (one : Z -> bool) (run : string)
  : option Z :=
  match run with
  | String a (String b EmptyString) =>
      let x := Str.digit_val a in
      let y := Str.digit_val b in
      if two x y then Some (10 * x + y) else None
  | String a EmptyString =>
      let x := Str.digit_val a in
      if one x then Some x else None
  | _ => None
  end.

Definition field_Y (run : string) : option Z :=
  if (String.length run =? 4)%nat then Str.digits_value 0 run else None.

Definition field_m : string -> option Z :=
  field (fun a b => ((a =? 1) && (b <=? 2)) || ((a =? 0) && (1 <=? b)))
        (fun a => 1 <=? a).

Definition field_d : string -> option Z :=
  field (fun a b => ((a =? 3) && (b <=? 1)) || ((1 <=? a) && (a <=? 2))
                    || ((a =? 0) && (1 <=? b)))
        (fun a => 1 <=? a).

Definition field_H : string -> option Z :=
  field (fun a b => ((a =? 2) && (b <=? 3)) || (a <=? 1)) (fun _ => true).

Definition field_M : string -> option Z :=
  field (fun a _ => a <=? 5) (fun _ => true).

Definition field_S : string -> option Z :=
  field (fun a b => ((a =? 6) && (b <=? 1)) || (a <=? 5)) (fun _ => true).

(** A literal character of the format. *)
Definition expect (c : ascii) (s : string) : option string :=
  match s with
  | String d t => if Ascii.eqb c d then Some t else None
  | EmptyString => None
  end.

(** [\s+] *)
Definition spaces (s : string) : option string :=
  match s with
  | String c t => if Str.is_space c then Some (Str.lstrip t) else None
  | EmptyString => None
  end.

(** The day field.  Its alternatives that start with a digit come
    first; the last one is a space and one digit from 1 to 9. *)
Definition day_field (s : string) : option (Z * string) :=
  let '(run, rest) := span_digits s in
  match run with
  | EmptyString =>
      match s with
      | String c (String d t) =>
          if Ascii.eqb c " " && Str.is_digit d && (1 <=? Str.digit_val d)
          then Some (Str.digit_val d, t) else None
      | _ => None
      end
  | _ =>
      match field_d run with
      | Some d => Some (d, rest)
      | None => None
      end
  end.

(** [None] stands for [ValueError] (no match, unconverted data, or a
    field combination the [datetime] constructor refuses). *)
Definition strptime (s : string) : option datetime :=
  let '(ry, s1) := span_digits s in
  match field_Y ry, expect "-" s1 with
  | Some y, Some s2 =>
      let '(rm, s3) := span_digits s2 in
      match field_m rm, expect "-" s3 with
      | Some m, Some s4 =>
          match day_field s4 with
          | Some (d, s5) =>
              match spaces s5 with
              | Some s6 =>
                  let '(rH, s7) := span_digits s6 in
                  match field_H rH, expect ":" s7 with
                  | Some hh, Some s8 =>
                      let '(rM, s9) := span_digits s8 in
                      match field_M rM, expect ":" s9 with
                      | Some mm, Some s10 =>
                          let '(rS, s11) := span_digits s10 in
                          match field_S rS, s11 with
                          | Some ss, EmptyString =>
                              let dt := mk y m d hh mm ss 0 in
                              if valid dt then Some dt else None
                          | _, _ => None
                          end
                      | _, _ => None
                      end
                  | _, _ => None
                  end
              | None => None
              end
          | None => None
          end
      | _, _ => None
      end
  | _, _ => None
  end.

End Datetime.

Import PyFloat.
Import Datetime.

(** ** Values, exceptions and builtin conversions *)

(** The members of the two enumerations, with their values. *)
Inductive Role := ceo | cfo | cio.
Inductive Department := accounting | finance | hr | r_and_d | machining.

Definition Role_value (r : Role) : Z :=
  match r with ceo => 1 | cfo => 2 | cio => 3 end.

Definition Department_value (d : Department) : Z :=
  match d with
  | accounting => 1 | finance => 2 | hr => 3 | r_and_d => 4 | machining => 5
  end.

(** [for role in Role], in definition order. *)
Definition Role_members : list Role := [ceo; cfo; cio].
Definition Department_members : list Department :=
  [accounting; finance; hr; r_and_d; machining].

(** [Role(v)] and [Department(v)]: the member with value [v]. *)
Definition Role_of_value (v : Z) : option Role :=
  find (fun r => Role_value r =? v) Role_members.

Definition Department_of_value (v : Z) : option Department :=
  find (fun d => Department_value d =? v) Department_members.

(** The dynamically typed values that reach the model. *)
Inductive pyval :=
| PNone
| PBool (b : bool)
| PInt (n : Z)
| PFloat (x : float)
| PStr (s : string)
| PDatetime (d : datetime)
| PRole (r : Role)
| PDepartment (d : Department).

(** The text of an exception: a literal, an f-string that starts with a
    float (whose shortest-repr rendering is kept symbolic), or the text
    the interpreter chooses for a builtin's error. *)
Inductive message :=
| Msg (text : string)
| MsgFloat (x : float) (text : string)
| MsgBuiltin.

Inductive exn :=
| ValueError (m : message)
| TypeError (m : message)
| OverflowError (m : message)
| AttributeError (m : message)
| IndexError (m : message)
| InvalidRoleException (m : message)
| InvalidDepartmentException (m : message)
| csv_Error (m : message).

Inductive result (A : Type) :=
| Ok (a : A)
| Raise (e : exn).
Arguments Ok {A} a.
Arguments Raise {A} e.

Module Builtins.

(** [isinstance(v, int)]; [bool] is a subclass of [int]. *)
Definition isinstance_int (v : pyval) : bool :=
  match v with PInt _ | PBool _ => true | _ => false end.

(** [v == n] for an [int] [n]. *)
Definition eq_int (v : pyval) (n : Z) : bool :=
  match v with
  | PInt k => k =? n
  | PBool b => (if b then 1 else 0) =? n
  | PFloat x =>
      match PyFloat.of_int n with
      | Some y => PyFloat.eqb x y
      | None => false
      end
  | _ => false
  end.

(** [v in values] for a list of [int]s. *)
Definition in_ints (v : pyval) (values : list Z) : bool :=
  existsb (eq_int v) values.

(** The integer an [int] instance denotes. *)
Definition int_value (v : pyval) : option Z :=
  match v with
  | PInt k => Some k
  | PBool b => Some (if b then 1 else 0)
  | _ => None
  end.

(** [float(v)] *)
Definition float (v : pyval) : result PyFloat.float :=
  match v with
  | PFloat x => Ok x
  | PInt n =>
      match PyFloat.of_int n with
      | Some x => Ok x
      | None => Raise (OverflowError MsgBuiltin)
      end
  | PBool b => Ok (if b then PyFloat.of_decimal false 1 0 else S754_zero false)
  | PStr s =>
      match PyFloat.of_str s with
      | Some x => Ok x
      | None => Raise (ValueError MsgBuiltin)
      end
  | _ => Raise (TypeError MsgBuiltin)
  end.

(** [sys.get_int_max_str_digits()], as the interpreter starts. *)
Definition max_str_digits : Z := 4300.

(** [int(s)] for a [str]: an optional sign and a [digitpart], with the
    surrounding white space ignored; [None] stands for [ValueError],
    which is also what more than [max_str_digits] digits get. *)
Definition int_of_str (s : string) : option Z :=
  let '(neg, body) := PyFloat.sign (Str.literal s) in
  match PyFloat.digitpart body with
  | Some (n, k, EmptyString) =>
      if k <=? max_str_digits then Some (if neg then - n else n) else None
  | _ => None
  end.

(** [int(x)] for a [float]: truncation towards zero. *)
Definition int_of_float (x : PyFloat.float) : result Z :=
  match x with
  | S754_zero _ => Ok 0
  | S754_finite s m e =>
      let a := if 0 <=? e then Zpos m * 2 ^ e else Zpos m / 2 ^ (- e) in
      Ok (if s then - a else a)
  | S754_infinity _ => Raise (OverflowError MsgBuiltin)
  | S754_nan => Raise (ValueError MsgBuiltin)
  end.

(** [int(v)] *)
Definition int (v : pyval) : result Z :=
  match v with
  | PInt n => Ok n
  | PBool b => Ok (if b then 1 else 0)
  | PFloat x => int_of_float x
  | PStr s =>
      match int_of_str s with
      | Some n => Ok n
      | None => Raise (ValueError MsgBuiltin)
      end
  | _ => Raise (TypeError MsgBuiltin)
  end.

(** [datetime.strptime(v, "%Y-%m-%d %H:%M:%S")] *)
Definition strptime (v : pyval) : result datetime :=
  match v with
  | PStr s =>
      match Datetime.strptime s with
      | Some d => Ok d
      | None => Raise (ValueError MsgBuiltin)
      end
  | _ => Raise (TypeError MsgBuiltin)
  end.

End Builtins.

(** ** Methods: state and exceptions *)

Definition M (S A : Type) : Type := S -> result A * S.

Definition ret {S A} (a : A) : M S A := fun s => (Ok a, s).

Definition raise {S A} (e : exn) : M S A := fun s => (Raise e, s).

Definition bind {S A B} (m : M S A) (k : A -> M S B) : M S B :=
  fun s =>
    match m s with
    | (Ok a, s') => k a s'
    | (Raise e, s') => (Raise e, s')
    end.

(** The result of a builtin, raised in place when it is an exception. *)
Definition lift {S A} (r : result A) : M S A := fun s => (r, s).

Notation "x <- m ;; k" := (bind m (fun x => k))
  (at level 61, m at next level, right associativity).
Notation "m ;; k" := (bind m (fun _ => k))
  (at level 61, right associativity).
Notation "' pat <- m ;; k" :=
  (bind m (fun x => match x with pat => k end))
  (at level 61, pat pattern, m at next level, right associativity).

(** ** Classes and instances *)

Inductive class :=
| cEmployee | cSalaried | cHourly
| cExecutive | cManager | cPermanent | cTemp.

Definition class_eqb (a b : class) : bool :=
  match a, b with
  | cEmployee, cEmployee | cSalaried, cSalaried | cHourly, cHourly
  | cExecutive, cExecutive | cManager, cManager
  | cPermanent, cPermanent | cTemp, cTemp => true
  | _, _ => false
  end.

(** [cls.__name__] *)
Definition class_name (c : class) : string :=
  match c with
  | cEmployee => "Employee" | cSalaried => "Salaried" | cHourly => "Hourly"
  | cExecutive => "Executive" | cManager => "Manager"
  | cPermanent => "Permanent" | cTemp => "Temp"
  end.

(** The method resolution order: the class, then its bases up to
    [Employee] ([ABC] and [object] define nothing of interest). *)
Definition mro (c : class) : list class :=
  match c with
  | cEmployee => [cEmployee]
  | cSalaried => [cSalaried; cEmployee]
  | cHourly => [cHourly; cEmployee]
  | cExecutive => [cExecutive; cSalaried; cEmployee]
  | cManager => [cManager; cSalaried; cEmployee]
  | cPermanent => [cPermanent; cHourly; cEmployee]
  | cTemp => [cTemp; cHourly; cEmployee]
  end.

Definition issubclass (c base : class) : bool :=
  existsb (class_eqb base) (mro c).

(** The functions each class body defines, with the flag
    [__isabstractmethod__]. *)
Definition functions (c : class) : list (string * bool) :=
  match c with
  | cEmployee =>
      [("__init__", false); ("__str__", false); ("__repr__", false);
       ("calc_pay", true)]
  | cSalaried | cHourly =>
      [("__init__", false); ("calc_pay", false); ("__repr__", false)]
  | cExecutive | cManager | cPermanent | cTemp =>
      [("__init__", false); ("__repr__", false)]
  end.

Module ABCMeta.

Definition lookup (name : string) (fs : list (string * bool)) : option bool :=
  match find (fun f => String.eqb (fst f) name) fs with
  | Some f => Some (snd f)
  | None => None
  end.

(** [getattr(getattr(cls, name, None), "__isabstractmethod__", False)]
    along a resolution order. *)
Fixpoint resolves_abstract (chain : list class) (name : string) : bool :=
  match chain with
  | [] => false
  | c :: rest =>
      match lookup name (functions c) with
      | Some a => a
      | None => resolves_abstract rest name
      end
  end.

Definition own_abstract (c : class) : list string :=
  List.map fst (filter snd (functions c)).

(** [cls.__abstractmethods__] as [ABCMeta.__new__] computes it: the
    abstract functions of the class body, and those abstract names of
    the base that still resolve to an abstract function. *)
Fixpoint abstracts (chain : list class) : list string :=
  match chain with
  | [] => []
  | c :: rest =>
      (own_abstract c
       ++ filter (resolves_abstract (c :: rest)) (abstracts rest))%list
  end.

Definition abstractmethods (c : class) : list string := abstracts (mro c).

(** [object.__new__] refuses a class with abstract methods left. *)
Definition instantiable (c : class) : bool :=
  match abstractmethods c with [] => true | _ => false end.

End ABCMeta.

(** An instance: its class and its attribute slots. *)
Record object := mkObject {
  ob_class : class;
  _name : option string;
  _email : option string;
  _image : option string;
  _id_number : option Z;
  _yearly : option float;
  _hourly : option float;
  _role : option Role;
  _department : option Department;
  _hired_date : option datetime;
  _last_day : option datetime }.

(** What [object.__new__(cls)] returns: no attribute assigned yet. *)
Definition fresh (c : class) : object :=
  mkObject c None None None None None None None None None None.

(** What a method body can see and change: the class attribute
    [Employee._current_id] and the receiver. *)
Record state := mkState { current_id : Z; self : object }.

(** [self.<slot> = v] *)
Definition assign (upd : object -> object) : M state unit :=
  fun st => (Ok tt, mkState (current_id st) (upd (self st))).

(** [self.<slot>]: [AttributeError] while the slot was never assigned. *)
Definition attr {A} (slot : object -> option A) (name : string) : M state A :=
  fun st =>
    match slot (self st) with
    | Some a => (Ok a, st)
    | None => (Raise (AttributeError (Msg name)), st)
    end.

Definition with_name v o :=
  mkObject (ob_class o) (Some v) (_email o) (_image o) (_id_number o)
    (_yearly o) (_hourly o) (_role o) (_department o) (_hired_date o)
    (_last_day o).
Definition with_email v o :=
  mkObject (ob_class o) (_name o) (Some v) (_image o) (_id_number o)
    (_yearly o) (_hourly o) (_role o) (_department o) (_hired_date o)
    (_last_day o).
Definition with_image v o :=
  mkObject (ob_class o) (_name o) (_email o) (Some v) (_id_number o)
    (_yearly o) (_hourly o) (_role o) (_department o) (_hired_date o)
    (_last_day o).
Definition with_id_number v o :=
  mkObject (ob_class o) (_name o) (_email o) (_image o) (Some v)
    (_yearly o) (_hourly o) (_role o) (_department o) (_hired_date o)
    (_last_day o).
Definition with_yearly v o :=
  mkObject (ob_class o) (_name o) (_email o) (_image o) (_id_number o)
    (Some v) (_hourly o) (_role o) (_department o) (_hired_date o)
    (_last_day o).
Definition with_hourly v o :=
  mkObject (ob_class o) (_name o) (_email o) (_image o) (_id_number o)
    (_yearly o) (Some v) (_role o) (_department o) (_hired_date o)
    (_last_day o).
Definition with_role v o :=
  mkObject (ob_class o) (_name o) (_email o) (_image o) (_id_number o)
    (_yearly o) (_hourly o) (Some v) (_department o) (_hired_date o)
    (_last_day o).
Definition with_department v o :=
  mkObject (ob_class o) (_name o) (_email o) (_image o) (_id_number o)
    (_yearly o) (_hourly o) (_role o) (Some v) (_hired_date o)
    (_last_day o).
Definition with_hired_date v o :=
  mkObject (ob_class o) (_name o) (_email o) (_image o) (_id_number o)
    (_yearly o) (_hourly o) (_role o) (_department o) (Some v)
    (_last_day o).
Definition with_last_day v o :=
  mkObject (ob_class o) (_name o) (_email o) (_image o) (_id_number o)
    (_yearly o) (_hourly o) (_role o) (_department o) (_hired_date o)
    (Some v).

(** ** [class Employee(ABC)] *)

Module Employee.

Definition IMAGE_PLACEHOLDER : string :=
  "./imagesForProject2CIS163/placeholder.png".

Definition DOMAIN : string := "@acme-machining.com".

Definition id_number : M state Z := attr _id_number "_id_number".
Definition name : M state string := attr _name "_name".
Definition email : M state string := attr _email "_email".
Definition image : M state string := attr _image "_image".

(** [if not isinstance(new_name, str) or len(new_name) <= 0: raise] *)
Definition set_name (new_name : pyval) : M state unit :=
  match new_name with
  | PStr s =>
      if (String.length s <=? 0)%nat
      then raise (ValueError (Msg "Name must be a non-empty string"))
      else assign (with_name s)
  | _ => raise (ValueError (Msg "Name must be a non-empty string"))
  end.

(** [if not isinstance(new_email, str) or len(new_email) <= 0
       or "@acme-machining.com" not in new_email: raise] *)
Definition set_email (new_email : pyval) : M state unit :=
  match new_email with
  | PStr s =>
      if (String.length s <=? 0)%nat || negb (Str.contains DOMAIN s)
      then raise (ValueError (Msg
        "Email must be a non-empty string containing '@acme-machining.com'."))
      else assign (with_email s)
  | _ => raise (ValueError (Msg
        "Email must be a non-empty string containing '@acme-machining.com'."))
  end.

(** [if not isinstance(new_image, str) or len(new_image) == 0: raise] *)
Definition set_image (new_image : pyval) : M state unit :=
  match new_image with
  | PStr s =>
      if (String.length s =? 0)%nat
      then raise (ValueError (Msg "Image must be a non-empty string."))
      else assign (with_image s)
  | _ => raise (ValueError (Msg "Image must be a non-empty string."))
  end.

Definition __init__ (name email : pyval) : M state unit :=
  set_name name ;;
  set_email email ;;
  set_image (PStr IMAGE_PLACEHOLDER) ;;
  (fun st => assign (with_id_number (current_id st)) st) ;;
  (fun st => (Ok tt, mkState (current_id st + 1) (self st))).

(** [f"{self.id_number}:{self.name}"] *)
Definition __str__ : M state string :=
  i <- id_number ;;
  n <- name ;;
  ret (Str.of_Z i ++ ":" ++ n).

(** [f"{self.name},{self.email},{self.image}"] *)
Definition __repr__ : M state string :=
  n <- name ;;
  e <- email ;;
  i <- image ;;
  ret (n ++ "," ++ e ++ "," ++ i).

(** The abstract method: its body is [pass]. *)
Definition calc_pay : M state pyval := ret PNone.

End Employee.

(** [type(self).__name__] *)
Definition type_name : M state string :=
  fun st => (Ok (class_name (ob_class (self st))), st).

(** ** [class Salaried(Employee)] *)

Module Salaried.

Definition yearly : M state float := attr _yearly "_yearly".

(** [yearly_amount = float(yearly_amount)], then
    [if not isinstance(yearly_amount, float) or yearly_amount <= 50_000.00:
       raise].  After the conversion the value is a float, so the
    [isinstance] test never fires. *)
Definition set_yearly (yearly_amount : pyval) : M state unit :=
  y <- lift (Builtins.float yearly_amount) ;;
  if PyFloat.leb y lit_50000
  then raise (ValueError (MsgFloat y " isn't a float greater than $50,000"))
  else assign (with_yearly y).

Definition __init__ (name email yearly : pyval) : M state unit :=
  Employee.__init__ name email ;;
  y <- lift (Builtins.float yearly) ;;
  set_yearly (PFloat y).

(** [float(self.yearly / 52.0)] *)
Definition calc_pay : M state float :=
  y <- yearly ;;
  ret (PyFloat.div y lit_52).

(** [f"{type(self).__name__},{super().__repr__()},{self.yearly:.2f}"] *)
Definition __repr__ : M state string :=
  t <- type_name ;;
  base <- Employee.__repr__ ;;
  y <- yearly ;;
  ret (t ++ "," ++ base ++ "," ++ format_2f y).

End Salaried.

(** ** [class Hourly(Employee)] *)

Module Hourly.

Definition hourly : M state float := attr _hourly "_hourly".

(** [new_hourly = float(new_hourly)], then
    [if not isinstance(new_hourly, float)
       or not 15.00 <= new_hourly <= 99.99: raise]. *)
Definition set_hourly (new_hourly : pyval) : M state unit :=
  h <- lift (Builtins.float new_hourly) ;;
  if negb (PyFloat.leb lit_15 h && PyFloat.leb h lit_99_99)
  then raise (ValueError (Msg
    "Hourly wage must be a float between 15.00 and 99.00 inclusive."))
  else assign (with_hourly h).

Definition __init__ (name email hourly_pay : pyval) : M state unit :=
  Employee.__init__ name email ;;
  h <- lift (Builtins.float hourly_pay) ;;
  set_hourly (PFloat h).

(** [float(self.hourly * 40)]: the [int] 40 is converted to 40.0. *)
Definition calc_pay : M state float :=
  h <- hourly ;;
  ret (PyFloat.mul h lit_40).

(** [f"{type(self).__name__},{super().__repr__()},{self.hourly:.2f}"] *)
Definition __repr__ : M state string :=
  t <- type_name ;;
  base <- Employee.__repr__ ;;
  h <- hourly ;;
  ret (t ++ "," ++ base ++ "," ++ format_2f h).

End Hourly.

(** ** [class Executive(Salaried)] *)

Module Executive.

Definition role : M state Role := attr _role "_role".

(** [all_role_vals = [role.value for role in Role]], then
    [if new_role not in all_role_vals or not isinstance(new_role, int):
       raise], then [self._role = Role(new_role)]. *)
Definition set_role (new_role : pyval) : M state unit :=
  let all_role_vals := List.map Role_value Role_members in
  if negb (Builtins.in_ints new_role all_role_vals)
     || negb (Builtins.isinstance_int new_role)
  then raise (InvalidRoleException (Msg "The role must be a valid Role object."))
  else
    match Builtins.int_value new_role with
    | Some v =>
        match Role_of_value v with
        | Some r => assign (with_role r)
        | None => raise (ValueError MsgBuiltin)
        end
    | None => raise (ValueError MsgBuiltin)
    end.

Definition __init__ (name email yearly_amount role : pyval) : M state unit :=
  Salaried.__init__ name email yearly_amount ;;
  r <- lift (Builtins.int role) ;;
  set_role (PInt r).

(** [f"{super().__repr__()},{self.role.value}"] *)
Definition __repr__ : M state string :=
  base <- Salaried.__repr__ ;;
  r <- role ;;
  ret (base ++ "," ++ Str.of_Z (Role_value r)).

End Executive.

(** ** [class Manager(Salaried)] *)

Module Manager.

Definition department : M state Department := attr _department "_department".

(** [all_depts = [dept.value for dept in Department]], then
    [if new_dept not in all_depts or not isinstance(new_dept, int):
       raise], then [self._department = Department(new_dept)]. *)
Definition set_department (new_dept : pyval) : M state unit :=
  let all_depts := List.map Department_value Department_members in
  if negb (Builtins.in_ints new_dept all_depts)
     || negb (Builtins.isinstance_int new_dept)
  then raise (InvalidDepartmentException
                (Msg "Can only be changed to a valid department."))
  else
    match Builtins.int_value new_dept with
    | Some v =>
        match Department_of_value v with
        | Some d => assign (with_department d)
        | None => raise (ValueError MsgBuiltin)
        end
    | None => raise (ValueError MsgBuiltin)
    end.

Definition __init__ (name email yearly department : pyval) : M state unit :=
  Salaried.__init__ name email yearly ;;
  d <- lift (Builtins.int department) ;;
  set_department (PInt d).

(** [f"{super().__repr__()},{self.department.value}"] *)
Definition __repr__ : M state string :=
  base <- Salaried.__repr__ ;;
  d <- department ;;
  ret (base ++ "," ++ Str.of_Z (Department_value d)).

End Manager.

(** ** [class Permanent(Hourly)] *)

Module Permanent.

Definition hired_date : M state datetime := attr _hired_date "_hired_date".

(** [if not isinstance(date, datetime): raise] *)
Definition set_hired_date (date : pyval) : M state unit :=
  match date with
  | PDatetime d => assign (with_hired_date d)
  | _ => raise (ValueError (Msg "A non-date instance was passed."))
  end.

Definition __init__ (name email hourly_pay hired_date : pyval) : M state unit :=
  Hourly.__init__ name email hourly_pay ;;
  d <- lift (Builtins.strptime hired_date) ;;
  set_hired_date (PDatetime d).

(** [f"{super().__repr__()},{self.hired_date}"] *)
Definition __repr__ : M state string :=
  base <- Hourly.__repr__ ;;
  d <- hired_date ;;
  ret (base ++ "," ++ Datetime.to_str d).

End Permanent.

(** ** [class Temp(Hourly)] *)

Module Temp.

Definition last_day : M state datetime := attr _last_day "_last_day".

(** [if not isinstance(new_date, datetime): raise] *)
Definition set_last_day (new_date : pyval) : M state unit :=
  match new_date with
  | PDatetime d => assign (with_last_day d)
  | _ => raise (ValueError (Msg "A non-datetime instance was passed."))
  end.

Definition __init__ (name email hourly last_day : pyval) : M state unit :=
  Hourly.__init__ name email hourly ;;
  d <- lift (Builtins.strptime last_day) ;;
  set_last_day (PDatetime d).

(** [f"{super().__repr__()},{self.last_day}"] *)
Definition __repr__ : M state string :=
  base <- Hourly.__repr__ ;;
  d <- last_day ;;
  ret (base ++ "," ++ Datetime.to_str d).

End Temp.

(** ** Instantiation and dynamic dispatch *)

(** Calling a class: [object.__new__] refuses an abstract class, otherwise
    [__init__] runs on a fresh instance.  The world outside a method is
    the class attribute [Employee._current_id]; what [__init__] did to
    it stays done when [__init__] raises. *)
Definition new (c : class) (init : M state unit) : M Z object :=
  fun next_id =>
    if ABCMeta.instantiable c then
      match init (mkState next_id (fresh c)) with
      | (Ok _, st) => (Ok (self st), current_id st)
      | (Raise e, st) => (Raise e, current_id st)
      end
    else (Raise (TypeError (Msg "Can't instantiate abstract class")), next_id).

(** A constructor call: the class and its positional arguments. *)
Inductive call :=
| Employee_ (name email : pyval)
| Salaried_ (name email yearly : pyval)
| Hourly_ (name email hourly_pay : pyval)
| Executive_ (name email yearly_amount role : pyval)
| Manager_ (name email yearly department : pyval)
| Permanent_ (name email hourly_pay hired_date : pyval)
| Temp_ (name email hourly last_day : pyval).

Definition construct (c : call) : M Z object :=
  match c with
  | Employee_ n e => new cEmployee (Employee.__init__ n e)
  | Salaried_ n e y => new cSalaried (Salaried.__init__ n e y)
  | Hourly_ n e h => new cHourly (Hourly.__init__ n e h)
  | Executive_ n e y r => new cExecutive (Executive.__init__ n e y r)
  | Manager_ n e y d => new cManager (Manager.__init__ n e y d)
  | Permanent_ n e h d => new cPermanent (Permanent.__init__ n e h d)
  | Temp_ n e h d => new cTemp (Temp.__init__ n e h d)
  end.

(** [self.__repr__()], resolved on the class of the receiver. *)
Definition __repr__ : M state string :=
  fun st =>
    match ob_class (self st) with
    | cEmployee => Employee.__repr__ st
    | cSalaried => Salaried.__repr__ st
    | cHourly => Hourly.__repr__ st
    | cExecutive => Executive.__repr__ st
    | cManager => Manager.__repr__ st
    | cPermanent => Permanent.__repr__ st
    | cTemp => Temp.__repr__ st
    end.

(** [self.calc_pay()], resolved on the class of the receiver. *)
Definition calc_pay : M state pyval :=
  fun st =>
    match ob_class (self st) with
    | cEmployee => Employee.calc_pay st
    | cSalaried | cExecutive | cManager =>
        (p <- Salaried.calc_pay ;; ret (PFloat p)) st
    | cHourly | cPermanent | cTemp =>
        (p <- Hourly.calc_pay ;; ret (PFloat p)) st
    end.

(** ** [gui.py]: rebuilding employees from rows, and writing them out *)

(** Running a method on an instance held in a local variable: the
    method sees the class counter and the instance, and both come back
    as the method left them. *)
Definition on_object {A} (m : M state A) (o : object) : M Z (A * object) :=
  fun next_id =>
    match m (mkState next_id o) with
    | (Ok a, st) => (Ok (a, self st), current_id st)
    | (Raise e, st) => (Raise e, current_id st)
    end.

(** ** Text files and the [csv] reader *)

Module TextFile.

(** Reading in text mode with the default [newline]: ["\r\n"] and a
    lone ["\r"] are read as ["\n"]. *)
Fixpoint translate (s : string) : string :=
  match s with
  | EmptyString => EmptyString
  | String c t =>
      if Ascii.eqb c "013" then
        String "010"
          match t with
          | String d u => if Ascii.eqb d "010" then translate u else translate t
          | EmptyString => EmptyString
          end
      else String c (translate t)
  end.

(** The lines of a text, each with its ["\n"]; the last one has none
    when the text does not end with one.  [cur] is the line so far,
    reversed. *)
Fixpoint lines_go (s cur : string) : list string :=
  match s with
  | EmptyString =>
      match cur with
      | EmptyString => []
      | _ => [Str.rev cur]
      end
  | String c t =>
      if Ascii.eqb c "010"
      then Str.rev (String c cur) :: lines_go t EmptyString
      else lines_go t (String c cur)
  end.

(** What iterating over the open file yields. *)
Definition lines (text : string) : list string :=
  lines_go (translate text) EmptyString.

End TextFile.

(** [csv.reader(datafile, quoting=csv.QUOTE_MINIMAL)]: the dialect is
    [excel], so the delimiter is a comma, the quote character is the
    double quote, a quote inside a quoted field is written twice,
    there is no escape character (the two parser states that follow
    one are never entered), and the reader is not strict. *)
Module Csv.

Inductive parser_state :=
| START_RECORD
| START_FIELD
| IN_FIELD
| IN_QUOTED_FIELD
| QUOTE_IN_QUOTED_FIELD
| EAT_CRNL.

(** [csv.field_size_limit()] *)
Definition field_limit : Z := 131072.

(** The reader between two characters: the state, the fields saved so
    far, and the field being read (reversed) with its length. *)
Record parser := mkParser {
  state : parser_state;
  fields : list string;
  field : string;
  field_len : Z }.

Definition parse_reset : parser := mkParser START_RECORD [] EmptyString 0.

Definition goto (st : parser_state) (p : parser) : parser :=
  mkParser st (fields p) (field p) (field_len p).

Definition parse_save_field (p : parser) : parser :=
  mkParser (state p) (fields p ++ [Str.rev (field p)]) EmptyString 0.

Definition parse_add_char (p : parser) (c : ascii) : result parser :=
  if field_limit <=? field_len p
  then Raise (csv_Error (Msg "field larger than field limit (131072)"))
  else Ok (mkParser (state p) (fields p) (String c (field p)) (field_len p + 1)).

Definition is_newline (c : ascii) : bool :=
  Ascii.eqb c "010" || Ascii.eqb c "013".

(** The state a record or a field ends in: the next record after the
    end-of-line mark, the rest of the line end after a newline
    character. *)
Definition after_end (c : option ascii) : parser_state :=
  match c with None => START_RECORD | Some _ => EAT_CRNL end.

Definition ends_line (c : option ascii) : bool :=
  match c with None => true | Some ch => is_newline ch end.

(** The case [START_FIELD] of [parse_process_char], which the case
    [START_RECORD] falls through to. *)
Definition start_field (p : parser) (c : option ascii) : result parser :=
  match c with
  | Some ch =>
      if is_newline ch then Ok (goto EAT_CRNL (parse_save_field p))
      else if Ascii.eqb ch "034" then Ok (goto IN_QUOTED_FIELD p)
      else if Ascii.eqb ch "," then Ok (parse_save_field p)
      else
        match parse_add_char p ch with
        | Ok p' => Ok (goto IN_FIELD p')
        | Raise e => Raise e
        end
  | None => Ok (goto START_RECORD (parse_save_field p))
  end.

(** [parse_process_char]; [None] is the mark [EOL] the reader sends
    after the last character of every line. *)
Definition parse_process_char (p : parser) (c : option ascii) : result parser :=
  match state p with
  | START_RECORD =>
      match c with
      | None => Ok p
      | Some ch =>
          if is_newline ch then Ok (goto EAT_CRNL p)
          else start_field (goto START_FIELD p) c
      end
  | START_FIELD => start_field p c
  | IN_FIELD =>
      match c with
      | Some ch =>
          if is_newline ch then Ok (goto EAT_CRNL (parse_save_field p))
          else if Ascii.eqb ch "," then Ok (goto START_FIELD (parse_save_field p))
          else parse_add_char p ch
      | None => Ok (goto START_RECORD (parse_save_field p))
      end
  | IN_QUOTED_FIELD =>
      match c with
      | Some ch =>
          if Ascii.eqb ch "034" then Ok (goto QUOTE_IN_QUOTED_FIELD p)
          else parse_add_char p ch
      | None => Ok p
      end
  | QUOTE_IN_QUOTED_FIELD =>
      match c with
      | Some ch =>
          if Ascii.eqb ch "034" then
            match parse_add_char p ch with
            | Ok p' => Ok (goto IN_QUOTED_FIELD p')
            | Raise e => Raise e
            end
          else if Ascii.eqb ch "," then Ok (goto START_FIELD (parse_save_field p))
          else if is_newline ch then Ok (goto EAT_CRNL (parse_save_field p))
          else
            match parse_add_char p ch with
            | Ok p' => Ok (goto IN_FIELD p')
            | Raise e => Raise e
            end
      | None => Ok (goto START_RECORD (parse_save_field p))
      end
  | EAT_CRNL =>
      match c with
      | Some ch =>
          if is_newline ch then Ok p
          else Raise (csv_Error (Msg
            "new-line character seen in unquoted field - do you need to open the file in universal-newline mode?"))
      | None => Ok (goto START_RECORD p)
      end
  end.

(** One line of the input: its characters, then the mark [EOL]. *)
Fixpoint feed (p : parser) (line : string) : result parser :=
  match line with
  | EmptyString => parse_process_char p None
  | String c t =>
      match parse_process_char p (Some c) with
      | Ok p' => feed p' t
      | Raise e => Raise e
      end
  end.

Definition at_record_start (p : parser) : bool :=
  match state p with START_RECORD => true | _ => false end.

Definition in_quoted_field (p : parser) : bool :=
  match state p with IN_QUOTED_FIELD => true | _ => false end.

(** The iteration: a row is yielded when a line leaves the parser at
    the start of a record; at the end of the input an unfinished
    record is yielded as it stands.  The result is the rows yielded
    and the error that ended the iteration, if one did. *)
Fixpoint rows_from (p : parser) (lines : list string)
  : list (list string) * option exn :=
  match lines with
  | [] =>
      if negb (field_len p =? 0) || in_quoted_field p
      then ([fields (parse_save_field p)], None)
      else ([], None)
  | l :: rest =>
      match feed p l with
      | Raise e => ([], Some e)
      | Ok p' =>
          if at_record_start p' then
            let '(rows, err) := rows_from parse_reset rest in
            (fields p' :: rows, err)
          else rows_from p' rest
      end
  end.

Definition reader (lines : list string) : list (list string) * option exn :=
  rows_from parse_reset lines.

End Csv.

Module MainWindow.

(** [employee_data[i]] on a list of strings. *)
Definition item (employee_data : list string) (i : nat) : M Z pyval :=
  match nth_error employee_data i with
  | Some s => ret (PStr s)
  | None => raise (IndexError (Msg "list index out of range"))
  end.

Definition is_str (v : pyval) (s : string) : bool :=
  match v with PStr t => String.eqb t s | _ => false end.

(** The four arguments every branch passes to its constructor. *)
Definition arguments (employee_data : list string)
  : M Z (pyval * pyval * pyval * pyval) :=
  a <- item employee_data 1 ;;
  b <- item employee_data 2 ;;
  c <- item employee_data 4 ;;
  d <- item employee_data 5 ;;
  ret (a, b, c, d).

(** The [if]/[elif] chain; falling off its end returns [None]. *)
Definition create_employee (employee_data : list string) : M Z (option object) :=
  kind <- item employee_data 0 ;;
  if is_str kind "Executive" then
    '(a, b, c, d) <- arguments employee_data ;;
    e <- construct (Executive_ a b c d) ;; ret (Some e)
  else if is_str kind "Manager" then
    '(a, b, c, d) <- arguments employee_data ;;
    e <- construct (Manager_ a b c d) ;; ret (Some e)
  else if is_str kind "Temp" then
    '(a, b, c, d) <- arguments employee_data ;;
    e <- construct (Temp_ a b c d) ;; ret (Some e)
  else if is_str kind "Permanent" then
    '(a, b, c, d) <- arguments employee_data ;;
    e <- construct (Permanent_ a b c d) ;; ret (Some e)
  else ret None.

(** The body of the loop of [load_file], up to the append:
    [emp = self.create_employee(row); emp.image = row[3]]. *)
Definition load_row (row : list string) : M Z object :=
  emp <- create_employee row ;;
  img <- item row 3 ;;
  match emp with
  | Some e =>
      '(_, e') <- on_object (Employee.set_image img) e ;;
      ret e'
  | None => raise (AttributeError MsgBuiltin)
  end.

(** The window: the class counter and the list [self._data]. *)
Record window := mkWindow { next_id : Z; _data : list object }.

(** The loop of [load_file] over the rows the reader yields; an
    exception leaves the loop with the rows appended so far. *)
Fixpoint load_rows (rows : list (list string)) : M window unit :=
  match rows with
  | [] => ret tt
  | row :: rest =>
      fun w =>
        match load_row row (next_id w) with
        | (Ok emp, n) => load_rows rest (mkWindow n (_data w ++ [emp])%list)
        | (Raise e, n) => (Raise e, mkWindow n (_data w))
        end
  end.

(** [load_file] on a data file that holds [text]: the reader's rows
    go through the loop, and an error of the reader ends the loop
    after the rows read before it. *)
Definition load_file (text : string) : M window unit :=
  let '(rows, err) := Csv.reader (TextFile.lines text) in
  load_rows rows ;;
  match err with
  | Some e => raise e
  | None => ret tt
  end.

(** The line [save_file] writes for one worker, without the newline:
    [worker.__repr__()]. *)
Definition line (worker : object) : result string :=
  fst (__repr__ (mkState 0 worker)).

(** [save_file]: the outcome and the text the file holds when it is
    closed; a [__repr__] that raises leaves the lines written before
    it. *)
Fixpoint save_file (data : list object) : result unit * string :=
  match data with
  | [] => (Ok tt, EmptyString)
  | worker :: rest =>
      match line worker with
      | Ok l =>
          let '(r, text) := save_file rest in
          (r, l ++ String "010" text)
      | Raise e => (Raise e, EmptyString)
      end
  end.

End MainWindow.

(** ** The public interface of an instance *)

(** The properties the classes declare. *)
Inductive property :=
| p_id_number | p_name | p_email | p_image
| p_yearly | p_hourly | p_role | p_department
| p_hired_date | p_last_day.

(** The class whose body declares the property. *)
Definition declared_in (p : property) : class :=
  match p with
  | p_id_number | p_name | p_email | p_image => cEmployee
  | p_yearly => cSalaried
  | p_hourly => cHourly
  | p_role => cExecutive
  | p_department => cManager
  | p_hired_date => cPermanent
  | p_last_day => cTemp
  end.

Definition has_property (c : class) (p : property) : bool :=
  issubclass c (declared_in p).

(** The slot behind a property, as a value. *)
Definition slot (p : property) (o : object) : option pyval :=
  match p with
  | p_id_number => option_map PInt (_id_number o)
  | p_name => option_map PStr (_name o)
  | p_email => option_map PStr (_email o)
  | p_image => option_map PStr (_image o)
  | p_yearly => option_map PFloat (_yearly o)
  | p_hourly => option_map PFloat (_hourly o)
  | p_role => option_map PRole (_role o)
  | p_department => option_map PDepartment (_department o)
  | p_hired_date => option_map PDatetime (_hired_date o)
  | p_last_day => option_map PDatetime (_last_day o)
  end.

(** [self.<p> = v] on an instance whose class has the property:
    the property's setter; [id_number] has none (its setter is
    commented out in the source), so the assignment is refused. *)
Definition setattr (p : property) (v : pyval) : M state unit :=
  match p with
  | p_id_number => raise (AttributeError MsgBuiltin)
  | p_name => Employee.set_name v
  | p_email => Employee.set_email v
  | p_image => Employee.set_image v
  | p_yearly => Salaried.set_yearly v
  | p_hourly => Hourly.set_hourly v
  | p_role => Executive.set_role v
  | p_department => Manager.set_department v
  | p_hired_date => Permanent.set_hired_date v
  | p_last_day => Temp.set_last_day v
  end.

(** [self.<p>] on an instance whose class has the property. *)
Definition getattr (p : property) : M state pyval :=
  match p with
  | p_id_number => i <- Employee.id_number ;; ret (PInt i)
  | p_name => s <- Employee.name ;; ret (PStr s)
  | p_email => s <- Employee.email ;; ret (PStr s)
  | p_image => s <- Employee.image ;; ret (PStr s)
  | p_yearly => x <- Salaried.yearly ;; ret (PFloat x)
  | p_hourly => x <- Hourly.hourly ;; ret (PFloat x)
  | p_role => r <- Executive.role ;; ret (PRole r)
  | p_department => d <- Manager.department ;; ret (PDepartment d)
  | p_hired_date => d <- Permanent.hired_date ;; ret (PDatetime d)
  | p_last_day => d <- Temp.last_day ;; ret (PDatetime d)
  end.

(** Everything a client can do with an employee through its public
    names: read or assign a property, or call a method. *)
Inductive operation :=
| Get (p : property)
| Set_ (p : property) (v : pyval)
| Call_calc_pay
| Call___str__
| Call___repr__.

Definition supported (c : class) (op : operation) : bool :=
  match op with
  | Get p | Set_ p _ => has_property c p
  | _ => true
  end.

Definition run (op : operation) : M state pyval :=
  match op with
  | Get p => getattr p
  | Set_ p v => setattr p v ;; ret PNone
  | Call_calc_pay => calc_pay
  | Call___str__ => s <- Employee.__str__ ;; ret (PStr s)
  | Call___repr__ => s <- __repr__ ;; ret (PStr s)
  end.

(** A series of constructor calls, each starting from the counter the
    previous one left; the outcome of every call is kept. *)
Fixpoint construct_all (calls : list call) : Z -> list (result object) * Z :=
  fun next_id =>
    match calls with
    | [] => ([], next_id)
    | c :: rest =>
        let '(r, n1) := construct c next_id in
        let '(rs, n2) := construct_all rest n1 in
        (r :: rs, n2)
    end.

(** The instances a series of calls produced, in order. *)
Fixpoint constructed (rs : list (result object)) : list object :=
  match rs with
  | [] => []
  | Ok o :: rest => o :: constructed rest
  | Raise _ :: rest => constructed rest
  end.

Definition succeeded {A} (r : result A) : bool :=
  match r with Ok _ => true | Raise _ => false end.

(** The four classes the application instantiates. *)
Definition is_leaf (c : class) : bool :=
  match c with
  | cExecutive | cManager | cPermanent | cTemp => true
  | _ => false
  end.

(** ** Vocabulary of the statements *)

(** [s] carries the company domain: the domain occurs in it. *)
Definition carries_domain (s : string) : Prop :=
  exists a b, s = a ++ Employee.DOMAIN ++ b.

(** The value an email assignment accepts. *)
Definition acceptable_email (v : pyval) : Prop :=
  exists s, v = PStr s /\ s <> "" /\ carries_domain s.

(** The closed interval of hourly rates, in float comparisons. *)
Definition in_hourly_range (x : float) : bool :=
  PyFloat.leb lit_15 x && PyFloat.leb x lit_99_99.


(** The accepted values of the two enumeration setters: an [int]
    instance whose value is the value of a member. *)
Definition denotes_role (v : pyval) (r : Role) : Prop :=
  Builtins.int_value v = Some (Role_value r).

Definition denotes_department (v : pyval) (d : Department) : Prop :=
  Builtins.int_value v = Some (Department_value d).

(** Sample instances, as the constructors build them. *)
Definition sample_date : datetime := Datetime.mk 2023 3 2 12 11 50 0.

Definition sample_executive : object :=
  mkObject cExecutive (Some "Ann") (Some "ann@acme-machining.com")
    (Some Employee.IMAGE_PLACEHOLDER) (Some 1)
    (Some (of_decimal false 60000 0)) None (Some cfo) None None None.

Definition sample_manager : object :=
  mkObject cManager (Some "Bob") (Some "bob@acme-machining.com")
    (Some Employee.IMAGE_PLACEHOLDER) (Some 2)
    (Some (of_decimal false 7500050 (-2))) None None (Some r_and_d) None None.


Definition sample_temp : object :=
  mkObject cTemp (Some "temp") (Some "e@acme-machining.com")
    (Some Employee.IMAGE_PLACEHOLDER) (Some 4)
    None (Some (of_decimal false 4500 (-2))) None None None (Some sample_date).


(** The pay amount of a record: the yearly amount of the salaried
    classes, the hourly rate of the hourly ones. *)
Definition pay_amount (o : object) : option float :=
  match ob_class o with
  | cSalaried | cExecutive | cManager => _yearly o
  | cHourly | cPermanent | cTemp => _hourly o
  | cEmployee => None
  end.

(** The type-specific attribute of a leaf class, as it is printed. *)
Definition extra_attribute (o : object) : option string :=
  match ob_class o with
  | cExecutive => option_map (fun r => Str.of_Z (Role_value r)) (_role o)
  | cManager => option_map (fun d => Str.of_Z (Department_value d)) (_department o)
  | cPermanent => option_map Datetime.to_str (_hired_date o)
  | cTemp => option_map Datetime.to_str (_last_day o)
  | _ => None
  end.

(** The six fields of a stored record, in order. *)
Definition record_fields (o : object) : option (list string) :=
  match _name o, _email o, _image o, pay_amount o, extra_attribute o with
  | Some n, Some e, Some i, Some p, Some x =>
      Some [class_name (ob_class o); n; e; i; format_2f p; x]
  | _, _, _, _, _ => None
  end.


(** A computation that leaves the class counter and the receiver's
    identifier as it found them, whatever its outcome. *)
Definition keeps_id {A} (m : M state A) : Prop :=
  forall st,
    current_id (snd (m st)) = current_id st
    /\ _id_number (self (snd (m st))) = _id_number (self st).

(** What an initialiser leaves behind: on success the receiver carries
    the counter's old value and the counter has advanced by one; on
    failure the counter is where it was or has advanced by one. *)
Definition init_post (st : state) (out : result unit * state) : Prop :=
  match out with
  | (Ok _, st') =>
      current_id st' = current_id st + 1
      /\ _id_number (self st') = Some (current_id st)
  | (Raise _, st') =>
      current_id st' = current_id st \/ current_id st' = current_id st + 1
  end.

(** [n], [n + 1], ..., [len] of them. *)
Definition consecutive (n : Z) (len : nat) : list Z :=
  List.map (fun k => n + Z.of_nat k) (seq 0 len).
Arguments consecutive : simpl never.


(** Two constructor calls as [load_file] issues them. *)
Definition sample_calls : list call :=
  [Executive_ (PStr "Ann") (PStr "ann@acme-machining.com") (PStr "60000.00")
     (PStr "2");
   Temp_ (PStr "temp") (PStr "e@acme-machining.com") (PStr "45.00")
     (PStr "2023-03-02 12:11:50")].


(** *** Stored records and their reloading *)

Definition nonempty (s : string) : bool := negb (String.length s =? 0)%nat.

(** A concrete employee as the constructors and setters leave it: an
    instance of a leaf class with exactly the slots of its class
    assigned, and with the field invariants (non-empty name and image,
    email with the domain, yearly amount above 50,000, hourly rate in
    range, a date the [datetime] type admits). *)
Definition stored (o : object) : bool :=
  match o with
  | mkObject c (Some n) (Some e) (Some i) (Some _) y h r d hd ld =>
      nonempty n && Str.contains Employee.DOMAIN e && nonempty i
      && match c, y, h, r, d, hd, ld with
         | cExecutive, Some y, None, Some _, None, None, None =>
             PyFloat.ltb lit_50000 y
         | cManager, Some y, None, None, Some _, None, None =>
             PyFloat.ltb lit_50000 y
         | cPermanent, None, Some h, None, None, Some t, None =>
             in_hourly_range h && Datetime.valid t
         | cTemp, None, Some h, None, None, None, Some t =>
             in_hourly_range h && Datetime.valid t
         | _, _, _, _, _, _, _ => false
         end
  | _ => false
  end.

(** Name, email and image path contain no comma. *)
Definition commaless (o : object) : bool :=
  match _name o, _email o, _image o with
  | Some n, Some e, Some i =>
      negb (Str.has_char "," n) && negb (Str.has_char "," e)
      && negb (Str.has_char "," i)
  | _, _, _ => false
  end.

(** The same record up to the identifier: same class, and every slot
    but [id_number] equal. *)
Definition same_record (o o' : object) : Prop :=
  ob_class o' = ob_class o
  /\ forall q, q <> p_id_number -> slot q o' = slot q o.

(** Saving [o] alone and loading the file into an empty window, with
    the class counter at [n], produces [o']. *)
Definition reloads (o : object) (n : Z) (o' : object) : Prop :=
  exists text n',
    MainWindow.save_file [o] = (Ok tt, text)
    /\ MainWindow.load_file text (MainWindow.mkWindow n [])
       = (Ok tt, MainWindow.mkWindow n' [o']).

(** The pay amount is a two-decimal value: its two-decimal rendering
    reads back as the same float. *)
Definition two_decimal_pay (o : object) : Prop :=
  forall p, pay_amount o = Some p -> PyFloat.of_str (format_2f p) = Some p.

(** The date of the record, if it has one, has no fraction of a
    second. *)
Definition whole_seconds (o : object) : Prop :=
  forall t, _hired_date o = Some t \/ _last_day o = Some t ->
            Datetime.microsecond t = 0.

(** A character the reader takes as part of a field wherever it
    stands: no comma, no double quote, no line end. *)
Definition plain_char (c : ascii) : bool :=
  negb (Ascii.eqb c "," || Ascii.eqb c "034" || Csv.is_newline c).

(** Name, email and image path are made of such characters. *)
Definition plain (o : object) : bool :=
  match _name o, _email o, _image o with
  | Some n, Some e, Some i =>
      Str.all plain_char n && Str.all plain_char e && Str.all plain_char i
  | _, _, _ => false
  end.

(** The line of the record is no longer than the reader lets a field
    be. *)
Definition fits (o : object) : bool :=
  match MainWindow.line o with
  | Ok l => Z.of_nat (String.length l) <=? Csv.field_limit
  | Raise _ => false
  end.

(** The records that survive the data file. *)
Definition saveable (o : object) : Prop :=
  stored o = true /\ plain o = true /\ fits o = true
  /\ two_decimal_pay o /\ whole_seconds o.

(** The records of [data] under the identifiers [n], [n + 1], ... *)
Fixpoint renumber (n : Z) (data : list object) : list object :=
  match data with
  | [] => []
  | o :: rest => with_id_number n o :: renumber (n + 1) rest
  end.

(** A character that ends no line. *)
Definition line_char (c : ascii) : bool := negb (Csv.is_newline c).

(** The parser is at the start of a record, at the start of a field or
    inside an unquoted field: there a plain character is added to the
    field. *)
Definition unquoted (p : Csv.parser) : Prop :=
  Csv.state p = Csv.START_RECORD \/ Csv.state p = Csv.START_FIELD
  \/ Csv.state p = Csv.IN_FIELD.

(** A field the reader gives back as it was written: plain, and no
    longer than the limit. *)
Definition plain_field (f : string) : Prop :=
  Str.all plain_char f = true
  /\ Z.of_nat (String.length f) <= Csv.field_limit.

(** The characters of a formatted amount and of a printed date. *)
Definition amount_char (c : ascii) : bool :=
  Str.is_digit c || Str.has_char c "-.infa".

Definition date_char (c : ascii) : bool :=
  Str.is_digit c || Str.has_char c "-: .".


(** An executive paid 50,000.001 a year, and a permanent employee hired
    at a time with microseconds. *)
Definition fine_executive : object :=
  mkObject cExecutive (Some "Ann") (Some "ann@acme-machining.com")
    (Some Employee.IMAGE_PLACEHOLDER) (Some 1)
    (Some (of_decimal false 50000001 (-3))) None (Some cfo) None None None.

Definition precise_permanent : object :=
  mkObject cPermanent (Some "Cy") (Some "cy@acme-machining.com")
    (Some Employee.IMAGE_PLACEHOLDER) (Some 3)
    None (Some (of_decimal false 175 (-1))) None None
    (Some (Datetime.mk 2023 3 2 12 11 50 250000)) None.


(** Strings of digits, and strings that do not go on with a digit. *)
Fixpoint all_digits (s : string) : bool :=
  match s with
  | EmptyString => true
  | String c t => Str.is_digit c && all_digits t
  end.

Definition ends_run (s : string) : bool :=
  match s with
  | EmptyString => true
  | String c _ => negb (Str.is_digit c)
  end.

(** [test] holds of [0], ..., [k - 1]. *)
Definition holds_below (test : Z -> bool) (k : nat) : bool :=
  forallb (fun i => test (Z.of_nat i)) (seq 0 k).

(** A field parser reads the [w]-digit rendering of [n] back as [n]. *)
Definition reads_back (parse : string -> option Z) (w : nat) (n : Z) : bool :=
  match parse (Str.zero_pad w n) with
  | Some x => x =? n
  | None => false
  end.


(** *** Well-formed instances *)

(** The class a constructor call names, and its first two arguments. *)
Definition call_class (c : call) : class :=
  match c with
  | Employee_ _ _ => cEmployee
  | Salaried_ _ _ _ => cSalaried
  | Hourly_ _ _ _ => cHourly
  | Executive_ _ _ _ _ => cExecutive
  | Manager_ _ _ _ _ => cManager
  | Permanent_ _ _ _ _ => cPermanent
  | Temp_ _ _ _ _ => cTemp
  end.

Definition call_name (c : call) : pyval :=
  match c with
  | Employee_ n _ | Salaried_ n _ _ | Hourly_ n _ _ | Executive_ n _ _ _
  | Manager_ n _ _ _ | Permanent_ n _ _ _ | Temp_ n _ _ _ => n
  end.

Definition call_email (c : call) : pyval :=
  match c with
  | Employee_ _ e | Salaried_ _ e _ | Hourly_ _ e _ | Executive_ _ e _ _
  | Manager_ _ e _ _ | Permanent_ _ e _ _ | Temp_ _ e _ _ => e
  end.

(** The values the name and image setters, and the email setter,
    let through. *)
Definition nonempty_str (v : pyval) : bool :=
  match v with PStr s => nonempty s | _ => false end.

Definition domain_str (v : pyval) : bool :=
  match v with PStr s => Str.contains Employee.DOMAIN s | _ => false end.

(** The state of an instance between two public operations: the slots
    of its class, and only those, are assigned, and each holds a value
    its setter lets through (for the yearly amount that is the
    setter's own test, [not (y <= 50000)]). *)
Definition well_formed (o : object) : bool :=
  match o with
  | mkObject c (Some n) (Some e) (Some i) (Some _) y h r d hd ld =>
      nonempty n && Str.contains Employee.DOMAIN e && nonempty i
      && match c, y, h, r, d, hd, ld with
         | cSalaried, Some y, None, None, None, None, None =>
             negb (PyFloat.leb y lit_50000)
         | cExecutive, Some y, None, Some _, None, None, None =>
             negb (PyFloat.leb y lit_50000)
         | cManager, Some y, None, None, Some _, None, None =>
             negb (PyFloat.leb y lit_50000)
         | cHourly, None, Some h, None, None, None, None =>
             in_hourly_range h
         | cPermanent, None, Some h, None, None, Some t, None =>
             in_hourly_range h && Datetime.valid t
         | cTemp, None, Some h, None, None, None, Some t =>
             in_hourly_range h && Datetime.valid t
         | _, _, _, _, _, _, _ => false
         end
  | _ => false
  end.

(** A [datetime] value is one the [datetime] type admits. *)
Definition proper (v : pyval) : bool :=
  match v with PDatetime d => Datetime.valid d | _ => true end.


(** The name and the email of a call both pass their setters. *)
Definition passes_employee (c : call) : bool :=
  nonempty_str (call_name c) && domain_str (call_email c).

(** An initialiser that takes an identifier exactly when [ok]: then the
    counter ends one further whatever happens later; otherwise the
    initialiser raises [ValueError] with the counter where it was. *)
Definition takes_id_when (ok : bool) (init : M state unit) : Prop :=
  forall st,
    (ok = true -> current_id (snd (init st)) = current_id st + 1)
    /\ (ok = false ->
        exists m st', init st = (Raise (ValueError m), st')
                      /\ current_id st' = current_id st).


(** *** Rows *)

(** The class a type tag selects in [create_employee], tested in the
    order of its [if]/[elif] chain. *)
Definition tag_class (t : string) : option class :=
  if String.eqb t "Executive" then Some cExecutive
  else if String.eqb t "Manager" then Some cManager
  else if String.eqb t "Temp" then Some cTemp
  else if String.eqb t "Permanent" then Some cPermanent
  else None.

(** The constructor call of a leaf class on four arguments. *)
Definition leaf_call (c : class) (a b p x : pyval) : call :=
  match c with
  | cExecutive => Executive_ a b p x
  | cManager => Manager_ a b p x
  | cTemp => Temp_ a b p x
  | _ => Permanent_ a b p x
  end.

Definition is_index_error (x : exn) : bool :=
  match x with IndexError _ => true | _ => false end.

Definition is_attribute_error (x : exn) : bool :=
  match x with AttributeError _ => true | _ => false end.


(** A row [create_employee] cannot turn into an employee: it is empty,
    or its tag is none of the four class names, or it has a known tag
    and fewer than six fields. *)
Definition unloadable (row : list string) : bool :=
  match row with
  | [] => true
  | t :: _ =>
      match tag_class t with
      | None => true
      | Some _ => (List.length row <? 6)%nat
      end
  end.

(** The rows on which [load_row] gets as far as assigning the image of
    [None]: an unknown tag and at least four fields. *)
Definition reaches_image_of_none (row : list string) : bool :=
  match row with
  | t :: _ :: _ :: _ :: _ =>
      match tag_class t with None => true | Some _ => false end
  | _ => false
  end.


(** ** [gui.py]: the edit forms *)

Module Forms.



(** The four forms [edit_employee] can open. *)
Inductive kind := ExecutiveForm | ManagerForm | PermanentForm | TempForm.












End Forms.








(** The bounds of the weekly pay, as Python reads the literals
    [600.00] and [3999.60], and the quotient [50000 / 52]. *)
Definition lit_600 : float := Eval vm_compute in of_decimal false 600 0.
Definition lit_3999_60 : float := Eval vm_compute in of_decimal false 39996 (-1).
Definition pay_50000 : float := Eval vm_compute in PyFloat.div lit_50000 lit_52.


(** * Properties of the model *)

(** ** Strings *)

Lemma prefix_app (n h : string) :
  prefix n h = true <-> exists b, h = n ++ b.
Proof.
  revert h; induction n as [|c n IH]; intros h; simpl.
  - split; [intros _; now exists h | intros _; now destruct h].
  - destruct h as [|d h].
    + split; [discriminate | intros [b Hb]; discriminate].
    + simpl. destruct (ascii_dec c d) as [Hcd|Hcd].
      * subst d. rewrite IH. split; intros [b Hb]; exists b; congruence.
      * split; [discriminate | intros [b Hb]; congruence].
Qed.

Lemma contains_app (n h : string) :
  Str.contains n h = true <-> exists a b, h = a ++ n ++ b.
Proof.
  induction h as [|d h IH].
  - change (Str.contains n "") with (prefix n "" || false).
    rewrite orb_false_r, prefix_app. split.
    + intros [b Hb]. now exists "", b.
    + intros [a [b Hab]]. destruct a; simpl in Hab.
      * now exists b.
      * discriminate.
  - change (Str.contains n (String d h))
      with (prefix n (String d h) || Str.contains n h).
    rewrite orb_true_iff, prefix_app, IH. split.
    + intros [[b Hb] | [a [b Hab]]].
      * now exists "", b.
      * exists (String d a), b. simpl. now rewrite Hab.
    + intros [a [b Hab]]. destruct a as [|c a]; simpl in Hab.
      * left. now exists b.
      * right. exists a, b. congruence.
Qed.

Lemma append_assoc (a b c : string) : (a ++ b) ++ c = a ++ (b ++ c).
Proof. induction a as [|x a IH]; simpl; [reflexivity | now rewrite IH]. Qed.

Lemma append_nil_r (a : string) : a ++ "" = a.
Proof. induction a as [|x a IH]; simpl; [reflexivity | now rewrite IH]. Qed.

Lemma length_leb_0 (s : string) :
  (String.length s <=? 0)%nat = false <-> s <> "".
Proof.
  destruct s; simpl; split; intros H; congruence || discriminate.
Qed.

(** ** C2: the email setter *)

(** C2.  Assigning [email] succeeds exactly when the new value is a
    non-empty string in which the company domain
    ["@acme-machining.com"] occurs (the test is Python's [in]); then the
    slot holds the new string.  For every other value the setter raises
    [ValueError] and the whole state, the stored email included, is as
    before. *)
Theorem C2_email_setter (v : pyval) (st : state) :
  (acceptable_email v <-> exists st', setattr p_email v st = (Ok tt, st'))
  /\ (forall s, v = PStr s -> acceptable_email v ->
        setattr p_email v st
        = (Ok tt, mkState (current_id st) (with_email s (self st))))
  /\ (~ acceptable_email v ->
        exists m, setattr p_email v st = (Raise (ValueError m), st)).
Proof.
  assert (Hdec : forall s, v = PStr s ->
            (String.length s <=? 0)%nat || negb (Str.contains Employee.DOMAIN s)
            = false <-> acceptable_email v).
  { intros s ->. rewrite orb_false_iff, negb_false_iff, length_leb_0, contains_app.
    unfold acceptable_email, carries_domain. split.
    - intros [Hne Hc]. exists s. auto.
    - intros [s' [Heq [Hne Hc]]]. injection Heq as <-. auto. }
  assert (Hother : (forall s, v <> PStr s) -> ~ acceptable_email v).
  { intros Hn [s [Hs _]]. exact (Hn s Hs). }
  unfold setattr, Employee.set_email.
  destruct v as [| b | n | x | s | d | r | d];
    try (split; [split; [intros Ha; exfalso; revert Ha; apply Hother; discriminate
                        | intros [st' Hst']; discriminate]
                | split; [intros s Hs; discriminate
                         | intros _; eexists; reflexivity]]).
  specialize (Hdec s eq_refl).
  destruct ((String.length s <=? 0)%nat || negb (Str.contains Employee.DOMAIN s)).
  - assert (Hna : ~ acceptable_email (PStr s)).
    { intros Ha. apply Hdec in Ha. discriminate. }
    split; [split; [intros Ha; contradiction | intros [st' Hst']; discriminate]|].
    split; [intros s' _ Ha; contradiction | intros _; eexists; reflexivity].
  - assert (Ha : acceptable_email (PStr s)) by now apply Hdec.
    split; [split; [intros _; eexists; reflexivity | trivial]|].
    split; [intros s' Hs' _; injection Hs' as <-; reflexivity
           | intros Hna; contradiction].
Qed.

(** ** Running methods *)

Ltac run_method :=
  unfold setattr, getattr, Employee.set_name, Employee.set_email,
    Employee.set_image, Salaried.set_yearly, Hourly.set_hourly,
    Executive.set_role, Manager.set_department, Permanent.set_hired_date,
    Temp.set_last_day, bind, lift, raise, ret, assign, attr.

(** ** C4: the hourly setter *)




(** What the setter does when the conversion itself fails: the
    exception of [float] leaves the setter, nothing is assigned. *)
Lemma set_hourly_unconvertible (v : pyval) (e : exn) (st : state) :
  Builtins.float v = Raise e -> setattr p_hourly v st = (Raise e, st).
Proof. intros H. run_method. now rewrite H. Qed.

(** ** C5: the role and department setters *)

Lemma role_cases (v : pyval) :
  (exists r, denotes_role v r) \/ (forall r, ~ denotes_role v r).
Proof.
  unfold denotes_role.
  destruct (Builtins.int_value v) as [n|]; [|right; intros r; discriminate].
  destruct (Z.eq_dec n 1) as [->|H1]; [left; now exists ceo|].
  destruct (Z.eq_dec n 2) as [->|H2]; [left; now exists cfo|].
  destruct (Z.eq_dec n 3) as [->|H3]; [left; now exists cio|].
  right. intros [] H; injection H as H; simpl in H; congruence.
Qed.

Lemma set_role_accepts (v : pyval) (r : Role) (st : state) :
  denotes_role v r ->
  setattr p_role v st = (Ok tt, mkState (current_id st) (with_role r (self st))).
Proof.
  unfold denotes_role. intros H.
  destruct v; try discriminate; simpl in H; injection H as H.
  - destruct b, r; try discriminate; reflexivity.
  - subst n. destruct r; reflexivity.
Qed.

Lemma set_role_rejects (v : pyval) (st : state) :
  (forall r, ~ denotes_role v r) ->
  setattr p_role v st
  = (Raise (InvalidRoleException (Msg "The role must be a valid Role object.")), st).
Proof.
  unfold denotes_role. intros H. run_method.
  destruct v as [| b | n | x | s | d | r | d]; simpl;
    try reflexivity; try (now rewrite orb_true_r).
  - destruct b; [exfalso; apply (H ceo); reflexivity | reflexivity].
  - destruct (Z.eqb_spec 1 n) as [<-|H1]; [exfalso; apply (H ceo); reflexivity|].
    destruct (Z.eqb_spec 2 n) as [<-|H2]; [exfalso; apply (H cfo); reflexivity|].
    destruct (Z.eqb_spec 3 n) as [<-|H3]; [exfalso; apply (H cio); reflexivity|].
    cbn. replace (n =? 1) with false by (symmetry; apply Z.eqb_neq; congruence).
    replace (n =? 2) with false by (symmetry; apply Z.eqb_neq; congruence).
    replace (n =? 3) with false by (symmetry; apply Z.eqb_neq; congruence).
    reflexivity.
Qed.

Lemma set_department_accepts (v : pyval) (d : Department) (st : state) :
  denotes_department v d ->
  setattr p_department v st
  = (Ok tt, mkState (current_id st) (with_department d (self st))).
Proof.
  unfold denotes_department. intros H.
  destruct v; try discriminate; simpl in H; injection H as H.
  - destruct b, d; try discriminate; reflexivity.
  - subst n. destruct d; reflexivity.
Qed.

Lemma set_department_rejects (v : pyval) (st : state) :
  (forall d, ~ denotes_department v d) ->
  setattr p_department v st
  = (Raise (InvalidDepartmentException
              (Msg "Can only be changed to a valid department.")), st).
Proof.
  unfold denotes_department. intros H. run_method.
  destruct v as [| b | n | x | s | d | r | d]; simpl;
    try reflexivity; try (now rewrite orb_true_r).
  - destruct b; [exfalso; apply (H accounting); reflexivity | reflexivity].
  - destruct (Z.eqb_spec n 1) as [->|H1];
      [exfalso; apply (H accounting); reflexivity|].
    destruct (Z.eqb_spec n 2) as [->|H2];
      [exfalso; apply (H finance); reflexivity|].
    destruct (Z.eqb_spec n 3) as [->|H3]; [exfalso; apply (H hr); reflexivity|].
    destruct (Z.eqb_spec n 4) as [->|H4];
      [exfalso; apply (H r_and_d); reflexivity|].
    destruct (Z.eqb_spec n 5) as [->|H5];
      [exfalso; apply (H machining); reflexivity|].
    reflexivity.
Qed.

(** The values of the members are the documented ones. *)
Lemma enum_values :
  List.map Role_value Role_members = [1; 2; 3]
  /\ List.map Department_value Department_members = [1; 2; 3; 4; 5].
Proof. split; reflexivity. Qed.

(** C5.  On an [Executive], assigning [role] succeeds exactly for an
    [int] whose value is the value of a member of [Role] (1 = ceo,
    2 = cfo, 3 = cio) and stores that member; every other value raises
    [InvalidRoleException] and changes nothing.  On a [Manager],
    assigning [department] succeeds exactly for an [int] whose value is
    the value of a member of [Department] (1 = accounting, 2 = finance,
    3 = hr, 4 = r_and_d, 5 = machining) and stores that member; every
    other value raises [InvalidDepartmentException] and changes
    nothing. *)
Theorem C5_enum_setters (v : pyval) (st : state) :
  (issubclass (ob_class (self st)) cExecutive = true ->
     (forall r, denotes_role v r ->
        setattr p_role v st
        = (Ok tt, mkState (current_id st) (with_role r (self st))))
     /\ ((forall r, ~ denotes_role v r) ->
        exists m, setattr p_role v st = (Raise (InvalidRoleException m), st)))
  /\ (issubclass (ob_class (self st)) cManager = true ->
     (forall d, denotes_department v d ->
        setattr p_department v st
        = (Ok tt, mkState (current_id st) (with_department d (self st))))
     /\ ((forall d, ~ denotes_department v d) ->
        exists m,
          setattr p_department v st = (Raise (InvalidDepartmentException m), st)))
  /\ (Role_value ceo = 1 /\ Role_value cfo = 2 /\ Role_value cio = 3)
  /\ (Department_value accounting = 1 /\ Department_value finance = 2
      /\ Department_value hr = 3 /\ Department_value r_and_d = 4
      /\ Department_value machining = 5).
Proof.
  split; [|split; [|split; repeat split]].
  - intros _. split.
    + intros r Hr. now apply set_role_accepts.
    + intros Hn. eexists. now apply set_role_rejects.
  - intros _. split.
    + intros d Hd. now apply set_department_accepts.
    + intros Hn. eexists. now apply set_department_rejects.
Qed.

Lemma C5_enum_setters_witness :
  setattr p_role (PInt 3) (mkState 5 sample_executive)
  = (Ok tt, mkState 5 (with_role cio sample_executive))
  /\ (exists m, setattr p_role (PInt 4) (mkState 5 sample_executive)
                = (Raise (InvalidRoleException m), mkState 5 sample_executive))
  /\ setattr p_department (PInt 5) (mkState 5 sample_manager)
     = (Ok tt, mkState 5 (with_department machining sample_manager))
  /\ (exists m, setattr p_department (PStr "5") (mkState 5 sample_manager)
                = (Raise (InvalidDepartmentException m), mkState 5 sample_manager)).
Proof.
  split; [|split; [|split]].
  - apply (C5_enum_setters (PInt 3) (mkState 5 sample_executive)); reflexivity.
  - apply (C5_enum_setters (PInt 4) (mkState 5 sample_executive));
      [reflexivity | intros [] H; discriminate H].
  - apply (C5_enum_setters (PInt 5) (mkState 5 sample_manager)); reflexivity.
  - apply (C5_enum_setters (PStr "5") (mkState 5 sample_manager));
      [reflexivity | intros [] H; discriminate H].
Defined.

(** ** C10: every setter either assigns its own slot or changes nothing *)

Ltac assigned :=
  left; eexists; split; [reflexivity | split; [reflexivity |]];
  let q := fresh "q" in
  let Hq := fresh "Hq" in
  intros q Hq; destruct q; try reflexivity; now elim Hq.

Ltac refused := right; eexists; reflexivity.

Ltac branch :=
  match goal with
  | |- context [if ?c then _ else _] => destruct c
  | |- context [match ?x with Some _ => _ | None => _ end] => destruct x
  | |- context [match ?x with Ok _ => _ | Raise _ => _ end] => destruct x
  | |- context [match ?x with PNone => _ | _ => _ end] => destruct x
  end.

Lemma setattr_frame (p : property) (v : pyval) (st : state) :
  (exists o', setattr p v st = (Ok tt, mkState (current_id st) o')
              /\ ob_class o' = ob_class (self st)
              /\ forall q, q <> p -> slot q o' = slot q (self st))
  \/ (exists e, setattr p v st = (Raise e, st)).
Proof.
  destruct st as [n o].
  destruct p; run_method; simpl; repeat branch; first [refused | assigned].
Qed.

(** C10.  A property assignment is atomic and frame-preserving: either
    it succeeds, and then the class counter, the class of the instance
    and every slot other than the property's own (name, email, image,
    id_number, yearly, hourly, role, department, hired_date, last_day)
    are as before; or it raises, and then the whole state is as
    before. *)
Theorem C10_setters_atomic (p : property) (v : pyval) (st : state) :
  match setattr p v st with
  | (Ok _, st') =>
      current_id st' = current_id st
      /\ ob_class (self st') = ob_class (self st)
      /\ forall q, q <> p -> slot q (self st') = slot q (self st)
  | (Raise _, st') => st' = st
  end.
Proof.
  destruct (setattr_frame p v st) as [[o' [-> [Hc Hs]]] | [e ->]].
  - simpl. auto.
  - reflexivity.
Qed.

(** ** Float comparisons *)

Lemma SFcompare_antisym (a b : float) :
  SFcompare b a = option_map CompOpp (SFcompare a b).
Proof.
  destruct a as [sa | sa | | sa ma ea], b as [sb | sb | | sb mb eb]; simpl;
    try reflexivity;
    try (destruct sa; reflexivity); try (destruct sb; reflexivity);
    try (destruct sa, sb; reflexivity).
  destruct sa, sb; try reflexivity;
    rewrite (Z.compare_antisym ea eb); destruct (ea ?= eb); simpl;
    try reflexivity;
    pose proof (Pos.compare_cont_antisym ma mb Eq) as H; simpl in H;
    rewrite <- H; destruct (Pos.compare_cont Eq ma mb); reflexivity.
Qed.

(** Away from NaN, [not (y <= c)] and [c < y] agree. *)
Lemma not_leb_ltb (y c : float) :
  PyFloat.is_nan y = false -> PyFloat.is_nan c = false ->
  (PyFloat.leb y c = false <-> PyFloat.ltb c y = true).
Proof.
  intros Hy Hc. unfold PyFloat.leb, PyFloat.ltb, SFleb, SFltb.
  rewrite (SFcompare_antisym y c).
  destruct (SFcompare y c) as [[]|] eqn:E; simpl;
    try (split; congruence).
  destruct y, c; simpl in *; discriminate.
Qed.

(** ** C3: the yearly setter *)

(** What the setter does, in terms of the test it performs. *)
Lemma set_yearly_spec (v : pyval) (y : float) (st : state) :
  Builtins.float v = Ok y ->
  (PyFloat.leb y lit_50000 = false ->
     setattr p_yearly v st
     = (Ok tt, mkState (current_id st) (with_yearly y (self st))))
  /\ (PyFloat.leb y lit_50000 = true ->
     exists m, setattr p_yearly v st = (Raise (ValueError m), st)).
Proof.
  intros Hy. run_method. rewrite Hy. split; intros ->.
  - reflexivity.
  - eexists. reflexivity.
Qed.

(** For every amount that is a number the setter accepts exactly
    [50,000 < y]. *)
Lemma set_yearly_number (v : pyval) (y : float) (st : state) :
  Builtins.float v = Ok y -> PyFloat.is_nan y = false ->
  (PyFloat.ltb lit_50000 y = true ->
     setattr p_yearly v st
     = (Ok tt, mkState (current_id st) (with_yearly y (self st))))
  /\ (PyFloat.ltb lit_50000 y = false ->
     exists m, setattr p_yearly v st = (Raise (ValueError m), st)).
Proof.
  intros Hv Hn. destruct (set_yearly_spec v y st Hv) as [Hok Hko].
  pose proof (not_leb_ltb y lit_50000 Hn eq_refl) as Hiff.
  split; intros H.
  - apply Hok, Hiff, H.
  - apply Hko. destruct (PyFloat.leb y lit_50000); [reflexivity|].
    rewrite (proj1 Hiff eq_refl) in H. discriminate.
Qed.

(** C3 fails on the code at NaN.  The string ["nan"] converts to the
    float NaN; NaN is not greater than 50,000, yet [nan <= 50_000.00]
    is false as well, so the setter does not raise and stores NaN as
    the yearly amount of the executive. *)
Theorem C3_yearly_accepts_nan :
  Builtins.float (PStr "nan") = Ok S754_nan
  /\ PyFloat.ltb lit_50000 S754_nan = false
  /\ issubclass (ob_class sample_executive) cSalaried = true
  /\ setattr p_yearly (PStr "nan") (mkState 2 sample_executive)
     = (Ok tt, mkState 2 (with_yearly S754_nan sample_executive))
  /\ fst (construct (Executive_ (PStr "Ann") (PStr "ann@acme-machining.com")
                       (PStr "nan") (PStr "2")) 1)
     = Ok (with_yearly S754_nan sample_executive).
Proof. repeat split. Qed.

(** The sibling setter refuses NaN. *)
Lemma set_hourly_refuses_nan (st : state) :
  exists m, setattr p_hourly (PStr "nan") st = (Raise (ValueError m), st).
Proof. eexists. reflexivity. Qed.

(** ** C7: which classes can be instantiated *)

Lemma instantiable_classes (c : class) :
  ABCMeta.instantiable c = negb (class_eqb c cEmployee).
Proof. destruct c; reflexivity. Qed.

(** C7 fails on the code.  Only [Employee] keeps an abstract method:
    [Salaried] and [Hourly] define [calc_pay], so [ABCMeta] leaves
    their [__abstractmethods__] empty and constructing them directly
    succeeds. *)
Theorem C7_salaried_hourly_instantiable :
  ABCMeta.abstractmethods cEmployee = ["calc_pay"]
  /\ ABCMeta.abstractmethods cSalaried = []
  /\ ABCMeta.abstractmethods cHourly = []
  /\ (exists o, construct (Salaried_ (PStr "Ann") (PStr "ann@acme-machining.com")
                             (PStr "60000")) 1 = (Ok o, 2)
                /\ ob_class o = cSalaried)
  /\ (exists o, construct (Hourly_ (PStr "Cy") (PStr "cy@acme-machining.com")
                             (PStr "17.5")) 1 = (Ok o, 2)
                /\ ob_class o = cHourly)
  /\ (exists e, construct (Employee_ (PStr "Ann") (PStr "ann@acme-machining.com")) 1
                = (Raise (TypeError e), 1)).
Proof.
  repeat split; eexists; repeat split.
Qed.

(** ** C6: the stored line *)

Ltac run_repr :=
  unfold __repr__, Executive.__repr__, Manager.__repr__, Permanent.__repr__,
    Temp.__repr__, Salaried.__repr__, Hourly.__repr__, Employee.__repr__,
    Employee.name, Employee.email, Employee.image, Salaried.yearly,
    Hourly.hourly, Executive.role, Manager.department, Permanent.hired_date,
    Temp.last_day, type_name, bind, ret, attr; simpl.

Lemma repr_record_fields (o : object) (fs : list string) (k : Z) :
  is_leaf (ob_class o) = true ->
  record_fields o = Some fs ->
  __repr__ (mkState k o) = (Ok (Str.join "," fs), mkState k o).
Proof.
  intros Hleaf Hfs. unfold record_fields, pay_amount, extra_attribute in Hfs.
  destruct o as [c n e i idn y h r d hd ld]; simpl in *.
  destruct n as [n|], e as [e|], i as [i|]; try discriminate.
  destruct c; try discriminate; simpl in Hfs.
  - destruct y as [y|], r as [r|]; try discriminate.
    injection Hfs as <-. run_repr.
    repeat (rewrite append_assoc; simpl). reflexivity.
  - destruct y as [y|], d as [d|]; try discriminate.
    injection Hfs as <-. run_repr.
    repeat (rewrite append_assoc; simpl). reflexivity.
  - destruct h as [h|], hd as [hd|]; try discriminate.
    injection Hfs as <-. run_repr.
    repeat (rewrite append_assoc; simpl). reflexivity.
  - destruct h as [h|], ld as [ld|]; try discriminate.
    injection Hfs as <-. run_repr.
    repeat (rewrite append_assoc; simpl). reflexivity.
Qed.

Lemma record_fields_length (o : object) (fs : list string) :
  record_fields o = Some fs -> List.length fs = 6%nat.
Proof.
  unfold record_fields.
  destruct (_name o), (_email o), (_image o), (pay_amount o),
    (extra_attribute o); try discriminate.
  intros H. injection H as <-. reflexivity.
Qed.



(** ** C1: identifiers *)

Lemma keeps_id_lift {A} (r : result A) : keeps_id (lift r).
Proof. intros st. split; reflexivity. Qed.

Lemma keeps_id_ret {A} (a : A) : keeps_id (ret a).
Proof. intros st. split; reflexivity. Qed.

Lemma keeps_id_attr {A} (f : object -> option A) (name : string) :
  keeps_id (attr f name).
Proof. intros st. unfold attr. destruct (f (self st)); split; reflexivity. Qed.

Lemma keeps_id_bind {A B} (m : M state A) (k : A -> M state B) :
  keeps_id m -> (forall a, keeps_id (k a)) -> keeps_id (bind m k).
Proof.
  intros Hm Hk st. unfold bind. specialize (Hm st).
  destruct (m st) as [[a|e] st1]; simpl in *.
  - destruct (Hk a st1) as [H1 H2]. destruct Hm as [H3 H4]. split; congruence.
  - exact Hm.
Qed.

Lemma keeps_id_setattr (p : property) (v : pyval) : keeps_id (setattr p v).
Proof.
  intros st.
  destruct (setattr_frame p v st) as [[o' [Heq [_ Hs]]] | [e Heq]];
    rewrite Heq; simpl; split; try reflexivity.
  assert (Hp : p = p_id_number \/ p_id_number <> p)
    by (destruct p; (left; reflexivity) || (right; discriminate)).
  destruct Hp as [-> | Hp]; [discriminate Heq|].
  specialize (Hs p_id_number Hp). simpl in Hs.
  destruct (_id_number o'), (_id_number (self st)); simpl in Hs; congruence.
Qed.

Lemma Employee_init_post (name email : pyval) (st : state) :
  match Employee.__init__ name email st with
  | (Ok _, st') =>
      current_id st' = current_id st + 1
      /\ _id_number (self st') = Some (current_id st)
  | (Raise _, st') => current_id st' = current_id st
  end.
Proof.
  destruct st as [n o]. unfold Employee.__init__. run_method. simpl.
  repeat branch; simpl; auto.
Qed.

Lemma init_post_bind {A} (m : M state unit) (k : M state A) (st : state)
      (f : A -> unit) :
  init_post st (m st) -> keeps_id k ->
  init_post st (match bind m (fun _ => k) st with
                | (Ok a, st') => (Ok (f a), st')
                | (Raise e, st') => (Raise e, st')
                end).
Proof.
  intros Hm Hk. unfold bind. destruct (m st) as [[[]|e] st1]; simpl in *.
  - destruct (Hk st1) as [H1 H2]. destruct Hm as [H3 H4].
    destruct (k st1) as [[a|e] st2]; simpl in *.
    + split; congruence.
    + right. congruence.
  - exact Hm.
Qed.

Lemma init_post_then (m k : M state unit) (st : state) :
  init_post st (m st) -> keeps_id k -> init_post st ((m ;; k) st).
Proof.
  intros Hm Hk. pose proof (init_post_bind m k st (fun u => u) Hm Hk) as H.
  destruct ((m ;; k) st) as [[[]|e] st']; exact H.
Qed.

Lemma init_post_Employee (name email : pyval) (st : state) :
  init_post st (Employee.__init__ name email st).
Proof.
  pose proof (Employee_init_post name email st) as H. unfold init_post.
  destruct (Employee.__init__ name email st) as [[[]|e] st'].
  - exact H.
  - left. exact H.
Qed.

Lemma init_post_Salaried (name email yearly : pyval) (st : state) :
  init_post st (Salaried.__init__ name email yearly st).
Proof.
  unfold Salaried.__init__. apply init_post_then.
  - apply init_post_Employee.
  - apply keeps_id_bind; [apply keeps_id_lift|].
    intros y. exact (keeps_id_setattr p_yearly (PFloat y)).
Qed.

Lemma init_post_Hourly (name email hourly_pay : pyval) (st : state) :
  init_post st (Hourly.__init__ name email hourly_pay st).
Proof.
  unfold Hourly.__init__. apply init_post_then.
  - apply init_post_Employee.
  - apply keeps_id_bind; [apply keeps_id_lift|].
    intros h. exact (keeps_id_setattr p_hourly (PFloat h)).
Qed.

Lemma init_post_Executive (name email yearly_amount role : pyval) (st : state) :
  init_post st (Executive.__init__ name email yearly_amount role st).
Proof.
  unfold Executive.__init__. apply init_post_then.
  - apply init_post_Salaried.
  - apply keeps_id_bind; [apply keeps_id_lift|].
    intros r. exact (keeps_id_setattr p_role (PInt r)).
Qed.

Lemma init_post_Manager (name email yearly department : pyval) (st : state) :
  init_post st (Manager.__init__ name email yearly department st).
Proof.
  unfold Manager.__init__. apply init_post_then.
  - apply init_post_Salaried.
  - apply keeps_id_bind; [apply keeps_id_lift|].
    intros d. exact (keeps_id_setattr p_department (PInt d)).
Qed.

Lemma init_post_Permanent (name email hourly_pay hired_date : pyval) (st : state) :
  init_post st (Permanent.__init__ name email hourly_pay hired_date st).
Proof.
  unfold Permanent.__init__. apply init_post_then.
  - apply init_post_Hourly.
  - apply keeps_id_bind; [apply keeps_id_lift|].
    intros d. exact (keeps_id_setattr p_hired_date (PDatetime d)).
Qed.

Lemma init_post_Temp (name email hourly last_day : pyval) (st : state) :
  init_post st (Temp.__init__ name email hourly last_day st).
Proof.
  unfold Temp.__init__. apply init_post_then.
  - apply init_post_Hourly.
  - apply keeps_id_bind; [apply keeps_id_lift|].
    intros d. exact (keeps_id_setattr p_last_day (PDatetime d)).
Qed.

(** A constructor call that returns hands out the counter's value and
    advances the counter by one; a call that raises leaves the counter
    where it was or one further. *)
Lemma construct_post (c : call) (n : Z) :
  match construct c n with
  | (Ok o, n') => n' = n + 1 /\ _id_number o = Some n
  | (Raise _, n') => n' = n \/ n' = n + 1
  end.
Proof.
  assert (Hnew : forall cl init,
             (forall st, init_post st (init st)) ->
             match new cl init n with
             | (Ok o, n') => n' = n + 1 /\ _id_number o = Some n
             | (Raise _, n') => n' = n \/ n' = n + 1
             end).
  { intros cl init Hinit. unfold new.
    destruct (ABCMeta.instantiable cl); [|now left].
    specialize (Hinit (mkState n (fresh cl))).
    destruct (init (mkState n (fresh cl))) as [[[]|e] st']; exact Hinit. }
  destruct c; unfold construct; apply Hnew; intros st.
  - apply init_post_Employee.
  - apply init_post_Salaried.
  - apply init_post_Hourly.
  - apply init_post_Executive.
  - apply init_post_Manager.
  - apply init_post_Permanent.
  - apply init_post_Temp.
Qed.

Lemma consecutive_S (n : Z) (len : nat) :
  consecutive n (S len) = n :: consecutive (n + 1) len.
Proof.
  unfold consecutive. cbn [seq List.map]. f_equal; [simpl; lia|].
  rewrite <- seq_shift, map_map. apply map_ext. intros k. lia.
Qed.

Lemma construct_all_ids (calls : list call) (n : Z) :
  n <= snd (construct_all calls n)
  /\ exists ids,
       List.map _id_number (constructed (fst (construct_all calls n)))
       = List.map Some ids
       /\ StronglySorted Z.lt ids
       /\ Forall (fun i => n <= i < snd (construct_all calls n)) ids.
Proof.
  revert n. induction calls as [|c rest IH]; intros n; simpl.
  - split; [lia|]. exists []. repeat split; constructor.
  - pose proof (construct_post c n) as Hc.
    destruct (construct c n) as [r n1].
    destruct (IH n1) as [Hle [ids [Hids [Hsorted Hall]]]].
    destruct (construct_all rest n1) as [rs n2]; simpl in *.
    assert (Hwiden : Forall (fun i => n1 <= i < n2) ids ->
                     n <= n1 -> Forall (fun i => n <= i < n2) ids).
    { intros H Hn. eapply Forall_impl; [|exact H]. simpl. intros; lia. }
    destruct r as [o|e].
    + destruct Hc as [-> Hid]. split; [lia|].
      exists (n :: ids). simpl. rewrite Hid, Hids. repeat split.
      * constructor; [exact Hsorted|].
        eapply Forall_impl; [|exact Hall]. simpl. intros; lia.
      * constructor; [lia|]. apply Hwiden; [exact Hall | lia].
    + split; [lia|]. exists ids. repeat split; try assumption.
      apply Hwiden; [exact Hall | lia].
Qed.

Lemma construct_all_consecutive (calls : list call) (n : Z) :
  forallb succeeded (fst (construct_all calls n)) = true ->
  List.map _id_number (constructed (fst (construct_all calls n)))
  = List.map Some (consecutive n (List.length calls)).
Proof.
  revert n. induction calls as [|c rest IH]; intros n.
  - reflexivity.
  - change (List.length (c :: rest)) with (S (List.length rest)).
    rewrite consecutive_S. cbn [construct_all].
    pose proof (construct_post c n) as Hc.
    destruct (construct c n) as [r n1].
    specialize (IH n1).
    destruct (construct_all rest n1) as [rs n2].
    cbn [fst snd] in *.
    destruct r as [o|e]; cbn [forallb succeeded andb constructed List.map];
      [|discriminate].
    intros Hall. destruct Hc as [-> Hid].
    rewrite Hid, (IH Hall). reflexivity.
Qed.

Lemma keeps_id_type_name : keeps_id type_name.
Proof. intros st. split; reflexivity. Qed.

Ltac keeps :=
  repeat first
    [ apply keeps_id_attr | apply keeps_id_ret | apply keeps_id_type_name
    | apply keeps_id_lift | apply keeps_id_setattr
    | apply keeps_id_bind; [|intros ?] ].

Lemma keeps_id_repr : keeps_id __repr__.
Proof.
  intros st. unfold __repr__.
  destruct (ob_class (self st));
    [ apply (@keeps_id_bind _ _ Employee.name)
    | apply (@keeps_id_bind _ _ type_name)
    | apply (@keeps_id_bind _ _ type_name)
    | apply (@keeps_id_bind _ _ Salaried.__repr__)
    | apply (@keeps_id_bind _ _ Salaried.__repr__)
    | apply (@keeps_id_bind _ _ Hourly.__repr__)
    | apply (@keeps_id_bind _ _ Hourly.__repr__) ];
    unfold Salaried.__repr__, Hourly.__repr__, Employee.__repr__,
      Employee.name, Employee.email, Employee.image, Salaried.yearly,
      Hourly.hourly, Executive.role, Manager.department,
      Permanent.hired_date, Temp.last_day;
    try intros ?; keeps.
Qed.

Lemma keeps_id_calc_pay : keeps_id calc_pay.
Proof.
  intros st. unfold calc_pay.
  destruct (ob_class (self st));
    first [ apply (@keeps_id_ret pyval PNone)
          | apply (@keeps_id_bind _ _ Salaried.calc_pay
                     (fun p => ret (PFloat p)))
          | apply (@keeps_id_bind _ _ Hourly.calc_pay
                     (fun p => ret (PFloat p))) ];
    unfold Salaried.calc_pay, Hourly.calc_pay, Salaried.yearly, Hourly.hourly;
    try intros ?; keeps.
Qed.

Lemma keeps_id_run (op : operation) : keeps_id (run op).
Proof.
  destruct op as [p | p v | | |]; simpl.
  - destruct p; unfold getattr, Employee.id_number, Employee.name,
      Employee.email, Employee.image, Salaried.yearly, Hourly.hourly,
      Executive.role, Manager.department, Permanent.hired_date,
      Temp.last_day; keeps.
  - keeps.
  - apply keeps_id_calc_pay.
  - unfold Employee.__str__, Employee.id_number, Employee.name. keeps.
  - apply keeps_id_bind; [apply keeps_id_repr | intros ?; keeps].
Qed.

(** C1.  Identifiers come from the single class counter.  Along any
    series of constructor calls started at counter [n], the instances
    that were built carry identifiers that increase strictly in
    construction order and lie between [n] and the final counter; when
    every call of the series succeeds they are exactly
    [n, n + 1, n + 2, ...].  Afterwards no public operation (reading or
    assigning a property, [calc_pay], [__str__], [__repr__]) changes
    the identifier of an instance or the counter, and assigning
    [id_number] itself is refused. *)
Theorem C1_identifiers (calls : list call) (n : Z) (op : operation)
        (v : pyval) (st : state) :
  (exists ids,
      List.map _id_number (constructed (fst (construct_all calls n)))
      = List.map Some ids
      /\ StronglySorted Z.lt ids
      /\ Forall (fun i => n <= i < snd (construct_all calls n)) ids)
  /\ (forallb succeeded (fst (construct_all calls n)) = true ->
      List.map _id_number (constructed (fst (construct_all calls n)))
      = List.map Some (consecutive n (List.length calls)))
  /\ (supported (ob_class (self st)) op = true ->
      _id_number (self (snd (run op st))) = _id_number (self st)
      /\ current_id (snd (run op st)) = current_id st)
  /\ (exists e, run (Set_ p_id_number v) st = (Raise e, st)).
Proof.
  split; [apply construct_all_ids|].
  split; [apply construct_all_consecutive|].
  split.
  - intros _. destruct (keeps_id_run op st) as [H1 H2]. auto.
  - eexists. reflexivity.
Qed.

Lemma C1_identifiers_witness :
  List.map _id_number (constructed (fst (construct_all sample_calls 1)))
  = List.map Some (consecutive 1 2)
  /\ _id_number (self (snd (run (Set_ p_name (PStr "Zed")) (mkState 5 sample_temp))))
     = Some 4.
Proof.
  destruct (C1_identifiers sample_calls 1 (Set_ p_name (PStr "Zed")) PNone
              (mkState 5 sample_temp)) as [_ [Hall [Hop _]]].
  split.
  - apply Hall. reflexivity.
  - apply Hop. reflexivity.
Defined.

(** A salaried or hourly constructor that fails after
    [Employee.__init__] has run has already taken an identifier: the
    next instance does not get the next number. *)
Lemma failed_construction_takes_an_id :
  List.map _id_number
    (constructed (fst (construct_all
       [Executive_ (PStr "Ann") (PStr "ann@acme-machining.com") (PStr "60000") (PStr "2");
        Executive_ (PStr "Bob") (PStr "bob@acme-machining.com") (PStr "50000") (PStr "1");
        Executive_ (PStr "Cy") (PStr "cy@acme-machining.com") (PStr "70000") (PStr "3")]
       1)))
  = [Some 1; Some 3].
Proof. reflexivity. Qed.

(** ** C8: writing a record out and reading it back *)

(** C8 fails on the code as stated.  An executive with a yearly amount
    of 50,000.001 satisfies every field invariant and has no comma in
    its strings; its line carries the amount as ["50000.00"], which
    reads back as 50,000.0, and the yearly setter refuses it: the line
    cannot be loaded at all. *)
Theorem C8_round_trip_fails :
  stored fine_executive = true
  /\ commaless fine_executive = true
  /\ MainWindow.line fine_executive
     = Ok "Executive,Ann,ann@acme-machining.com,./imagesForProject2CIS163/placeholder.png,50000.00,2"
  /\ ~ (exists o', reloads fine_executive 5 o' /\ same_record fine_executive o').
Proof.
  repeat split.
  intros [o' [[text [n' [Hsave Hload]]] _]].
  vm_compute in Hsave. injection Hsave as <-.
  vm_compute in Hload. discriminate Hload.
Qed.

(** Two more ways the round trip is lost: an amount with more than two
    decimals comes back rounded, and a date with microseconds is
    printed with a fraction that [strptime] does not accept. *)
Lemma reload_rounds_the_pay :
  exists o',
    reloads (with_yearly (of_decimal false 60000123 (-3)) sample_executive) 5 o'
    /\ _yearly o' = Some (of_decimal false 6000012 (-2))
    /\ of_decimal false 6000012 (-2) <> of_decimal false 60000123 (-3).
Proof.
  exists (with_id_number 5
            (with_yearly (of_decimal false 6000012 (-2)) sample_executive)).
  split.
  - exists (String.append "Executive,Ann,ann@acme-machining.com,./imagesForProject2CIS163/placeholder.png,60000.12,2"
              (String "010" EmptyString)), 6.
    split.
    + vm_compute. reflexivity.
    + vm_compute. reflexivity.
  - split.
    + reflexivity.
    + vm_compute. discriminate.
Qed.

Lemma reload_refuses_microseconds :
  stored precise_permanent = true
  /\ commaless precise_permanent = true
  /\ ~ (exists o', reloads precise_permanent 5 o').
Proof.
  repeat split.
  intros [o' [text [n' [Hsave Hload]]]].
  vm_compute in Hsave. injection Hsave as <-.
  vm_compute in Hload. discriminate Hload.
Qed.

(** *** Reversed strings *)

Lemma rev_onto_app (p acc rest : string) :
  Str.rev_onto (Str.rev_onto p acc) rest = Str.rev_onto acc (p ++ rest).
Proof.
  revert acc rest. induction p as [|c p IH]; intros acc rest; simpl.
  - reflexivity.
  - rewrite IH. reflexivity.
Qed.

Lemma rev_rev_onto (p : string) : Str.rev (Str.rev_onto p "") = p.
Proof.
  unfold Str.rev. rewrite rev_onto_app. simpl. apply append_nil_r.
Qed.

(** *** Decimal digits *)

Lemma digit_char_spec (d : Z) :
  0 <= d < 10 ->
  Str.is_digit (Str.digit_char d) = true
  /\ Str.digit_val (Str.digit_char d) = d
  /\ Ascii.eqb "," (Str.digit_char d) = false
  /\ Str.is_space (Str.digit_char d) = false.
Proof.
  intros H.
  assert (Hd : d = 0 \/ d = 1 \/ d = 2 \/ d = 3 \/ d = 4 \/ d = 5 \/ d = 6
               \/ d = 7 \/ d = 8 \/ d = 9) by lia.
  repeat (destruct Hd as [-> | Hd]; [repeat split|]).
  subst d. repeat split.
Qed.

Lemma mod10_digit (n : Z) : 0 <= n mod 10 < 10.
Proof. apply Z.mod_pos_bound. lia. Qed.

(** *** Dates *)

Lemma holds_below_spec (test : Z -> bool) (k : nat) (n : Z) :
  holds_below test k = true -> 0 <= n < Z.of_nat k -> test n = true.
Proof.
  unfold holds_below. rewrite forallb_forall. intros H Hn.
  specialize (H (Z.to_nat n)). rewrite Z2Nat.id in H by lia.
  apply H. apply in_seq. lia.
Qed.

Lemma reads_back_spec (parse : string -> option Z) (w : nat) (n : Z) :
  reads_back parse w n = true -> parse (Str.zero_pad w n) = Some n.
Proof.
  unfold reads_back. destruct (parse (Str.zero_pad w n)); [|discriminate].
  intros H. apply Z.eqb_eq in H. now subst.
Qed.

Lemma all_digits_app (a b : string) :
  all_digits (a ++ b) = all_digits a && all_digits b.
Proof.
  induction a as [|c a IH]; simpl; [reflexivity|].
  rewrite IH. now rewrite andb_assoc.
Qed.

Lemma zero_pad_digits (w : nat) (n : Z) : all_digits (Str.zero_pad w n) = true.
Proof.
  revert n. induction w as [|w IH]; intros n; simpl; [reflexivity|].
  rewrite all_digits_app, IH. simpl.
  destruct (digit_char_spec (n mod 10) (mod10_digit n)) as [H _].
  now rewrite H.
Qed.

Lemma span_digits_run (ds rest : string) :
  all_digits ds = true -> ends_run rest = true ->
  Datetime.span_digits (ds ++ rest) = (ds, rest).
Proof.
  intros Hds Hrest. induction ds as [|c ds IH]; simpl in *.
  - destruct rest as [|r rest]; [reflexivity|]. simpl in *.
    apply negb_true_iff in Hrest. now rewrite Hrest.
  - apply andb_true_iff in Hds. destruct Hds as [Hc Hds].
    rewrite Hc, (IH Hds). reflexivity.
Qed.

Lemma span_zero_pad (w : nat) (n : Z) (rest : string) :
  ends_run rest = true ->
  Datetime.span_digits (Str.zero_pad w n ++ rest) = (Str.zero_pad w n, rest).
Proof. intros H. apply span_digits_run; [apply zero_pad_digits | exact H]. Qed.

Lemma field_Y_reads (y : Z) :
  0 <= y < 10000 -> Datetime.field_Y (Str.zero_pad 4 y) = Some y.
Proof.
  intros H. apply reads_back_spec.
  apply (holds_below_spec (reads_back Datetime.field_Y 4) (Z.to_nat 10000));
    [vm_compute; reflexivity | rewrite Z2Nat.id; lia].
Qed.

Lemma field_m_reads (m : Z) :
  1 <= m <= 12 -> Datetime.field_m (Str.zero_pad 2 m) = Some m.
Proof.
  intros H. apply reads_back_spec.
  assert (H' : ((m =? 0) || reads_back Datetime.field_m 2 m) = true).
  { apply (holds_below_spec
             (fun n => (n =? 0) || reads_back Datetime.field_m 2 n) 13);
      [vm_compute; reflexivity | lia]. }
  destruct (Z.eqb_spec m 0); [lia | exact H'].
Qed.

Lemma field_d_reads (d : Z) :
  1 <= d <= 31 -> Datetime.field_d (Str.zero_pad 2 d) = Some d.
Proof.
  intros H. apply reads_back_spec.
  assert (H' : ((d =? 0) || reads_back Datetime.field_d 2 d) = true).
  { apply (holds_below_spec
             (fun n => (n =? 0) || reads_back Datetime.field_d 2 n) 32);
      [vm_compute; reflexivity | lia]. }
  destruct (Z.eqb_spec d 0); [lia | exact H'].
Qed.

Lemma field_H_reads (h : Z) :
  0 <= h <= 23 -> Datetime.field_H (Str.zero_pad 2 h) = Some h.
Proof.
  intros H. apply reads_back_spec.
  apply (holds_below_spec (reads_back Datetime.field_H 2) 24);
    [vm_compute; reflexivity | lia].
Qed.

Lemma field_M_reads (m : Z) :
  0 <= m <= 59 -> Datetime.field_M (Str.zero_pad 2 m) = Some m.
Proof.
  intros H. apply reads_back_spec.
  apply (holds_below_spec (reads_back Datetime.field_M 2) 60);
    [vm_compute; reflexivity | lia].
Qed.

Lemma field_S_reads (s : Z) :
  0 <= s <= 59 -> Datetime.field_S (Str.zero_pad 2 s) = Some s.
Proof.
  intros H. apply reads_back_spec.
  apply (holds_below_spec (reads_back Datetime.field_S 2) 60);
    [vm_compute; reflexivity | lia].
Qed.

Lemma zero_pad_2 (n : Z) :
  Str.zero_pad 2 n
  = String (Str.digit_char ((n / 10) mod 10))
      (String (Str.digit_char (n mod 10)) "").
Proof. reflexivity. Qed.

Lemma expect_head (c : ascii) (r : string) :
  Datetime.expect c (String c r) = Some r.
Proof. unfold Datetime.expect. now rewrite Ascii.eqb_refl. Qed.

Lemma day_field_reads (d : Z) (rest : string) :
  1 <= d <= 31 -> ends_run rest = true ->
  Datetime.day_field (Str.zero_pad 2 d ++ rest) = Some (d, rest).
Proof.
  intros Hd Hrest. unfold Datetime.day_field.
  rewrite span_zero_pad by exact Hrest.
  rewrite field_d_reads by exact Hd.
  rewrite zero_pad_2. reflexivity.
Qed.

Lemma lstrip_zero_pad_2 (n : Z) (rest : string) :
  Str.lstrip (Str.zero_pad 2 n ++ rest) = Str.zero_pad 2 n ++ rest.
Proof.
  rewrite zero_pad_2. cbn [append Str.lstrip].
  destruct (digit_char_spec ((n / 10) mod 10) (mod10_digit (n / 10)))
    as [_ [_ [_ H]]].
  now rewrite H.
Qed.

Lemma days_in_month_le (y m : Z) : Datetime.days_in_month y m <= 31.
Proof.
  unfold Datetime.days_in_month.
  destruct (m =? 2); [destruct (Datetime.is_leap y); lia|].
  destruct ((m =? 4) || (m =? 6) || (m =? 9) || (m =? 11)); lia.
Qed.

(** Reading back the printed form of a date without microseconds gives
    the date. *)
Lemma strptime_to_str (d : datetime) :
  Datetime.valid d = true -> Datetime.microsecond d = 0 ->
  Datetime.strptime (Datetime.to_str d) = Some d.
Proof.
  intros Hv Hus. pose proof Hv as Hv'.
  destruct d as [Y m dd h mi s us]. simpl in Hus. subst us.
  unfold Datetime.valid in Hv'. cbn [Datetime.year Datetime.month Datetime.day
    Datetime.hour Datetime.minute Datetime.second Datetime.microsecond] in Hv'.
  repeat (apply andb_true_iff in Hv'; destruct Hv' as [Hv' ?]).
  repeat match goal with H : (_ <=? _) = true |- _ => apply Z.leb_le in H end.
  pose proof (days_in_month_le Y m) as Hdim.
  unfold Datetime.to_str, Datetime.strptime.
  cbn [Datetime.year Datetime.month Datetime.day Datetime.hour Datetime.minute
       Datetime.second Datetime.microsecond Z.eqb].
  repeat match goal with
         | |- context [(String ?c ?x ++ ?t)%string] =>
             change (String c x ++ t)%string with (String c (x ++ t))
         | |- context [(EmptyString ++ ?t)%string] =>
             change (EmptyString ++ t)%string with t
         end.
  rewrite span_zero_pad by reflexivity. cbv beta iota.
  rewrite field_Y_reads by lia. rewrite expect_head.
  rewrite span_zero_pad by reflexivity. cbv beta iota.
  rewrite field_m_reads by lia. rewrite expect_head.
  rewrite day_field_reads by (reflexivity || lia).
  change (Datetime.spaces (String " " ?x)) with (Some (Str.lstrip x)).
  rewrite lstrip_zero_pad_2.
  rewrite span_zero_pad by reflexivity. cbv beta iota.
  rewrite field_H_reads by lia. rewrite expect_head.
  rewrite span_zero_pad by reflexivity. cbv beta iota.
  rewrite field_M_reads by lia. rewrite expect_head.
  rewrite span_zero_pad by reflexivity. cbv beta iota.
  rewrite field_S_reads by lia.
  rewrite Hv. reflexivity.
Qed.

(** *** Loading a well-formed row *)

Lemma nonempty_length (s : string) :
  nonempty s = true ->
  (String.length s <=? 0)%nat = false /\ (String.length s =? 0)%nat = false.
Proof. destruct s; [discriminate | split; reflexivity]. Qed.

Lemma ltb_not_leb (c y : float) :
  PyFloat.ltb c y = true -> PyFloat.leb y c = false.
Proof.
  unfold PyFloat.ltb, PyFloat.leb, SFltb, SFleb.
  rewrite (SFcompare_antisym c y).
  destruct (SFcompare c y) as [[]|]; simpl; congruence.
Qed.

(** ** Constructors, step by step *)

Lemma bind_ok {S A B} (m : M S A) (k : A -> M S B) (s s' : S) (a : A) :
  m s = (Ok a, s') -> bind m k s = k a s'.
Proof. intros H. unfold bind. now rewrite H. Qed.

Lemma bind_raise {S A B} (m : M S A) (k : A -> M S B) (s s' : S) (e : exn) :
  m s = (Raise e, s') -> bind m k s = (Raise e, s').
Proof. intros H. unfold bind. now rewrite H. Qed.

Lemma set_name_ok (n : string) (st : state) :
  nonempty n = true ->
  Employee.set_name (PStr n) st
  = (Ok tt, mkState (current_id st) (with_name n (self st))).
Proof.
  intros H. destruct (nonempty_length n H) as [H1 _].
  unfold Employee.set_name. rewrite H1. reflexivity.
Qed.

Lemma set_email_ok (e : string) (st : state) :
  Str.contains Employee.DOMAIN e = true ->
  Employee.set_email (PStr e) st
  = (Ok tt, mkState (current_id st) (with_email e (self st))).
Proof.
  intros H. unfold Employee.set_email.
  assert (Hlen : (String.length e <=? 0)%nat = false).
  { destruct e; [discriminate H | reflexivity]. }
  rewrite Hlen, H. reflexivity.
Qed.

Lemma set_image_ok (i : string) (st : state) :
  nonempty i = true ->
  Employee.set_image (PStr i) st
  = (Ok tt, mkState (current_id st) (with_image i (self st))).
Proof.
  intros H. destruct (nonempty_length i H) as [_ H2].
  unfold Employee.set_image. rewrite H2. reflexivity.
Qed.

Lemma Employee_init_ok (n e : string) (st : state) :
  nonempty n = true -> Str.contains Employee.DOMAIN e = true ->
  Employee.__init__ (PStr n) (PStr e) st
  = (Ok tt,
     mkState (current_id st + 1)
       (with_id_number (current_id st)
          (with_image Employee.IMAGE_PLACEHOLDER
             (with_email e (with_name n (self st)))))).
Proof.
  intros Hn He. unfold Employee.__init__.
  rewrite (bind_ok _ _ _ _ _ (set_name_ok n st Hn)).
  rewrite (bind_ok _ _ _ _ _ (set_email_ok e _ He)).
  rewrite (bind_ok _ _ _ _ _ (set_image_ok Employee.IMAGE_PLACEHOLDER _ eq_refl)).
  reflexivity.
Qed.

Lemma set_yearly_ok (y : float) (st : state) :
  PyFloat.leb y lit_50000 = false ->
  Salaried.set_yearly (PFloat y) st
  = (Ok tt, mkState (current_id st) (with_yearly y (self st))).
Proof.
  intros H. unfold Salaried.set_yearly, bind, lift, Builtins.float.
  rewrite H. reflexivity.
Qed.

Lemma set_hourly_ok (h : float) (st : state) :
  in_hourly_range h = true ->
  Hourly.set_hourly (PFloat h) st
  = (Ok tt, mkState (current_id st) (with_hourly h (self st))).
Proof.
  intros H. unfold Hourly.set_hourly, bind, lift, Builtins.float.
  unfold in_hourly_range in H. rewrite H. reflexivity.
Qed.

Lemma Salaried_init_ok (n e : string) (v : pyval) (y : float) (st : state) :
  nonempty n = true -> Str.contains Employee.DOMAIN e = true ->
  Builtins.float v = Ok y -> PyFloat.leb y lit_50000 = false ->
  Salaried.__init__ (PStr n) (PStr e) v st
  = (Ok tt,
     mkState (current_id st + 1)
       (with_yearly y
          (with_id_number (current_id st)
             (with_image Employee.IMAGE_PLACEHOLDER
                (with_email e (with_name n (self st))))))).
Proof.
  intros Hn He Hv Hy. unfold Salaried.__init__.
  rewrite (bind_ok _ _ _ _ _ (Employee_init_ok n e st Hn He)).
  unfold lift at 1. unfold bind at 1. rewrite Hv.
  rewrite set_yearly_ok by exact Hy. reflexivity.
Qed.

Lemma Hourly_init_ok (n e : string) (v : pyval) (h : float) (st : state) :
  nonempty n = true -> Str.contains Employee.DOMAIN e = true ->
  Builtins.float v = Ok h -> in_hourly_range h = true ->
  Hourly.__init__ (PStr n) (PStr e) v st
  = (Ok tt,
     mkState (current_id st + 1)
       (with_hourly h
          (with_id_number (current_id st)
             (with_image Employee.IMAGE_PLACEHOLDER
                (with_email e (with_name n (self st))))))).
Proof.
  intros Hn He Hv Hh. unfold Hourly.__init__.
  rewrite (bind_ok _ _ _ _ _ (Employee_init_ok n e st Hn He)).
  unfold lift at 1. unfold bind at 1. rewrite Hv.
  rewrite set_hourly_ok by exact Hh. reflexivity.
Qed.

Lemma Executive_init_ok (n e : string) (v w : pyval) (y : float) (r : Role)
      (st : state) :
  nonempty n = true -> Str.contains Employee.DOMAIN e = true ->
  Builtins.float v = Ok y -> PyFloat.leb y lit_50000 = false ->
  Builtins.int w = Ok (Role_value r) ->
  Executive.__init__ (PStr n) (PStr e) v w st
  = (Ok tt,
     mkState (current_id st + 1)
       (with_role r
          (with_yearly y
             (with_id_number (current_id st)
                (with_image Employee.IMAGE_PLACEHOLDER
                   (with_email e (with_name n (self st)))))))).
Proof.
  intros Hn He Hv Hy Hw. unfold Executive.__init__.
  rewrite (bind_ok _ _ _ _ _ (Salaried_init_ok n e v y st Hn He Hv Hy)).
  unfold lift at 1. unfold bind at 1. rewrite Hw.
  exact (set_role_accepts (PInt (Role_value r)) r _ eq_refl).
Qed.

Lemma Manager_init_ok (n e : string) (v w : pyval) (y : float) (d : Department)
      (st : state) :
  nonempty n = true -> Str.contains Employee.DOMAIN e = true ->
  Builtins.float v = Ok y -> PyFloat.leb y lit_50000 = false ->
  Builtins.int w = Ok (Department_value d) ->
  Manager.__init__ (PStr n) (PStr e) v w st
  = (Ok tt,
     mkState (current_id st + 1)
       (with_department d
          (with_yearly y
             (with_id_number (current_id st)
                (with_image Employee.IMAGE_PLACEHOLDER
                   (with_email e (with_name n (self st)))))))).
Proof.
  intros Hn He Hv Hy Hw. unfold Manager.__init__.
  rewrite (bind_ok _ _ _ _ _ (Salaried_init_ok n e v y st Hn He Hv Hy)).
  unfold lift at 1. unfold bind at 1. rewrite Hw.
  exact (set_department_accepts (PInt (Department_value d)) d _ eq_refl).
Qed.

Lemma Permanent_init_ok (n e : string) (v w : pyval) (h : float) (t : datetime)
      (st : state) :
  nonempty n = true -> Str.contains Employee.DOMAIN e = true ->
  Builtins.float v = Ok h -> in_hourly_range h = true ->
  Builtins.strptime w = Ok t ->
  Permanent.__init__ (PStr n) (PStr e) v w st
  = (Ok tt,
     mkState (current_id st + 1)
       (with_hired_date t
          (with_hourly h
             (with_id_number (current_id st)
                (with_image Employee.IMAGE_PLACEHOLDER
                   (with_email e (with_name n (self st)))))))).
Proof.
  intros Hn He Hv Hh Hw. unfold Permanent.__init__.
  rewrite (bind_ok _ _ _ _ _ (Hourly_init_ok n e v h st Hn He Hv Hh)).
  unfold lift at 1. unfold bind at 1. rewrite Hw. reflexivity.
Qed.

Lemma Temp_init_ok (n e : string) (v w : pyval) (h : float) (t : datetime)
      (st : state) :
  nonempty n = true -> Str.contains Employee.DOMAIN e = true ->
  Builtins.float v = Ok h -> in_hourly_range h = true ->
  Builtins.strptime w = Ok t ->
  Temp.__init__ (PStr n) (PStr e) v w st
  = (Ok tt,
     mkState (current_id st + 1)
       (with_last_day t
          (with_hourly h
             (with_id_number (current_id st)
                (with_image Employee.IMAGE_PLACEHOLDER
                   (with_email e (with_name n (self st)))))))).
Proof.
  intros Hn He Hv Hh Hw. unfold Temp.__init__.
  rewrite (bind_ok _ _ _ _ _ (Hourly_init_ok n e v h st Hn He Hv Hh)).
  unfold lift at 1. unfold bind at 1. rewrite Hw. reflexivity.
Qed.

Lemma new_ok (c : class) (init : M state unit) (k : Z) (st : state) :
  ABCMeta.instantiable c = true ->
  init (mkState k (fresh c)) = (Ok tt, st) ->
  new c init k = (Ok (self st), current_id st).
Proof. intros Hc Hi. unfold new. now rewrite Hc, Hi. Qed.

Lemma construct_Executive_ok (n e : string) (v w : pyval) (y : float)
      (r : Role) (k : Z) :
  nonempty n = true -> Str.contains Employee.DOMAIN e = true ->
  Builtins.float v = Ok y -> PyFloat.leb y lit_50000 = false ->
  Builtins.int w = Ok (Role_value r) ->
  construct (Executive_ (PStr n) (PStr e) v w) k
  = (Ok (mkObject cExecutive (Some n) (Some e)
           (Some Employee.IMAGE_PLACEHOLDER) (Some k) (Some y) None (Some r)
           None None None), k + 1).
Proof.
  intros Hn He Hv Hy Hw.
  exact (new_ok cExecutive _ k _ eq_refl
           (Executive_init_ok n e v w y r (mkState k (fresh cExecutive))
              Hn He Hv Hy Hw)).
Qed.

Lemma construct_Manager_ok (n e : string) (v w : pyval) (y : float)
      (d : Department) (k : Z) :
  nonempty n = true -> Str.contains Employee.DOMAIN e = true ->
  Builtins.float v = Ok y -> PyFloat.leb y lit_50000 = false ->
  Builtins.int w = Ok (Department_value d) ->
  construct (Manager_ (PStr n) (PStr e) v w) k
  = (Ok (mkObject cManager (Some n) (Some e)
           (Some Employee.IMAGE_PLACEHOLDER) (Some k) (Some y) None None
           (Some d) None None), k + 1).
Proof.
  intros Hn He Hv Hy Hw.
  exact (new_ok cManager _ k _ eq_refl
           (Manager_init_ok n e v w y d (mkState k (fresh cManager))
              Hn He Hv Hy Hw)).
Qed.

Lemma construct_Permanent_ok (n e : string) (v w : pyval) (h : float)
      (t : datetime) (k : Z) :
  nonempty n = true -> Str.contains Employee.DOMAIN e = true ->
  Builtins.float v = Ok h -> in_hourly_range h = true ->
  Builtins.strptime w = Ok t ->
  construct (Permanent_ (PStr n) (PStr e) v w) k
  = (Ok (mkObject cPermanent (Some n) (Some e)
           (Some Employee.IMAGE_PLACEHOLDER) (Some k) None (Some h) None None
           (Some t) None), k + 1).
Proof.
  intros Hn He Hv Hh Hw.
  exact (new_ok cPermanent _ k _ eq_refl
           (Permanent_init_ok n e v w h t (mkState k (fresh cPermanent))
              Hn He Hv Hh Hw)).
Qed.

Lemma construct_Temp_ok (n e : string) (v w : pyval) (h : float)
      (t : datetime) (k : Z) :
  nonempty n = true -> Str.contains Employee.DOMAIN e = true ->
  Builtins.float v = Ok h -> in_hourly_range h = true ->
  Builtins.strptime w = Ok t ->
  construct (Temp_ (PStr n) (PStr e) v w) k
  = (Ok (mkObject cTemp (Some n) (Some e)
           (Some Employee.IMAGE_PLACEHOLDER) (Some k) None (Some h) None None
           None (Some t)), k + 1).
Proof.
  intros Hn He Hv Hh Hw.
  exact (new_ok cTemp _ k _ eq_refl
           (Temp_init_ok n e v w h t (mkState k (fresh cTemp))
              Hn He Hv Hh Hw)).
Qed.

(** *** Rows *)

Lemma bind_ret_l {S A B} (a : A) (k : A -> M S B) : bind (ret a) k = k a.
Proof. reflexivity. Qed.

Ltac step_row :=
  unfold MainWindow.create_employee, MainWindow.arguments, MainWindow.item;
  cbn [nth_error];
  repeat (rewrite bind_ret_l; cbv beta);
  cbn [MainWindow.is_str]; 
  repeat match goal with
         | |- context [String.eqb ?a ?b] =>
             let v := eval vm_compute in (String.eqb a b) in
             change (String.eqb a b) with v
         end;
  cbv iota; repeat (rewrite bind_ret_l; cbv beta iota).

Lemma create_Executive (n e i ps xs : string) (k k' : Z) (o : object) :
  construct (Executive_ (PStr n) (PStr e) (PStr ps) (PStr xs)) k = (Ok o, k') ->
  MainWindow.create_employee ["Executive"; n; e; i; ps; xs] k = (Ok (Some o), k').
Proof.
  intros H. step_row.
  rewrite (bind_ok _ _ _ _ _ H). reflexivity.
Qed.

Lemma create_Manager (n e i ps xs : string) (k k' : Z) (o : object) :
  construct (Manager_ (PStr n) (PStr e) (PStr ps) (PStr xs)) k = (Ok o, k') ->
  MainWindow.create_employee ["Manager"; n; e; i; ps; xs] k = (Ok (Some o), k').
Proof.
  intros H. step_row.
  rewrite (bind_ok _ _ _ _ _ H). reflexivity.
Qed.

Lemma create_Temp (n e i ps xs : string) (k k' : Z) (o : object) :
  construct (Temp_ (PStr n) (PStr e) (PStr ps) (PStr xs)) k = (Ok o, k') ->
  MainWindow.create_employee ["Temp"; n; e; i; ps; xs] k = (Ok (Some o), k').
Proof.
  intros H. step_row.
  rewrite (bind_ok _ _ _ _ _ H). reflexivity.
Qed.

Lemma create_Permanent (n e i ps xs : string) (k k' : Z) (o : object) :
  construct (Permanent_ (PStr n) (PStr e) (PStr ps) (PStr xs)) k = (Ok o, k') ->
  MainWindow.create_employee ["Permanent"; n; e; i; ps; xs] k = (Ok (Some o), k').
Proof.
  intros H. step_row.
  rewrite (bind_ok _ _ _ _ _ H). reflexivity.
Qed.

(** After a successful [create_employee], [load_row] assigns the image
    of field 3. *)
Lemma load_row_ok (row : list string) (i : string) (k k' : Z) (o : object) :
  MainWindow.create_employee row k = (Ok (Some o), k') ->
  nth_error row 3 = Some i -> nonempty i = true ->
  MainWindow.load_row row k = (Ok (with_image i o), k').
Proof.
  intros Hc Hi Hne. unfold MainWindow.load_row.
  rewrite (bind_ok _ _ _ _ _ Hc).
  unfold MainWindow.item. rewrite Hi. rewrite bind_ret_l.
  unfold on_object, bind. rewrite set_image_ok by exact Hne. reflexivity.
Qed.

(** ** The data file *)

(** *** The characters of the written fields *)

Lemma all_app (p : ascii -> bool) (a b : string) :
  Str.all p (a ++ b) = Str.all p a && Str.all p b.
Proof.
  induction a as [|c a IH]; cbn [append Str.all]; [reflexivity|].
  rewrite IH. apply andb_assoc.
Qed.

Lemma all_weaken (p q : ascii -> bool) (s : string) :
  (forall c, p c = true -> q c = true) ->
  Str.all p s = true -> Str.all q s = true.
Proof.
  intros Hpq. induction s as [|c s IH]; cbn [Str.all]; [reflexivity|].
  intros H. apply andb_true_iff in H. destruct H as [Hc Hs].
  rewrite (Hpq c Hc). now apply IH.
Qed.

Lemma zero_pad_all_digits (w : nat) (n : Z) :
  Str.all Str.is_digit (Str.zero_pad w n) = true.
Proof.
  revert n. induction w as [|w IH]; intros n; cbn [Str.zero_pad];
    [reflexivity|].
  rewrite all_app, IH. cbn [Str.all andb].
  destruct (digit_char_spec (n mod 10) (mod10_digit n)) as [H _].
  now rewrite H.
Qed.

Lemma digits_go_all_digits (fuel : nat) (n : Z) (acc : string) :
  Str.all Str.is_digit acc = true ->
  Str.all Str.is_digit (Str.digits_go fuel n acc) = true.
Proof.
  revert n acc. induction fuel as [|f IH]; intros n acc Hacc;
    cbn [Str.digits_go]; [exact Hacc|].
  assert (H : Str.all Str.is_digit (String (Str.digit_char (n mod 10)) acc) = true).
  { cbn [Str.all].
    destruct (digit_char_spec (n mod 10) (mod10_digit n)) as [H _].
    now rewrite H. }
  destruct (n / 10 =? 0); [exact H | now apply IH].
Qed.

Lemma digit_amount_char (c : ascii) :
  Str.is_digit c = true -> amount_char c = true.
Proof. intros H. unfold amount_char. now rewrite H. Qed.

Lemma digit_date_char (c : ascii) :
  Str.is_digit c = true -> date_char c = true.
Proof. intros H. unfold date_char. now rewrite H. Qed.

(** A formatted amount is made of digits, a sign, a point and the
    letters of [inf] and [nan]. *)
Lemma format_2f_chars (x : float) : Str.all amount_char (format_2f x) = true.
Proof.
  assert (Hs : forall s, Str.all amount_char (sign_str s) = true)
    by (intros []; reflexivity).
  destruct x as [s | s | | s m e]; cbn [format_2f]; try reflexivity;
    rewrite all_app, Hs; try reflexivity.
  unfold fixed2. rewrite all_app. unfold Str.of_nonneg.
  rewrite (all_weaken _ _ _ digit_amount_char)
    by (apply digits_go_all_digits; reflexivity).
  change ("." ++ Str.zero_pad 2 (hundredths m e mod 100))
    with (String "." (Str.zero_pad 2 (hundredths m e mod 100))).
  cbn [Str.all]. rewrite (all_weaken _ _ _ digit_amount_char)
    by apply zero_pad_all_digits.
  reflexivity.
Qed.

(** A printed date is made of digits, hyphens, colons, a blank and a
    point. *)
Lemma to_str_chars (d : datetime) : Str.all date_char (Datetime.to_str d) = true.
Proof.
  assert (Hz : forall w n, Str.all date_char (Str.zero_pad w n) = true)
    by (intros w n; apply (all_weaken _ _ _ digit_date_char), zero_pad_all_digits).
  unfold Datetime.to_str.
  repeat (rewrite all_app; rewrite Hz; cbn [andb]).
  repeat match goal with
         | |- context [(String ?c ?s ++ ?t)%string] =>
             change (String c s ++ t)%string with (String c (s ++ t))
         | |- context [(EmptyString ++ ?t)%string] =>
             change (EmptyString ++ t)%string with t
         end.
  repeat (cbn [Str.all]; rewrite ?all_app, ?Hz;
          match goal with
          | |- context [date_char ?c] =>
              change (date_char c) with true
          end; cbn [andb]).
  destruct (Datetime.microsecond d =? 0); [reflexivity|].
  change ("." ++ Str.zero_pad 6 (microsecond d))
    with (String "." (Str.zero_pad 6 (microsecond d))).
  cbn [Str.all]. now rewrite Hz.
Qed.

Lemma amount_char_plain (c : ascii) : amount_char c = true -> plain_char c = true.
Proof.
  destruct c as [[] [] [] [] [] [] [] []]; intros H;
    first [reflexivity | discriminate H].
Qed.

Lemma date_char_plain (c : ascii) : date_char c = true -> plain_char c = true.
Proof.
  destruct c as [[] [] [] [] [] [] [] []]; intros H;
    first [reflexivity | discriminate H].
Qed.

(** *** Reading a line of plain fields *)

Lemma plain_char_spec (c : ascii) :
  plain_char c = true ->
  Ascii.eqb c "," = false /\ Ascii.eqb c "034" = false
  /\ Csv.is_newline c = false.
Proof.
  unfold plain_char. intros H. apply negb_true_iff in H.
  apply orb_false_iff in H. destruct H as [H Hn].
  apply orb_false_iff in H. tauto.
Qed.

Lemma process_plain_char (p : Csv.parser) (c : ascii) :
  unquoted p -> plain_char c = true ->
  Csv.field_len p < Csv.field_limit ->
  Csv.parse_process_char p (Some c)
  = Ok (Csv.mkParser Csv.IN_FIELD (Csv.fields p) (String c (Csv.field p))
          (Csv.field_len p + 1)).
Proof.
  intros Hst Hc Hlen. apply plain_char_spec in Hc.
  destruct Hc as [Hcomma [Hquote Hnl]].
  assert (Hadd : forall q, Csv.field_len q = Csv.field_len p ->
            Csv.parse_add_char q c
            = Ok (Csv.mkParser (Csv.state q) (Csv.fields q)
                    (String c (Csv.field q)) (Csv.field_len q + 1))).
  { intros q Hq. unfold Csv.parse_add_char. rewrite Hq.
    destruct (Z.leb_spec Csv.field_limit (Csv.field_len p)); [lia|reflexivity]. }
  unfold Csv.parse_process_char.
  destruct Hst as [H | [H | H]]; rewrite H.
  - rewrite Hnl. unfold Csv.start_field. rewrite Hnl, Hquote, Hcomma.
    rewrite Hadd by reflexivity. reflexivity.
  - unfold Csv.start_field. rewrite Hnl, Hquote, Hcomma.
    rewrite Hadd by reflexivity. reflexivity.
  - rewrite Hnl, Hcomma. rewrite Hadd by reflexivity. now rewrite H.
Qed.

Lemma feed_plain (f rest : string) (c : ascii) (p : Csv.parser) :
  unquoted p -> Str.all plain_char (String c f) = true ->
  Csv.field_len p + Z.of_nat (String.length (String c f)) <= Csv.field_limit ->
  Csv.feed p (String c f ++ rest)
  = Csv.feed (Csv.mkParser Csv.IN_FIELD (Csv.fields p)
                (Str.rev_onto (String c f) (Csv.field p))
                (Csv.field_len p + Z.of_nat (String.length (String c f))))
      rest.
Proof.
  revert c p. induction f as [|d f IH]; intros c p Hst Hall Hlen.
  - cbn [Str.all] in Hall. apply andb_true_iff in Hall. destruct Hall as [Hc _].
    cbn [String.length] in Hlen.
    cbn [append Csv.feed]. rewrite process_plain_char by (assumption || lia).
    reflexivity.
  - change (Str.all plain_char (String c (String d f)))
      with (plain_char c && Str.all plain_char (String d f)) in Hall.
    apply andb_true_iff in Hall. destruct Hall as [Hc Hrest].
    change (String.length (String c (String d f)))
      with (S (String.length (String d f))) in *.
    rewrite Nat2Z.inj_succ in *.
    change (String c (String d f) ++ rest)
      with (String c (String d f ++ rest)).
    cbn [Csv.feed]. rewrite process_plain_char by (assumption || lia).
    rewrite IH.
    + cbn [Csv.fields Csv.field Csv.field_len Str.rev_onto].
      do 2 f_equal. lia.
    + right; right; reflexivity.
    + exact Hrest.
    + cbn [Csv.field_len]. lia.
Qed.

Lemma feed_fields (fs : list string) (f : string) (p : Csv.parser) :
  Csv.state p = Csv.START_FIELD
  \/ (Csv.state p = Csv.START_RECORD /\ f <> EmptyString) ->
  Csv.field p = EmptyString -> Csv.field_len p = 0 ->
  Forall plain_field (f :: fs) ->
  Csv.feed p (Str.join "," (f :: fs) ++ String "010" EmptyString)
  = Ok (Csv.mkParser Csv.START_RECORD (Csv.fields p ++ f :: fs) EmptyString 0).
Proof.
  revert f p. induction fs as [|g fs IH]; intros f p Hst Hfield Hlen Hall;
    destruct p as [st saved fld len];
    cbn [Csv.state Csv.fields Csv.field Csv.field_len] in *; subst fld len.
  - inversion Hall as [|? ? [Hf Hsize] _]; subst.
    cbn [Str.join]. destruct f as [|c f].
    + destruct Hst as [-> | [_ Hne]]; [reflexivity | now elim Hne].
    + rewrite feed_plain; try assumption.
      * cbn [Csv.fields Csv.field Csv.field_len Csv.feed].
        change (Csv.parse_process_char ?q (Some "010"%char))
          with (Ok (Csv.goto Csv.EAT_CRNL (Csv.parse_save_field q))).
        cbn [Csv.parse_process_char Csv.goto Csv.parse_save_field Csv.state
             Csv.fields Csv.field Csv.field_len].
        unfold Csv.goto, Csv.parse_save_field.
        cbn [Csv.state Csv.fields Csv.field Csv.field_len].
        now rewrite rev_rev_onto.
      * destruct Hst as [-> | [-> _]]; [right; left | left]; reflexivity.
  - inversion Hall as [|? ? [Hf Hsize] Hrest]; subst.
    change (Str.join "," (f :: g :: fs))
      with (f ++ String "," (Str.join "," (g :: fs))).
    rewrite append_assoc.
    change (String "," (Str.join "," (g :: fs)) ++ String "010" "")
      with (String "," (Str.join "," (g :: fs) ++ String "010" "")).
    destruct f as [|c f].
    + destruct Hst as [-> | [_ Hne]]; [|now elim Hne].
      cbn [append Csv.feed].
      change (Csv.parse_process_char (Csv.mkParser Csv.START_FIELD saved "" 0)
                (Some ","%char))
        with (Ok (Csv.mkParser Csv.START_FIELD (saved ++ [""]) "" 0)).
      cbv beta iota.
      rewrite IH; try assumption; try reflexivity.
      * cbn [Csv.fields]. now rewrite <- app_assoc.
      * left. reflexivity.
    + rewrite feed_plain; try assumption.
      * cbn [Csv.fields Csv.field Csv.field_len Csv.feed].
        change (Csv.parse_process_char ?q (Some ","%char))
          with (Ok (Csv.goto Csv.START_FIELD (Csv.parse_save_field q))).
        unfold Csv.goto, Csv.parse_save_field.
        cbn [Csv.state Csv.fields Csv.field Csv.field_len].
        rewrite IH; try assumption; try reflexivity.
        -- cbn [Csv.fields]. rewrite rev_rev_onto. now rewrite <- app_assoc.
        -- left. reflexivity.
      * destruct Hst as [-> | [-> _]]; [right; left | left]; reflexivity.
Qed.

(** *** The lines of the file *)

Lemma rev_snoc (l : string) (c : ascii) :
  Str.rev (String c (Str.rev_onto l "")) = l ++ String c "".
Proof.
  unfold Str.rev. cbn [Str.rev_onto]. now rewrite rev_onto_app.
Qed.

Lemma translate_line (l text : string) :
  Str.all line_char l = true ->
  TextFile.translate (l ++ String "010" text)
  = l ++ String "010" (TextFile.translate text).
Proof.
  induction l as [|c l IH]; intros H.
  - reflexivity.
  - cbn [Str.all] in H. apply andb_true_iff in H. destruct H as [Hc Hl].
    unfold line_char, Csv.is_newline in Hc. apply negb_true_iff in Hc.
    apply orb_false_iff in Hc. destruct Hc as [_ Hcr].
    cbn [append TextFile.translate]. rewrite Hcr. now rewrite IH.
Qed.

Lemma lines_go_line (l t cur : string) :
  Str.all line_char l = true ->
  TextFile.lines_go (l ++ String "010" t) cur
  = Str.rev (String "010" (Str.rev_onto l cur)) :: TextFile.lines_go t "".
Proof.
  revert cur. induction l as [|c l IH]; intros cur H.
  - reflexivity.
  - cbn [Str.all] in H. apply andb_true_iff in H. destruct H as [Hc Hl].
    unfold line_char, Csv.is_newline in Hc. apply negb_true_iff in Hc.
    apply orb_false_iff in Hc. destruct Hc as [Hlf _].
    cbn [append TextFile.lines_go]. rewrite Hlf. now rewrite IH.
Qed.

(** A written line comes back as one line. *)
Lemma lines_cons (l text : string) :
  Str.all line_char l = true ->
  TextFile.lines (l ++ String "010" text)
  = (l ++ String "010" "") :: TextFile.lines text.
Proof.
  intros H. unfold TextFile.lines.
  rewrite translate_line by exact H.
  rewrite lines_go_line by exact H. now rewrite rev_snoc.
Qed.

Lemma plain_line_char (c : ascii) : plain_char c = true -> line_char c = true.
Proof.
  intros H. apply plain_char_spec in H. unfold line_char.
  now destruct H as [_ [_ ->]].
Qed.

Lemma join_line_chars (fs : list string) :
  Forall (fun f => Str.all plain_char f = true) fs ->
  Str.all line_char (Str.join "," fs) = true.
Proof.
  induction fs as [|f fs IH]; intros H; [reflexivity|].
  inversion H as [|? ? Hf Hfs]; subst.
  destruct fs as [|g fs].
  - cbn [Str.join]. exact (all_weaken _ _ _ plain_line_char Hf).
  - change (Str.join "," (f :: g :: fs))
      with (f ++ String "," (Str.join "," (g :: fs))).
    rewrite all_app, (all_weaken _ _ _ plain_line_char Hf).
    cbn [Str.all andb]. rewrite (IH Hfs). reflexivity.
Qed.

Lemma length_app (a b : string) :
  String.length (a ++ b) = (String.length a + String.length b)%nat.
Proof.
  induction a as [|c a IH]; cbn [append String.length]; [reflexivity|].
  now rewrite IH.
Qed.

Lemma join_field_length (sep : ascii) (fs : list string) :
  Forall (fun f => (String.length f <= String.length (Str.join sep fs))%nat) fs.
Proof.
  induction fs as [|f fs IH]; [constructor|].
  destruct fs as [|g fs].
  - constructor; [cbn [Str.join]; lia | constructor].
  - change (Str.join sep (f :: g :: fs))
      with (f ++ String sep (Str.join sep (g :: fs))).
    rewrite length_app. cbn [String.length]. constructor; [lia|].
    eapply Forall_impl; [|exact IH]. cbn beta. intros a Ha. lia.
Qed.

(** The reader gives the fields of a written line back, and the loop
    of [load_file] goes on with the rest of the file. *)
Lemma load_file_cons (t : string) (fs : list string) (text : string)
    (w : MainWindow.window) :
  t <> EmptyString ->
  Forall (fun f => Str.all plain_char f = true) (t :: fs) ->
  Z.of_nat (String.length (Str.join "," (t :: fs))) <= Csv.field_limit ->
  MainWindow.load_file (Str.join "," (t :: fs) ++ String "010" text) w
  = match MainWindow.load_row (t :: fs) (MainWindow.next_id w) with
    | (Ok emp, n) =>
        MainWindow.load_file text
          (MainWindow.mkWindow n (MainWindow._data w ++ [emp])%list)
    | (Raise e, n) => (Raise e, MainWindow.mkWindow n (MainWindow._data w))
    end.
Proof.
  intros Ht Hplain Hfit.
  assert (Hfields : Forall plain_field (t :: fs)).
  { pose proof (join_field_length "," (t :: fs)) as Hlen.
    rewrite Forall_forall in *. intros f Hf. split; [now apply Hplain|].
    specialize (Hlen f Hf). lia. }
  unfold MainWindow.load_file.
  rewrite lines_cons by now apply join_line_chars.
  unfold Csv.reader. cbn [Csv.rows_from].
  rewrite (feed_fields fs t Csv.parse_reset);
    [|right; split; [reflexivity | exact Ht] | reflexivity | reflexivity
     | exact Hfields].
  cbn [Csv.at_record_start Csv.state Csv.fields Csv.parse_reset app].
  destruct (Csv.rows_from Csv.parse_reset (TextFile.lines text)) as [rows err].
  unfold bind. cbn [MainWindow.load_rows].
  destruct (MainWindow.load_row (t :: fs) (MainWindow.next_id w)) as [[emp|x] n];
    reflexivity.
Qed.

(** ** Reloading a stored record *)

Lemma same_record_with_id (o : object) (k : Z) :
  same_record o (with_id_number k o).
Proof.
  split; [reflexivity|]. intros q Hq. destruct q; try reflexivity. now elim Hq.
Qed.

Lemma fields_of_line (o : object) (fs : list string) :
  is_leaf (ob_class o) = true ->
  record_fields o = Some fs ->
  MainWindow.line o = Ok (Str.join "," fs).
Proof.
  intros Hleaf Hfs.
  unfold MainWindow.line. now rewrite (repr_record_fields o fs 0 Hleaf Hfs).
Qed.

Lemma role_digit (r : Role) :
  Builtins.int (PStr (Str.of_Z (Role_value r))) = Ok (Role_value r)
  /\ Str.all plain_char (Str.of_Z (Role_value r)) = true.
Proof. destruct r; split; reflexivity. Qed.

Lemma department_digit (d : Department) :
  Builtins.int (PStr (Str.of_Z (Department_value d))) = Ok (Department_value d)
  /\ Str.all plain_char (Str.of_Z (Department_value d)) = true.
Proof. destruct d; split; reflexivity. Qed.

Ltac split_andb :=
  repeat match goal with
         | H : (_ && _) = true |- _ =>
             apply andb_true_iff in H; destruct H
         | H : negb _ = true |- _ => apply negb_true_iff in H
         end.

Lemma plain_amount (x : float) : Str.all plain_char (format_2f x) = true.
Proof. exact (all_weaken _ _ _ amount_char_plain (format_2f_chars x)). Qed.

Lemma plain_date (d : datetime) : Str.all plain_char (Datetime.to_str d) = true.
Proof. exact (all_weaken _ _ _ date_char_plain (to_str_chars d)). Qed.

(** The line of a stored record with plain strings, a two-decimal
    amount and whole seconds is the join of plain fields, the first
    of them not empty, and the row of these fields loads as the same
    record under the identifier the counter holds. *)
Lemma reload_row (o : object) (k : Z) :
  stored o = true -> plain o = true ->
  two_decimal_pay o -> whole_seconds o ->
  exists t fs,
    t <> EmptyString
    /\ MainWindow.line o = Ok (Str.join "," (t :: fs))
    /\ Forall (fun f => Str.all plain_char f = true) (t :: fs)
    /\ MainWindow.load_row (t :: fs) k = (Ok (with_id_number k o), k + 1).
Proof.
  intros Hst Hcl Hpay Hsec.
  destruct o as [c [n|] [e|] [i|] [idn|] y h r d hd ld]; try discriminate Hst.
  unfold plain in Hcl. cbn [_name _email _image] in Hcl.
  unfold two_decimal_pay, pay_amount in Hpay. cbn [ob_class _yearly _hourly] in Hpay.
  unfold whole_seconds in Hsec. cbn [_hired_date _last_day] in Hsec.
  unfold stored in Hst. split_andb.
  destruct c; try discriminate.
  - (* Executive *)
    destruct y as [y|], h as [h|], r as [r|], d as [d|], hd as [hd|], ld as [ld|];
      try discriminate.
    destruct (role_digit r) as [Hint Hrc].
    assert (Hf : Builtins.float (PStr (format_2f y)) = Ok y)
      by (unfold Builtins.float; now rewrite (Hpay y eq_refl)).
    exists "Executive", [n; e; i; format_2f y; Str.of_Z (Role_value r)].
    split; [discriminate|]. split; [now apply fields_of_line|].
    split; [repeat constructor; try assumption; apply plain_amount|].
    apply (load_row_ok _ i k (k + 1)
             (mkObject cExecutive (Some n) (Some e)
                (Some Employee.IMAGE_PLACEHOLDER) (Some k) (Some y) None
                (Some r) None None None)); [|reflexivity|assumption].
    apply create_Executive.
    apply construct_Executive_ok; try assumption. now apply ltb_not_leb.
  - (* Manager *)
    destruct y as [y|], h as [h|], r as [r|], d as [d|], hd as [hd|], ld as [ld|];
      try discriminate.
    destruct (department_digit d) as [Hint Hrc].
    assert (Hf : Builtins.float (PStr (format_2f y)) = Ok y)
      by (unfold Builtins.float; now rewrite (Hpay y eq_refl)).
    exists "Manager", [n; e; i; format_2f y; Str.of_Z (Department_value d)].
    split; [discriminate|]. split; [now apply fields_of_line|].
    split; [repeat constructor; try assumption; apply plain_amount|].
    apply (load_row_ok _ i k (k + 1)
             (mkObject cManager (Some n) (Some e)
                (Some Employee.IMAGE_PLACEHOLDER) (Some k) (Some y) None
                None (Some d) None None)); [|reflexivity|assumption].
    apply create_Manager.
    apply construct_Manager_ok; try assumption. now apply ltb_not_leb.
  - (* Permanent *)
    destruct y as [y|], h as [h|], r as [r|], d as [d|], hd as [hd|], ld as [ld|];
      try discriminate.
    split_andb.
    assert (Hf : Builtins.float (PStr (format_2f h)) = Ok h)
      by (unfold Builtins.float; now rewrite (Hpay h eq_refl)).
    assert (Hd : Builtins.strptime (PStr (Datetime.to_str hd)) = Ok hd).
    { unfold Builtins.strptime. rewrite strptime_to_str; [reflexivity|assumption|].
      apply Hsec. now left. }
    exists "Permanent", [n; e; i; format_2f h; Datetime.to_str hd].
    split; [discriminate|]. split; [now apply fields_of_line|].
    split; [repeat constructor; try assumption;
            [apply plain_amount | apply plain_date]|].
    apply (load_row_ok _ i k (k + 1)
             (mkObject cPermanent (Some n) (Some e)
                (Some Employee.IMAGE_PLACEHOLDER) (Some k) None (Some h)
                None None (Some hd) None)); [|reflexivity|assumption].
    apply create_Permanent.
    apply construct_Permanent_ok; assumption.
  - (* Temp *)
    destruct y as [y|], h as [h|], r as [r|], d as [d|], hd as [hd|], ld as [ld|];
      try discriminate.
    split_andb.
    assert (Hf : Builtins.float (PStr (format_2f h)) = Ok h)
      by (unfold Builtins.float; now rewrite (Hpay h eq_refl)).
    assert (Hd : Builtins.strptime (PStr (Datetime.to_str ld)) = Ok ld).
    { unfold Builtins.strptime. rewrite strptime_to_str; [reflexivity|assumption|].
      apply Hsec. now right. }
    exists "Temp", [n; e; i; format_2f h; Datetime.to_str ld].
    split; [discriminate|]. split; [now apply fields_of_line|].
    split; [repeat constructor; try assumption;
            [apply plain_amount | apply plain_date]|].
    apply (load_row_ok _ i k (k + 1)
             (mkObject cTemp (Some n) (Some e)
                (Some Employee.IMAGE_PLACEHOLDER) (Some k) None (Some h)
                None None None (Some ld))); [|reflexivity|assumption].
    apply create_Temp.
    apply construct_Temp_ok; assumption.
Qed.

Lemma renumber_same (data : list object) (n : Z) :
  Forall2 same_record data (renumber n data).
Proof.
  revert n. induction data as [|o data IH]; intros n; cbn [renumber];
    constructor; [apply same_record_with_id | apply IH].
Qed.

(** Saving and loading again.  When every record of the list is a
    stored leaf employee whose name, email and image path hold no
    comma, double quote or line end, whose line is no longer than the
    reader's field limit, whose pay amount reads back from its
    two-decimal rendering and whose date has whole seconds, then
    [save_file] returns, and [load_file] on the text it wrote returns
    too: it appends the same records, in order, to the window's list,
    numbered from the class counter on, and the counter advances by
    their number.  Nothing but the identifiers changes. *)
Theorem save_then_load (data : list object) (w : MainWindow.window) :
  Forall saveable data ->
  exists text,
    MainWindow.save_file data = (Ok tt, text)
    /\ MainWindow.load_file text w
       = (Ok tt,
          MainWindow.mkWindow
            (MainWindow.next_id w + Z.of_nat (List.length data))
            (MainWindow._data w ++ renumber (MainWindow.next_id w) data)%list)
    /\ Forall2 same_record data (renumber (MainWindow.next_id w) data).
Proof.
  intros Hall.
  enough (H : exists text,
            MainWindow.save_file data = (Ok tt, text)
            /\ MainWindow.load_file text w
               = (Ok tt,
                  MainWindow.mkWindow
                    (MainWindow.next_id w + Z.of_nat (List.length data))
                    (MainWindow._data w
                     ++ renumber (MainWindow.next_id w) data)%list)).
  { destruct H as [text [Hs Hl]]. exists text.
    split; [exact Hs|]. split; [exact Hl | apply renumber_same]. }
  revert w. induction Hall as [|o data Ho _ IH]; intros w.
  - exists EmptyString. split; [reflexivity|].
    cbn [List.length renumber Z.of_nat]. rewrite Z.add_0_r, app_nil_r.
    destruct w; reflexivity.
  - destruct Ho as [Hst [Hpl [Hfit [Hpay Hsec]]]].
    destruct (reload_row o (MainWindow.next_id w) Hst Hpl Hpay Hsec)
      as [t [fs [Ht [Hline [Hplain Hrow]]]]].
    destruct (IH (MainWindow.mkWindow (MainWindow.next_id w + 1)
                    (MainWindow._data w
                     ++ [with_id_number (MainWindow.next_id w) o])%list))
      as [text [Hsave Hload]].
    exists (Str.join "," (t :: fs) ++ String "010" text).
    split.
    + cbn [MainWindow.save_file]. rewrite Hline, Hsave. reflexivity.
    + rewrite load_file_cons; [|exact Ht|exact Hplain|].
      * rewrite Hrow, Hload.
        cbn [MainWindow.next_id MainWindow._data List.length renumber].
        rewrite <- app_assoc. cbn [app].
        do 2 f_equal. lia.
      * unfold fits in Hfit. rewrite Hline in Hfit. now apply Z.leb_le.
Qed.

Lemma save_then_load_witness :
  exists text,
    MainWindow.save_file [sample_temp; sample_executive] = (Ok tt, text)
    /\ MainWindow.load_file text (MainWindow.mkWindow 9 [sample_manager])
       = (Ok tt,
          MainWindow.mkWindow (9 + 2)
            [sample_manager; with_id_number 9 sample_temp;
             with_id_number 10 sample_executive])
    /\ Forall2 same_record [sample_temp; sample_executive]
         [with_id_number 9 sample_temp; with_id_number 10 sample_executive].
Proof.
  apply (save_then_load [sample_temp; sample_executive]
           (MainWindow.mkWindow 9 [sample_manager])).
  repeat constructor.
  - intros p Hp. injection Hp as <-. vm_compute. reflexivity.
  - intros t [Ht | Ht]; [discriminate Ht|]. injection Ht as <-. reflexivity.
  - intros p Hp. injection Hp as <-. vm_compute. reflexivity.
  - intros t [Ht | Ht]; discriminate Ht.
Defined.

(** ** What a successful call leaves behind *)

Lemma bind_inv {S A B} (m : M S A) (k : A -> M S B) (s s' : S) (b : B) :
  bind m k s = (Ok b, s') ->
  exists a s1, m s = (Ok a, s1) /\ k a s1 = (Ok b, s').
Proof.
  unfold bind. destruct (m s) as [[a|e] s1]; intros H.
  - now exists a, s1.
  - discriminate H.
Qed.

Lemma set_name_inv (v : pyval) (st st' : state) (u : unit) :
  Employee.set_name v st = (Ok u, st') ->
  exists n, v = PStr n /\ nonempty n = true
            /\ st' = mkState (current_id st) (with_name n (self st)).
Proof.
  unfold Employee.set_name, raise, assign.
  destruct v; try discriminate.
  destruct s as [|c s]; [discriminate|]. intros H. destruct u. injection H as <-.
  eexists. repeat split.
Qed.

Lemma set_email_inv (v : pyval) (st st' : state) (u : unit) :
  Employee.set_email v st = (Ok u, st') ->
  exists e, v = PStr e /\ Str.contains Employee.DOMAIN e = true
            /\ st' = mkState (current_id st) (with_email e (self st)).
Proof.
  unfold Employee.set_email, raise, assign.
  destruct v; try discriminate.
  destruct ((String.length s <=? 0)%nat) eqn:Hl; [discriminate|].
  destruct (Str.contains Employee.DOMAIN s) eqn:Hc; [|discriminate].
  intros H. destruct u. injection H as <-. eexists. repeat split. exact Hc.
Qed.

Lemma set_image_inv (v : pyval) (st st' : state) (u : unit) :
  Employee.set_image v st = (Ok u, st') ->
  exists i, v = PStr i /\ nonempty i = true
            /\ st' = mkState (current_id st) (with_image i (self st)).
Proof.
  unfold Employee.set_image, raise, assign.
  destruct v; try discriminate.
  destruct s as [|c s]; [discriminate|]. intros H. destruct u. injection H as <-.
  eexists. repeat split.
Qed.

Lemma set_yearly_inv (v : pyval) (st st' : state) (u : unit) :
  Salaried.set_yearly v st = (Ok u, st') ->
  exists y, Builtins.float v = Ok y /\ PyFloat.leb y lit_50000 = false
            /\ st' = mkState (current_id st) (with_yearly y (self st)).
Proof.
  unfold Salaried.set_yearly, bind, lift, raise, assign.
  destruct (Builtins.float v) as [y|x]; [|discriminate].
  destruct (PyFloat.leb y lit_50000) eqn:Hy; [discriminate|].
  intros H. destruct u. injection H as <-. exists y. repeat split. exact Hy.
Qed.

Lemma set_hourly_inv (v : pyval) (st st' : state) (u : unit) :
  Hourly.set_hourly v st = (Ok u, st') ->
  exists h, Builtins.float v = Ok h /\ in_hourly_range h = true
            /\ st' = mkState (current_id st) (with_hourly h (self st)).
Proof.
  unfold Hourly.set_hourly, bind, lift, raise, assign, in_hourly_range.
  destruct (Builtins.float v) as [h|x]; [|discriminate].
  destruct (PyFloat.leb lit_15 h && PyFloat.leb h lit_99_99) eqn:Hh;
    [|discriminate].
  intros H. destruct u. injection H as <-. exists h. repeat split. exact Hh.
Qed.

Lemma set_role_inv (v : pyval) (st st' : state) (u : unit) :
  Executive.set_role v st = (Ok u, st') ->
  exists r, denotes_role v r
            /\ st' = mkState (current_id st) (with_role r (self st)).
Proof.
  intros H. destruct (role_cases v) as [[r Hr] | Hn].
  - exists r. split; [exact Hr|].
    pose proof (set_role_accepts v r st Hr) as Hok. unfold setattr in Hok.
    congruence.
  - pose proof (set_role_rejects v st Hn) as Hko. unfold setattr in Hko.
    congruence.
Qed.

Lemma department_cases (v : pyval) :
  (exists d, denotes_department v d) \/ (forall d, ~ denotes_department v d).
Proof.
  unfold denotes_department.
  destruct (Builtins.int_value v) as [n|]; [|right; intros d; discriminate].
  destruct (Z.eq_dec n 1) as [->|H1]; [left; now exists accounting|].
  destruct (Z.eq_dec n 2) as [->|H2]; [left; now exists finance|].
  destruct (Z.eq_dec n 3) as [->|H3]; [left; now exists hr|].
  destruct (Z.eq_dec n 4) as [->|H4]; [left; now exists r_and_d|].
  destruct (Z.eq_dec n 5) as [->|H5]; [left; now exists machining|].
  right. intros [] H; injection H as H; simpl in H; congruence.
Qed.

Lemma set_department_inv (v : pyval) (st st' : state) (u : unit) :
  Manager.set_department v st = (Ok u, st') ->
  exists d, denotes_department v d
            /\ st' = mkState (current_id st) (with_department d (self st)).
Proof.
  intros H. destruct (department_cases v) as [[d Hd] | Hn].
  - exists d. split; [exact Hd|].
    pose proof (set_department_accepts v d st Hd) as Hok. unfold setattr in Hok.
    congruence.
  - pose proof (set_department_rejects v st Hn) as Hko. unfold setattr in Hko.
    congruence.
Qed.

Lemma Employee_init_inv (nm em : pyval) (st st' : state) (u : unit) :
  Employee.__init__ nm em st = (Ok u, st') ->
  exists n e,
    nm = PStr n /\ em = PStr e /\ nonempty n = true
    /\ Str.contains Employee.DOMAIN e = true
    /\ st' = mkState (current_id st + 1)
               (with_id_number (current_id st)
                  (with_image Employee.IMAGE_PLACEHOLDER
                     (with_email e (with_name n (self st))))).
Proof.
  unfold Employee.__init__. intros H.
  apply bind_inv in H. destruct H as [u1 [s1 [H1 H]]].
  apply bind_inv in H. destruct H as [u2 [s2 [H2 H]]].
  apply bind_inv in H. destruct H as [u3 [s3 [H3 H]]].
  apply bind_inv in H. destruct H as [u4 [s4 [H4 H]]].
  apply set_name_inv in H1. destruct H1 as [n [-> [Hn ->]]].
  apply set_email_inv in H2. destruct H2 as [e [-> [He ->]]].
  apply set_image_inv in H3. destruct H3 as [i [Hi [_ ->]]].
  injection Hi as <-.
  destruct u4, u. unfold assign in H4. injection H4 as <-. injection H as <-.
  exists n, e. repeat split; assumption.
Qed.

Lemma lift_inv {S A} (r : result A) (s s' : S) (a : A) :
  lift r s = (Ok a, s') -> r = Ok a /\ s' = s.
Proof. unfold lift. intros H. injection H as -> <-. now split. Qed.

Lemma Salaried_init_inv (nm em v : pyval) (st st' : state) (u : unit) :
  Salaried.__init__ nm em v st = (Ok u, st') ->
  exists n e y,
    nm = PStr n /\ em = PStr e /\ nonempty n = true
    /\ Str.contains Employee.DOMAIN e = true
    /\ Builtins.float v = Ok y /\ PyFloat.leb y lit_50000 = false
    /\ st' = mkState (current_id st + 1)
               (with_yearly y
                  (with_id_number (current_id st)
                     (with_image Employee.IMAGE_PLACEHOLDER
                        (with_email e (with_name n (self st)))))).
Proof.
  unfold Salaried.__init__. intros H.
  apply bind_inv in H. destruct H as [u1 [s1 [H1 H]]].
  apply bind_inv in H. destruct H as [y [s2 [H2 H]]].
  apply Employee_init_inv in H1. destruct H1 as [n [e [-> [-> [Hn [He ->]]]]]].
  apply lift_inv in H2. destruct H2 as [Hv ->].
  apply set_yearly_inv in H. destruct H as [y' [Hy' [Hle ->]]].
  injection Hy' as <-.
  exists n, e, y. repeat split; assumption.
Qed.

Lemma Hourly_init_inv (nm em v : pyval) (st st' : state) (u : unit) :
  Hourly.__init__ nm em v st = (Ok u, st') ->
  exists n e h,
    nm = PStr n /\ em = PStr e /\ nonempty n = true
    /\ Str.contains Employee.DOMAIN e = true
    /\ Builtins.float v = Ok h /\ in_hourly_range h = true
    /\ st' = mkState (current_id st + 1)
               (with_hourly h
                  (with_id_number (current_id st)
                     (with_image Employee.IMAGE_PLACEHOLDER
                        (with_email e (with_name n (self st)))))).
Proof.
  unfold Hourly.__init__. intros H.
  apply bind_inv in H. destruct H as [u1 [s1 [H1 H]]].
  apply bind_inv in H. destruct H as [h [s2 [H2 H]]].
  apply Employee_init_inv in H1. destruct H1 as [n [e [-> [-> [Hn [He ->]]]]]].
  apply lift_inv in H2. destruct H2 as [Hv ->].
  apply set_hourly_inv in H. destruct H as [h' [Hh' [Hr ->]]].
  injection Hh' as <-.
  exists n, e, h. repeat split; assumption.
Qed.

Lemma strptime_valid (s : string) (d : datetime) :
  Datetime.strptime s = Some d -> Datetime.valid d = true.
Proof.
  unfold Datetime.strptime.
  repeat match goal with
         | |- context [let '(_, _) := ?x in _] => destruct x
         | |- context [match ?x with Some _ => _ | None => _ end] => destruct x
         | |- context [match ?x with EmptyString => _ | String _ _ => _ end] =>
             destruct x
         | |- context [if ?c then _ else _] => destruct c eqn:?
         end; try discriminate.
  intros H. injection H as <-. assumption.
Qed.

Lemma builtin_strptime_valid (v : pyval) (d : datetime) :
  Builtins.strptime v = Ok d -> Datetime.valid d = true.
Proof.
  unfold Builtins.strptime. destruct v; try discriminate.
  destruct (Datetime.strptime s) as [t|] eqn:Hs; [|discriminate].
  intros H. injection H as <-. now apply strptime_valid with (s := s).
Qed.

Lemma new_inv (c : class) (init : M state unit) (k k' : Z) (o : object) :
  new c init k = (Ok o, k') ->
  exists st, init (mkState k (fresh c)) = (Ok tt, st)
             /\ o = self st /\ k' = current_id st.
Proof.
  unfold new. destruct (ABCMeta.instantiable c); [|discriminate].
  destruct (init (mkState k (fresh c))) as [[[]|x] st]; [|discriminate].
  intros H. injection H as <- <-. now exists st.
Qed.

Ltac norm_obj :=
  cbv [self current_id with_name with_email with_image with_id_number
       with_yearly with_hourly with_role with_department with_hired_date
       with_last_day fresh ob_class _name _email _image _id_number _yearly
       _hourly _role _department _hired_date _last_day well_formed slot
       option_map call_class call_name call_email].

Ltac norm_obj_in H :=
  cbv [self current_id with_name with_email with_image with_id_number
       with_yearly with_hourly with_role with_department with_hired_date
       with_last_day fresh ob_class _name _email _image _id_number _yearly
       _hourly _role _department _hired_date _last_day well_formed slot
       option_map call_class call_name call_email] in H.

Ltac invert_leaf H :=
  let u1 := fresh "u" in let s1 := fresh "s" in let H1 := fresh "H" in
  let z := fresh "z" in let s2 := fresh "s" in let H2 := fresh "H" in
  apply bind_inv in H; destruct H as [u1 [s1 [H1 H]]];
  apply bind_inv in H; destruct H as [z [s2 [H2 H]]];
  apply lift_inv in H2; destruct H2 as [H2 ->].

Lemma construct_inv (c : call) (k k' : Z) (o : object) :
  construct c k = (Ok o, k') ->
  well_formed o = true
  /\ ob_class o = call_class c
  /\ _id_number o = Some k
  /\ _image o = Some Employee.IMAGE_PLACEHOLDER
  /\ slot p_name o = Some (call_name c)
  /\ slot p_email o = Some (call_email c)
  /\ k' = k + 1.
Proof.
  intros H. destruct c; unfold construct in H.
  - discriminate H.
  - apply new_inv in H. destruct H as [st [H [-> ->]]].
    apply Salaried_init_inv in H.
    destruct H as [n [e [y [-> [-> [Hn [He [Hv [Hy ->]]]]]]]]].
    norm_obj. rewrite Hn, He, Hy. repeat split.
  - apply new_inv in H. destruct H as [st [H [-> ->]]].
    apply Hourly_init_inv in H.
    destruct H as [n [e [h [-> [-> [Hn [He [Hv [Hh ->]]]]]]]]].
    norm_obj. rewrite Hn, He, Hh. repeat split.
  - apply new_inv in H. destruct H as [st [H [-> ->]]].
    unfold Executive.__init__ in H. invert_leaf H.
    apply Salaried_init_inv in H0.
    destruct H0 as [n [e [y [-> [-> [Hn [He [Hv [Hy ->]]]]]]]]].
    apply set_role_inv in H. destruct H as [r [_ ->]].
    norm_obj. rewrite Hn, He, Hy. repeat split.
  - apply new_inv in H. destruct H as [st [H [-> ->]]].
    unfold Manager.__init__ in H. invert_leaf H.
    apply Salaried_init_inv in H0.
    destruct H0 as [n [e [y [-> [-> [Hn [He [Hv [Hy ->]]]]]]]]].
    apply set_department_inv in H. destruct H as [d [_ ->]].
    norm_obj. rewrite Hn, He, Hy. repeat split.
  - apply new_inv in H. destruct H as [st [H [-> ->]]].
    unfold Permanent.__init__ in H. invert_leaf H.
    apply Hourly_init_inv in H0.
    destruct H0 as [n [e [h [-> [-> [Hn [He [Hv [Hh ->]]]]]]]]].
    apply builtin_strptime_valid in H1.
    unfold Permanent.set_hired_date, assign in H. injection H as <-.
    norm_obj. rewrite Hn, He, Hh, H1. repeat split.
  - apply new_inv in H. destruct H as [st [H [-> ->]]].
    unfold Temp.__init__ in H. invert_leaf H.
    apply Hourly_init_inv in H0.
    destruct H0 as [n [e [h [-> [-> [Hn [He [Hv [Hh ->]]]]]]]]].
    apply builtin_strptime_valid in H1.
    unfold Temp.set_last_day, assign in H. injection H as <-.
    norm_obj. rewrite Hn, He, Hh, H1. repeat split.
Qed.

Lemma well_formed_fields (o : object) :
  well_formed o = true -> is_leaf (ob_class o) = true ->
  exists fs, record_fields o = Some fs
             /\ MainWindow.line o = Ok (Str.join "," fs).
Proof.
  intros Hwf Hleaf.
  assert (Hfs : exists fs, record_fields o = Some fs).
  { destruct o as [c [?|] [?|] [?|] [?|] [?|] [?|] [?|] [?|] [?|] [?|]];
      norm_obj_in Hwf; try discriminate Hwf;
      destruct c; try discriminate Hleaf; split_andb; try discriminate;
      eexists; reflexivity. }
  destruct Hfs as [fs Hfs]. exists fs. split; [exact Hfs|].
  unfold MainWindow.line. now rewrite (repr_record_fields o fs 0 Hleaf Hfs).
Qed.

(** Every instance a constructor returns is well formed, is of the
    class that was called, carries the counter's value as identifier,
    the placeholder as image and the given name and email; and the
    counter has advanced by one.  An instance of a leaf class built
    this way can always be written out: [__repr__] returns its six
    fields joined by commas. *)
Theorem constructed_well_formed (c : call) (k k' : Z) (o : object) :
  construct c k = (Ok o, k') ->
  well_formed o = true
  /\ ob_class o = call_class c
  /\ _id_number o = Some k
  /\ _image o = Some Employee.IMAGE_PLACEHOLDER
  /\ slot p_name o = Some (call_name c)
  /\ slot p_email o = Some (call_email c)
  /\ k' = k + 1
  /\ (is_leaf (call_class c) = true ->
      exists fs, record_fields o = Some fs
                 /\ List.length fs = 6%nat
                 /\ MainWindow.line o = Ok (Str.join "," fs)).
Proof.
  intros H. destruct (construct_inv c k k' o H)
    as [Hwf [Hc [Hid [Him [Hn [He Hk]]]]]].
  repeat (split; [assumption|]).
  intros Hleaf. rewrite <- Hc in Hleaf.
  destruct (well_formed_fields o Hwf Hleaf) as [fs [Hfs Hline]].
  exists fs. repeat split; try assumption.
  now apply record_fields_length with (o := o).
Qed.

Lemma constructed_well_formed_witness :
  well_formed sample_executive = true
  /\ ob_class sample_executive = cExecutive
  /\ _id_number sample_executive = Some 1
  /\ _image sample_executive = Some Employee.IMAGE_PLACEHOLDER
  /\ slot p_name sample_executive = Some (PStr "Ann")
  /\ slot p_email sample_executive = Some (PStr "ann@acme-machining.com")
  /\ 2 = 1 + 1
  /\ (is_leaf cExecutive = true ->
      exists fs, record_fields sample_executive = Some fs
                 /\ List.length fs = 6%nat
                 /\ MainWindow.line sample_executive = Ok (Str.join "," fs)).
Proof.
  apply (constructed_well_formed
           (Executive_ (PStr "Ann") (PStr "ann@acme-machining.com")
              (PStr "60000") (PStr "2")) 1 2 sample_executive).
  reflexivity.
Defined.

(** ** Assignments keep instances well formed *)

Ltac open_object st Hwf :=
  let k := fresh "k" in let c := fresh "c" in
  destruct st as [k [c [?|] [?|] [?|] [?|] [?|] [?|] [?|] [?|] [?|] [?|]]];
  norm_obj_in Hwf; try discriminate Hwf.

Ltac close_wf :=
  norm_obj;
  repeat match goal with
         | H : ?b = true |- context [?b] => rewrite H
         | H : ?b = false |- context [?b] => rewrite H
         end;
  reflexivity.

(** A successful assignment of a property the class has, with a proper
    value, turns a well-formed instance into a well-formed instance. *)
Theorem setattr_keeps_well_formed (p : property) (v : pyval) (st st' : state) :
  has_property (ob_class (self st)) p = true ->
  proper v = true ->
  well_formed (self st) = true ->
  setattr p v st = (Ok tt, st') ->
  well_formed (self st') = true.
Proof.
  intros Hp Hv Hwf H.
  destruct p; unfold setattr in H.
  - discriminate H.
  - apply set_name_inv in H. destruct H as [n [-> [Hn ->]]].
    open_object st Hwf; destruct c; try discriminate Hwf;
      split_andb; try discriminate; close_wf.
  - apply set_email_inv in H. destruct H as [e [-> [He ->]]].
    open_object st Hwf; destruct c; try discriminate Hwf;
      split_andb; try discriminate; close_wf.
  - apply set_image_inv in H. destruct H as [i [-> [Hi ->]]].
    open_object st Hwf; destruct c; try discriminate Hwf;
      split_andb; try discriminate; close_wf.
  - apply set_yearly_inv in H. destruct H as [y [_ [Hy ->]]].
    open_object st Hwf; destruct c; try discriminate Hwf;
      try discriminate Hp; split_andb; try discriminate; close_wf.
  - apply set_hourly_inv in H. destruct H as [h [_ [Hh ->]]].
    open_object st Hwf; destruct c; try discriminate Hwf;
      try discriminate Hp; split_andb; try discriminate; close_wf.
  - apply set_role_inv in H. destruct H as [r [_ ->]].
    open_object st Hwf; destruct c; try discriminate Hwf;
      try discriminate Hp; split_andb; try discriminate; close_wf.
  - apply set_department_inv in H. destruct H as [d [_ ->]].
    open_object st Hwf; destruct c; try discriminate Hwf;
      try discriminate Hp; split_andb; try discriminate; close_wf.
  - unfold Permanent.set_hired_date, raise, assign in H.
    destruct v; try discriminate H. injection H as <-. simpl in Hv.
    open_object st Hwf; destruct c; try discriminate Hwf;
      try discriminate Hp; split_andb; try discriminate; close_wf.
  - unfold Temp.set_last_day, raise, assign in H.
    destruct v; try discriminate H. injection H as <-. simpl in Hv.
    open_object st Hwf; destruct c; try discriminate Hwf;
      try discriminate Hp; split_andb; try discriminate; close_wf.
Qed.

Lemma setattr_keeps_well_formed_witness :
  well_formed (with_yearly (of_decimal false 75000 0) sample_executive) = true.
Proof.
  apply (setattr_keeps_well_formed p_yearly (PStr "75000")
           (mkState 5 sample_executive)
           (mkState 5 (with_yearly (of_decimal false 75000 0) sample_executive)));
    reflexivity.
Defined.

(** ** When a constructor call takes an identifier *)

Lemma takes_id_Employee (nm em : pyval) :
  takes_id_when (nonempty_str nm && domain_str em) (Employee.__init__ nm em).
Proof.
  intros st. split.
  - intros Hok. apply andb_true_iff in Hok. destruct Hok as [Hn He].
    destruct nm; try discriminate Hn. destruct em; try discriminate He.
    simpl in Hn, He. now rewrite (Employee_init_ok s s0 st Hn He).
  - intros Hko. unfold Employee.__init__.
    destruct (nonempty_str nm) eqn:Hn.
    + destruct nm; try discriminate Hn. simpl in Hn, Hko.
      rewrite (bind_ok _ _ _ _ _ (set_name_ok s st Hn)).
      destruct em as [| b | z | x | e | d | r | d];
        try (eexists; eexists; split; reflexivity).
      simpl in Hko. unfold bind at 1. unfold Employee.set_email.
      rewrite Hko, orb_true_r. eexists. eexists. split; reflexivity.
    + destruct nm as [| b | z | x | n | d | r | d];
        try (eexists; eexists; split; reflexivity).
      destruct n; [|discriminate Hn]. eexists. eexists. split; reflexivity.
Qed.

Lemma takes_id_then (ok : bool) (m k : M state unit) :
  takes_id_when ok m -> keeps_id k -> takes_id_when ok (m ;; k).
Proof.
  intros Hm Hk st. destruct (Hm st) as [Hok Hko]. split.
  - intros H. specialize (Hok H). unfold bind.
    destruct (m st) as [[u|x] s1]; simpl in *.
    + destruct (Hk s1) as [Hc _]. congruence.
    + exact Hok.
  - intros H. destruct (Hko H) as [msg [st' [Heq Hc]]].
    exists msg, st'. split; [|exact Hc]. now apply bind_raise.
Qed.

Ltac keeps_tail :=
  apply keeps_id_bind;
  [ apply keeps_id_lift
  | intros ?;
    match goal with
    | |- keeps_id (_ ?v) =>
        first [ exact (keeps_id_setattr p_yearly v)
              | exact (keeps_id_setattr p_hourly v)
              | exact (keeps_id_setattr p_role v)
              | exact (keeps_id_setattr p_department v)
              | exact (keeps_id_setattr p_hired_date v)
              | exact (keeps_id_setattr p_last_day v) ]
    end ].

Lemma takes_id_construct (c : call) :
  call_class c <> cEmployee ->
  exists init, construct c = new (call_class c) init
               /\ takes_id_when (passes_employee c) init.
Proof.
  intros Hc. unfold passes_employee.
  destruct c as [n e | n e y | n e h | n e y r | n e y d | n e h t | n e h t];
    cbn [call_class call_name call_email construct] in *.
  - now elim Hc.
  - eexists. split; [reflexivity|]. unfold Salaried.__init__.
    apply takes_id_then; [apply takes_id_Employee|]. keeps_tail.
  - eexists. split; [reflexivity|]. unfold Hourly.__init__.
    apply takes_id_then; [apply takes_id_Employee|]. keeps_tail.
  - eexists. split; [reflexivity|]. unfold Executive.__init__, Salaried.__init__.
    apply takes_id_then; [apply takes_id_then; [apply takes_id_Employee|]|];
      keeps_tail.
  - eexists. split; [reflexivity|]. unfold Manager.__init__, Salaried.__init__.
    apply takes_id_then; [apply takes_id_then; [apply takes_id_Employee|]|];
      keeps_tail.
  - eexists. split; [reflexivity|]. unfold Permanent.__init__, Hourly.__init__.
    apply takes_id_then; [apply takes_id_then; [apply takes_id_Employee|]|];
      keeps_tail.
  - eexists. split; [reflexivity|]. unfold Temp.__init__, Hourly.__init__.
    apply takes_id_then; [apply takes_id_then; [apply takes_id_Employee|]|];
      keeps_tail.
Qed.

(** A call of a class other than [Employee] takes an identifier
    exactly when its name and email pass their setters: then the
    counter ends one further, whether the rest of the constructor
    succeeds or raises; otherwise the call raises [ValueError] and the
    counter is where it was. *)
Theorem construct_takes_id (c : call) (k : Z) :
  call_class c <> cEmployee ->
  (passes_employee c = true -> snd (construct c k) = k + 1)
  /\ (passes_employee c = false ->
      exists m, construct c k = (Raise (ValueError m), k)).
Proof.
  intros Hc. destruct (takes_id_construct c Hc) as [init [-> Hinit]].
  assert (Hinst : ABCMeta.instantiable (call_class c) = true).
  { rewrite instantiable_classes. destruct c; try reflexivity. now elim Hc. }
  destruct (Hinit (mkState k (fresh (call_class c)))) as [Hok Hko].
  unfold new. rewrite Hinst. split.
  - intros H. specialize (Hok H).
    destruct (init (mkState k (fresh (call_class c)))) as [[u|x] st];
      exact Hok.
  - intros H. destruct (Hko H) as [m [st' [-> Hcid]]].
    exists m. simpl in Hcid. now rewrite Hcid.
Qed.

Lemma construct_takes_id_witness :
  snd (construct (Executive_ (PStr "Bob") (PStr "bob@acme-machining.com")
                    (PStr "50000") (PStr "1")) 7) = 7 + 1
  /\ exists m, construct (Temp_ (PStr "") (PStr "e@acme-machining.com")
                            (PStr "45.00") (PStr "2023-03-02 12:11:50")) 7
               = (Raise (ValueError m), 7).
Proof.
  split.
  - apply (construct_takes_id
             (Executive_ (PStr "Bob") (PStr "bob@acme-machining.com")
                (PStr "50000") (PStr "1")) 7); [discriminate | reflexivity].
  - apply (construct_takes_id
             (Temp_ (PStr "") (PStr "e@acme-machining.com")
                (PStr "45.00") (PStr "2023-03-02 12:11:50")) 7);
      [discriminate | reflexivity].
Defined.

(** ** Rows that load and rows that do not *)

Lemma tag_class_leaf (t : string) (c : class) :
  tag_class t = Some c -> is_leaf c = true /\ class_name c = t.
Proof.
  unfold tag_class.
  destruct (String.eqb_spec t "Executive") as [->|_];
    [intros H; injection H as <-; now split|].
  destruct (String.eqb_spec t "Manager") as [->|_];
    [intros H; injection H as <-; now split|].
  destruct (String.eqb_spec t "Temp") as [->|_];
    [intros H; injection H as <-; now split|].
  destruct (String.eqb_spec t "Permanent") as [->|_];
    [intros H; injection H as <-; now split|].
  discriminate.
Qed.

Lemma arguments_long (t n e i p x : string) (rest : list string) (k : Z) :
  MainWindow.arguments (t :: n :: e :: i :: p :: x :: rest) k
  = (Ok (PStr n, PStr e, PStr p, PStr x), k).
Proof. reflexivity. Qed.

Lemma arguments_short (row : list string) (k : Z) :
  (List.length row < 6)%nat ->
  MainWindow.arguments row k
  = (Raise (IndexError (Msg "list index out of range")), k).
Proof.
  intros H.
  destruct row as [|a [|b [|c [|d [|e [|f rest]]]]]]; try reflexivity.
  simpl in H. lia.
Qed.

(** [create_employee] on a row with at least one field, by cases on
    its tag. *)
Lemma create_employee_tagged (t : string) (row : list string) (k : Z) :
  MainWindow.create_employee (t :: row) k
  = match tag_class t with
    | None => (Ok None, k)
    | Some c =>
        match MainWindow.arguments (t :: row) k with
        | (Ok (a, b, p, x), k1) =>
            match construct (leaf_call c a b p x) k1 with
            | (Ok o, k2) => (Ok (Some o), k2)
            | (Raise y, k2) => (Raise y, k2)
            end
        | (Raise y, k1) => (Raise y, k1)
        end
    end.
Proof.
  unfold MainWindow.create_employee, tag_class.
  unfold MainWindow.item at 1. cbn [nth_error]. rewrite bind_ret_l.
  cbn [MainWindow.is_str].
  destruct (String.eqb t "Executive");
    [|destruct (String.eqb t "Manager");
      [|destruct (String.eqb t "Temp");
        [|destruct (String.eqb t "Permanent"); [|reflexivity]]]];
    unfold bind at 1;
    destruct (MainWindow.arguments (t :: row) k) as [[[[[a b] p] x]|y] k1];
    try reflexivity; cbn [leaf_call]; unfold bind, ret;
    match goal with
    | |- context [construct ?c k1] => destruct (construct c k1) as [[o|y] k2]
    end; reflexivity.
Qed.

Lemma with_image_well_formed (i : string) (o : object) :
  nonempty i = true -> well_formed o = true ->
  well_formed (with_image i o) = true.
Proof.
  intros Hi Hwf.
  destruct o as [c [?|] [?|] [?|] [?|] y h r d hd ld];
    norm_obj_in Hwf; try discriminate Hwf.
  norm_obj. split_andb.
  repeat match goal with
         | H : ?b = true |- context [?b] => rewrite H
         end.
  reflexivity.
Qed.

(** A row that cannot be turned into an employee makes [load_row]
    raise without taking an identifier: [AttributeError] when the tag
    is unknown and the row has a field 3 (the image is assigned to
    [None]), [IndexError] in every other case. *)
Theorem load_row_rejects (row : list string) (k : Z) :
  unloadable row = true ->
  exists x,
    MainWindow.load_row row k = (Raise x, k)
    /\ (if reaches_image_of_none row
        then is_attribute_error x else is_index_error x) = true.
Proof.
  intros H. unfold MainWindow.load_row.
  destruct row as [|t row]; [eexists; split; reflexivity|].
  unfold bind at 1. rewrite create_employee_tagged.
  unfold unloadable in H. unfold reaches_image_of_none.
  destruct (tag_class t) as [c|].
  - apply Nat.ltb_lt in H. rewrite arguments_short by exact H.
    destruct row as [|? [|? [|? ?]]]; eexists; split; reflexivity.
  - destruct row as [|a [|b [|i rest]]]; eexists; split; reflexivity.
Qed.

Lemma load_row_rejects_witness :
  exists x,
    MainWindow.load_row ["Intern"; "Dee"; "dee@acme-machining.com"; "dee.png";
                         "15.00"; "2023-03-02 12:11:50"] 4 = (Raise x, 4)
    /\ is_attribute_error x = true.
Proof.
  apply (load_row_rejects ["Intern"; "Dee"; "dee@acme-machining.com"; "dee.png";
                           "15.00"; "2023-03-02 12:11:50"] 4).
  reflexivity.
Defined.

(** What a row that loads looks like, and what it loads as. *)
Lemma load_row_inv (row : list string) (k k' : Z) (o : object) :
  MainWindow.load_row row k = (Ok o, k') ->
  exists t n e i p x rest c,
    row = t :: n :: e :: i :: p :: x :: rest
    /\ tag_class t = Some c
    /\ ob_class o = c
    /\ well_formed o = true
    /\ _id_number o = Some k
    /\ slot p_name o = Some (PStr n)
    /\ slot p_email o = Some (PStr e)
    /\ _image o = Some i
    /\ k' = k + 1.
Proof.
  intros H. unfold MainWindow.load_row in H.
  apply bind_inv in H. destruct H as [emp [k1 [Hc H]]].
  apply bind_inv in H. destruct H as [img [k2 [Hi H]]].
  destruct row as [|t row]; [discriminate Hc|].
  rewrite create_employee_tagged in Hc.
  destruct (tag_class t) as [c|] eqn:Ht.
  - destruct row as [|n [|e [|i [|p [|x rest]]]]]; try discriminate Hc.
    rewrite arguments_long in Hc.
    destruct (construct (leaf_call c (PStr n) (PStr e) (PStr p) (PStr x)) k)
      as [[o0|y] k3] eqn:Hcon; [|discriminate Hc].
    injection Hc as <- <-.
    unfold MainWindow.item in Hi. cbn [nth_error] in Hi.
    unfold ret in Hi. injection Hi as <- <-.
    apply bind_inv in H. destruct H as [[u o1] [k4 [Hset H]]].
    unfold ret in H. injection H as <- <-.
    unfold on_object in Hset.
    destruct (Employee.set_image (PStr i) (mkState k3 o0)) as [[u'|y] st]
      eqn:Himg; [|discriminate Hset].
    injection Hset as <- <- <-.
    apply set_image_inv in Himg. destruct Himg as [i' [Hi' [Hne ->]]].
    injection Hi' as <-.
    destruct (construct_inv _ _ _ _ Hcon) as [Hwf [Hcl [Hid [_ [Hn [He Hk]]]]]].
    destruct (tag_class_leaf t c Ht) as [Hleaf _].
    assert (Hcc : call_class (leaf_call c (PStr n) (PStr e) (PStr p) (PStr x)) = c)
      by (destruct c; try discriminate Hleaf; reflexivity).
    assert (Hcn : call_name (leaf_call c (PStr n) (PStr e) (PStr p) (PStr x)) = PStr n)
      by (destruct c; reflexivity).
    assert (Hce : call_email (leaf_call c (PStr n) (PStr e) (PStr p) (PStr x)) = PStr e)
      by (destruct c; reflexivity).
    rewrite Hcc in Hcl. rewrite Hcn in Hn. rewrite Hce in He.
    exists t, n, e, i, p, x, rest, c.
    cbn [self current_id].
    repeat split; try assumption.
    + now apply with_image_well_formed.
  - injection Hc as <- <-. destruct img; discriminate H || idtac.
    all: try discriminate H.
Qed.

Lemma slot_str (f : object -> option string) (o : object) (s : string) :
  option_map PStr (f o) = Some (PStr s) -> f o = Some s.
Proof. destruct (f o); simpl; intros H; [injection H as ->; reflexivity | discriminate]. Qed.

(** A row that loads has at least six fields and one of the four class
    names as tag.  The employee it loads as is well formed, carries the
    counter's value as identifier (the counter advances by one), and
    can be written out again: its line has six fields, the first four
    of which are the tag, name, email and image path of the row. *)
Theorem loaded_row_saves (row : list string) (k k' : Z) (o : object) :
  MainWindow.load_row row k = (Ok o, k') ->
  exists t n e i p x rest pay extra,
    row = t :: n :: e :: i :: p :: x :: rest
    /\ MainWindow.line o = Ok (Str.join "," [t; n; e; i; pay; extra])
    /\ class_name (ob_class o) = t
    /\ well_formed o = true
    /\ _id_number o = Some k
    /\ k' = k + 1.
Proof.
  intros H. apply load_row_inv in H.
  destruct H as [t [n [e [i [p [x [rest [c H]]]]]]]].
  destruct H as [-> [Ht [Hc [Hwf [Hid [Hn [He [Hi ->]]]]]]]].
  destruct (tag_class_leaf t c Ht) as [Hleaf Hname].
  rewrite <- Hc in Hleaf, Hname.
  destruct (well_formed_fields o Hwf Hleaf) as [fs [Hfs Hline]].
  simpl in Hn, He. apply slot_str in Hn. apply slot_str in He.
  unfold record_fields in Hfs. rewrite Hn, He, Hi, Hname in Hfs.
  destruct (pay_amount o) as [pay|]; [|discriminate Hfs].
  destruct (extra_attribute o) as [extra|]; [|discriminate Hfs].
  injection Hfs as <-.
  exists t, n, e, i, p, x, rest, (format_2f pay), extra.
  repeat split; assumption.
Qed.

Lemma loaded_row_saves_witness :
  exists t n e i p x rest pay extra,
    ["Temp"; "temp"; "e@acme-machining.com"; "temp.png"; "45"; "2023-3-2 1:2:3"]
    = t :: n :: e :: i :: p :: x :: rest
    /\ MainWindow.line
         (mkObject cTemp (Some "temp") (Some "e@acme-machining.com")
            (Some "temp.png") (Some 4) None (Some (of_decimal false 45 0))
            None None None (Some (Datetime.mk 2023 3 2 1 2 3 0)))
       = Ok (Str.join "," [t; n; e; i; pay; extra])
    /\ class_name cTemp = t
    /\ well_formed
         (mkObject cTemp (Some "temp") (Some "e@acme-machining.com")
            (Some "temp.png") (Some 4) None (Some (of_decimal false 45 0))
            None None None (Some (Datetime.mk 2023 3 2 1 2 3 0))) = true
    /\ Some 4 = Some 4
    /\ 5 = 4 + 1.
Proof.
  apply (loaded_row_saves
           ["Temp"; "temp"; "e@acme-machining.com"; "temp.png"; "45";
            "2023-3-2 1:2:3"] 4 5
           (mkObject cTemp (Some "temp") (Some "e@acme-machining.com")
              (Some "temp.png") (Some 4) None (Some (of_decimal false 45 0))
              None None None (Some (Datetime.mk 2023 3 2 1 2 3 0)))).
  vm_compute. reflexivity.
Defined.

(** ** [load_file] *)





(** A file of three lines whose second line has an unknown tag: the
    first record is loaded and stays, the second line raises, the
    third is never read. *)
Example load_file_stops_at_the_bad_line :
  MainWindow.load_file
    (String.concat (String "010" EmptyString)
       ["Temp,Cy,cy@acme-machining.com,cy.png,17.50,2023-03-02 12:11:50";
        "Intern,Di,di@acme-machining.com,di.png,17.50,1";
        "Executive,Ann,ann@acme-machining.com,ann.png,60000.00,2";
        EmptyString])
    (MainWindow.mkWindow 4 [sample_manager])
  = (Raise (AttributeError MsgBuiltin),
     MainWindow.mkWindow 5
       [sample_manager;
        mkObject cTemp (Some "Cy") (Some "cy@acme-machining.com")
          (Some "cy.png") (Some 4) None (Some (of_decimal false 175 (-1)))
          None None None (Some (Datetime.mk 2023 3 2 12 11 50 0))]).
Proof. vm_compute. reflexivity. Qed.

(** ** Which assignments succeed *)






(** ** The edit forms *)












(** ** Binary64 rounding *)

Lemma digits2_size (p : positive) : digits2_pos p = Pos.size p.
Proof. induction p as [p IH | p IH |]; simpl; now rewrite ?IH. Qed.

Lemma Zdigits2_bounds (p : positive) :
  2 ^ (Zdigits2 (Zpos p) - 1) <= Zpos p < 2 ^ Zdigits2 (Zpos p).
Proof.
  unfold Zdigits2. induction p as [p IH | p IH |].
  - cbn [digits2_pos]. rewrite Pos2Z.inj_succ.
    replace (Z.succ (Zpos (digits2_pos p)) - 1) with (Zpos (digits2_pos p)) by lia.
    rewrite Z.pow_succ_r by lia.
    replace (Zpos (digits2_pos p))
      with (Z.succ (Zpos (digits2_pos p) - 1)) at 1 by lia.
    rewrite Z.pow_succ_r by lia. lia.
  - cbn [digits2_pos]. rewrite Pos2Z.inj_succ.
    replace (Z.succ (Zpos (digits2_pos p)) - 1) with (Zpos (digits2_pos p)) by lia.
    rewrite Z.pow_succ_r by lia.
    replace (Zpos (digits2_pos p))
      with (Z.succ (Zpos (digits2_pos p) - 1)) at 1 by lia.
    rewrite Z.pow_succ_r by lia. lia.
  - simpl. lia.
Qed.

Lemma Zdigits2_unique (m d : Z) :
  2 ^ (d - 1) <= m < 2 ^ d -> 0 < d -> Zdigits2 m = d.
Proof.
  intros [Hlo Hhi] Hd.
  assert (Hm : 0 < m) by (pose proof (Z.pow_pos_nonneg 2 (d - 1)); lia).
  destruct m as [|p|p]; try lia.
  pose proof (Zdigits2_bounds p) as [Hlo' Hhi'].
  set (d' := Zdigits2 (Zpos p)) in *.
  assert (0 < d') by (unfold d', Zdigits2; lia).
  destruct (Z.lt_trichotomy d' d) as [Hlt | [Heq | Hgt]]; [|exact Heq|].
  - assert (2 ^ d' <= 2 ^ (d - 1)) by (apply Z.pow_le_mono_r; lia). lia.
  - assert (2 ^ d <= 2 ^ (d' - 1)) by (apply Z.pow_le_mono_r; lia). lia.
Qed.

Lemma shr_1_div (mrs : shr_record) :
  0 <= shr_m mrs -> shr_m (shr_1 mrs) = shr_m mrs / 2.
Proof.
  destruct mrs as [m r s]. cbn [shr_m]. intros Hm. unfold shr_1.
  destruct m as [|[p|p|]|p]; cbn [shr_m]; try lia.
  - reflexivity.
  - apply Z.div_unique with 1; lia.
  - apply Z.div_unique with 0; lia.
  - reflexivity.
Qed.

Lemma iter_shr_1_div (p : positive) (mrs : shr_record) :
  0 <= shr_m mrs ->
  shr_m (iter_pos shr_1 p mrs) = shr_m mrs / 2 ^ Zpos p.
Proof.
  revert mrs. induction p as [p IH | p IH |]; intros mrs Hm; cbn [iter_pos].
  - assert (H1 : 0 <= shr_m (shr_1 mrs))
      by (rewrite shr_1_div by exact Hm; apply Z.div_pos; lia).
    assert (H2 : 0 <= shr_m (iter_pos shr_1 p (shr_1 mrs)))
      by (rewrite IH by exact H1; apply Z.div_pos; [exact H1 | lia]).
    rewrite IH by exact H2. rewrite IH by exact H1. rewrite shr_1_div by exact Hm.
    rewrite !Z.div_div by lia. f_equal.
    replace (Zpos p~1) with (1 + Zpos p + Zpos p) by lia.
    rewrite !Z.pow_add_r by lia. lia.
  - assert (H2 : 0 <= shr_m (iter_pos shr_1 p mrs))
      by (rewrite IH by exact Hm; apply Z.div_pos; [exact Hm | lia]).
    rewrite IH by exact H2. rewrite IH by exact Hm.
    rewrite Z.div_div by lia. f_equal.
    replace (Zpos p~0) with (Zpos p + Zpos p) by lia.
    rewrite Z.pow_add_r by lia. reflexivity.
  - rewrite shr_1_div by exact Hm. reflexivity.
Qed.

Lemma shr_spec (mrs : shr_record) (e n : Z) :
  0 <= n -> 0 <= shr_m mrs ->
  shr_m (fst (shr mrs e n)) = shr_m mrs / 2 ^ n /\ snd (shr mrs e n) = e + n.
Proof.
  intros Hn Hm. unfold shr. destruct n as [|p|p]; try lia; cbn [fst snd].
  - rewrite Z.div_1_r. split; [reflexivity | lia].
  - split; [now apply iter_shr_1_div | reflexivity].
Qed.

Lemma shr_record_of_loc_m (m : Z) (l : location) :
  shr_m (shr_record_of_loc m l) = m.
Proof. destruct l as [|[]]; reflexivity. Qed.

Lemma round_nearest_even_bracket (m : Z) (l : location) :
  m <= round_nearest_even m l <= m + 1.
Proof.
  unfold round_nearest_even. destruct l as [|[]]; try lia.
  destruct (Z.even m); lia.
Qed.

(** What [binary_round_aux] returns for a positive integer [M] of at
    least 53 digits scaled by [2^E], away from the subnormal range: the
    mantissa is the 53 leading digits of [M], or one more, at exponent
    [E + (d - 53)]; or the leading digits were all ones and the carry
    has given [2^52] one exponent higher. *)
Lemma round_aux_bracket (M E : Z) (l : location) (d : Z) :
  0 < M -> Zdigits2 M = d -> 53 <= d -> -1074 <= E + (d - 53) ->
  match binary_round_aux prec emax false M E l with
  | S754_infinity false => 971 < E + (d - 53) + 1
  | S754_finite false m e =>
      (e = E + (d - 53)
       /\ M / 2 ^ (d - 53) <= Zpos m <= M / 2 ^ (d - 53) + 1)
      \/ (e = E + (d - 53) + 1 /\ Zpos m = 2 ^ 52
          /\ M / 2 ^ (d - 53) = 2 ^ 53 - 1)
  | _ => False
  end.
Proof.
  intros HM Hd Hd53 Hemin.
  unfold binary_round_aux, shr_fexp. rewrite Hd.
  set (n := d - 53) in *.
  assert (Hf : fexp prec emax (d + E) - E = n)
    by (unfold fexp, SpecFloat.emin, prec, emax; lia).
  rewrite Hf.
  destruct (shr_spec (shr_record_of_loc M l) E n) as [Hm1 He1];
    [lia | rewrite shr_record_of_loc_m; lia |].
  rewrite shr_record_of_loc_m in Hm1.
  destruct (shr (shr_record_of_loc M l) E n) as [mrs' e'].
  cbn [fst snd] in Hm1, He1. subst e'.
  assert (Hbounds : 2 ^ 52 <= shr_m mrs' < 2 ^ 53).
  { destruct M as [|p|p]; try lia.
    pose proof (Zdigits2_bounds p) as [Hlo Hhi]. rewrite Hd in Hlo, Hhi.
    assert (Hp : 0 < 2 ^ n) by (apply Z.pow_pos_nonneg; lia).
    replace (d - 1) with (52 + n) in Hlo by lia.
    replace d with (53 + n) in Hhi by lia.
    rewrite Z.pow_add_r in Hlo, Hhi by lia.
    rewrite Hm1. split.
    - apply Z.div_le_lower_bound; lia.
    - apply Z.div_lt_upper_bound; lia. }
  pose proof (round_nearest_even_bracket (shr_m mrs') (loc_of_shr_record mrs'))
    as Hrne.
  rewrite <- Hm1.
  set (m2 := round_nearest_even (shr_m mrs') (loc_of_shr_record mrs')) in *.
  destruct (Z_lt_le_dec m2 (2 ^ 53)) as [Hlt | Hge].
  - rewrite (Zdigits2_unique m2 53) by lia.
    assert (Hf0 : fexp prec emax (53 + (E + n)) - (E + n) = 0)
      by (unfold fexp, SpecFloat.emin, prec, emax; lia).
    rewrite Hf0. cbn [shr shr_record_of_loc shr_m].
    destruct m2 as [|p2|p2]; try lia.
    unfold emax, prec. destruct (E + n <=? 1024 - 53) eqn:Hle.
    + left. split; [reflexivity | lia].
    + apply Z.leb_gt in Hle. lia.
  - assert (Hm2 : m2 = 2 ^ 53) by lia. rewrite Hm2.
    change (Zdigits2 (2 ^ 53)) with 54.
    assert (Hf1 : fexp prec emax (54 + (E + n)) - (E + n) = 1)
      by (unfold fexp, SpecFloat.emin, prec, emax; lia).
    rewrite Hf1.
    change (shr (shr_record_of_loc (2 ^ 53) loc_Exact) (E + n) 1)
      with (Build_shr_record (2 ^ 52) false false, E + n + 1).
    cbn [shr_m].
    change (2 ^ 52) with 4503599627370496 at 1.
    unfold emax, prec. destruct (E + n + 1 <=? 1024 - 53) eqn:Hle.
    + right. split; [reflexivity|]. split; [reflexivity | lia].
    + apply Z.leb_gt in Hle. lia.
Qed.

Lemma leb_finite (m1 m2 : positive) (e1 e2 : Z) :
  PyFloat.leb (S754_finite false m1 e1) (S754_finite false m2 e2) = true
  <-> e1 < e2 \/ (e1 = e2 /\ Zpos m1 <= Zpos m2).
Proof.
  unfold PyFloat.leb, SFleb, SFcompare.
  change (Pos.compare_cont Eq m1 m2) with (Pos.compare m1 m2).
  destruct (Z.compare_spec e1 e2) as [He | He | He].
  - destruct (Pos.compare_spec m1 m2) as [Hm | Hm | Hm]; split;
      try discriminate; try (intros _; right; split; lia); try reflexivity.
    intros [H | [_ H]]; lia.
  - split; [intros _; now left | reflexivity].
  - split; [discriminate | intros [H | [H _]]; lia].
Qed.

Lemma ltb_finite (m1 m2 : positive) (e1 e2 : Z) :
  PyFloat.ltb (S754_finite false m1 e1) (S754_finite false m2 e2) = true
  <-> e1 < e2 \/ (e1 = e2 /\ Zpos m1 < Zpos m2).
Proof.
  unfold PyFloat.ltb, SFltb, SFcompare.
  change (Pos.compare_cont Eq m1 m2) with (Pos.compare m1 m2).
  destruct (Z.compare_spec e1 e2) as [He | He | He].
  - destruct (Pos.compare_spec m1 m2) as [Hm | Hm | Hm]; split;
      try discriminate; try (intros _; right; split; lia); try reflexivity;
      intros [H | [_ H]]; lia.
  - split; [intros _; now left | reflexivity].
  - split; [discriminate | intros [H | [H _]]; lia].
Qed.

(** A valid float above the subnormal range has a 53-digit mantissa. *)
Lemma valid_normal (s : bool) (m : positive) (e : Z) :
  PyFloat.valid (S754_finite s m e) = true -> -1074 < e ->
  2 ^ 52 <= Zpos m < 2 ^ 53 /\ e <= 971.
Proof.
  unfold PyFloat.valid, valid_binary, bounded, canonical_mantissa.
  intros H He. apply andb_true_iff in H. destruct H as [Hc Hb].
  apply Z.eqb_eq in Hc. apply Z.leb_le in Hb.
  unfold fexp, SpecFloat.emin, prec, emax in *.
  assert (Hd : Zdigits2 (Zpos m) = 53) by (unfold Zdigits2; lia).
  pose proof (Zdigits2_bounds m) as Hbd. rewrite Hd in Hbd.
  change (53 - 1) with 52 in Hbd. split; [exact Hbd | lia].
Qed.

(** ** The weekly pay *)

(** Forty hours at a rate between 15.00 and 99.99 are paid between
    600.00 and 3999.60, in float arithmetic. *)
Lemma hourly_pay_bounds (h : float) :
  PyFloat.valid h = true ->
  PyFloat.leb lit_15 h = true -> PyFloat.leb h lit_99_99 = true ->
  PyFloat.leb lit_600 (PyFloat.mul h lit_40) = true
  /\ PyFloat.leb (PyFloat.mul h lit_40) lit_3999_60 = true.
Proof.
  intros Hv Hlo Hhi.
  destruct h as [s | s | | s m e]; try discriminate.
  - destruct s; discriminate.
  - destruct s; [discriminate|].
    unfold lit_15 in Hlo. unfold lit_99_99 in Hhi.
    apply leb_finite in Hlo. apply leb_finite in Hhi.
    apply valid_normal in Hv; [|lia]. destruct Hv as [Hm He].
    change (2 ^ 52) with 4503599627370496 in Hm.
    change (2 ^ 53) with 9007199254740992 in Hm.
    unfold PyFloat.mul, SFmul, lit_40. cbn [xorb].
    set (M := Zpos (m * 5629499534213120)).
    assert (HM : M = Zpos m * 5629499534213120) by reflexivity.
    assert (Hd : Zdigits2 M = 105 \/ Zdigits2 M = 106).
    { destruct (Z_lt_le_dec M (2 ^ 105)) as [Hlt | Hge].
      - left. apply Zdigits2_unique; [|lia].
        change (2 ^ (105 - 1)) with 20282409603651670423947251286016.
        change (2 ^ 105) with 40564819207303340847894502572032 in *. lia.
      - right. apply Zdigits2_unique; [|lia].
        change (2 ^ (106 - 1)) with 40564819207303340847894502572032.
        change (2 ^ 105) with 40564819207303340847894502572032 in *.
        change (2 ^ 106) with 81129638414606681695789005144064. lia. }
    assert (HMpos : 0 < M) by lia.
    unfold lit_600, lit_3999_60.
    destruct Hd as [Hd | Hd].
    + pose proof (round_aux_bracket M (e + -47) loc_Exact 105 HMpos Hd
                    ltac:(lia) ltac:(lia)) as Hb.
      pose proof (Zdigits2_bounds (m * 5629499534213120)) as Hdb.
      fold M in Hdb. rewrite Hd in Hdb.
      change (2 ^ (105 - 1)) with 20282409603651670423947251286016 in Hdb.
      change (2 ^ 105) with 40564819207303340847894502572032 in Hdb.
      change (2 ^ (105 - 53)) with 4503599627370496 in Hb.
      change (2 ^ 52) with 4503599627370496 in Hb.
      change (2 ^ 53 - 1) with 9007199254740991 in Hb.
      destruct (binary_round_aux prec emax false M (e + -47) loc_Exact)
        as [s | s | | s mr er]; try (destruct s); try contradiction; try lia.
      * rewrite !leb_finite.
        pose proof (Z.div_mod M 4503599627370496 ltac:(lia)) as Hdm.
        pose proof (Z.mod_pos_bound M 4503599627370496 ltac:(lia)) as Hmod.
        clearbody M.
        generalize dependent (M / 4503599627370496).
        generalize dependent (M mod 4503599627370496).
        intros r Hr q Hb Hq. lia.
    + pose proof (round_aux_bracket M (e + -47) loc_Exact 106 HMpos Hd
                    ltac:(lia) ltac:(lia)) as Hb.
      pose proof (Zdigits2_bounds (m * 5629499534213120)) as Hdb.
      fold M in Hdb. rewrite Hd in Hdb.
      change (2 ^ (106 - 1)) with 40564819207303340847894502572032 in Hdb.
      change (2 ^ 106) with 81129638414606681695789005144064 in Hdb.
      change (2 ^ (106 - 53)) with 9007199254740992 in Hb.
      change (2 ^ 52) with 4503599627370496 in Hb.
      change (2 ^ 53 - 1) with 9007199254740991 in Hb.
      destruct (binary_round_aux prec emax false M (e + -47) loc_Exact)
        as [s | s | | s mr er]; try (destruct s); try contradiction; try lia.
      rewrite !leb_finite.
      pose proof (Z.div_mod M 9007199254740992 ltac:(lia)) as Hdm.
      pose proof (Z.mod_pos_bound M 9007199254740992 ltac:(lia)) as Hmod.
      clearbody M.
      generalize dependent (M / 9007199254740992).
      generalize dependent (M mod 9007199254740992).
      intros r Hr q Hb Hq. lia.
Qed.

(** A yearly amount above 50,000 gives a weekly pay above
    [50000 / 52], in float arithmetic. *)
Lemma salaried_pay_bound (y : float) :
  PyFloat.valid y = true -> PyFloat.ltb lit_50000 y = true ->
  PyFloat.ltb pay_50000 (PyFloat.div y lit_52) = true.
Proof.
  intros Hv Hlo.
  destruct y as [s | s | | s m e]; try discriminate.
  - destruct s; [discriminate | reflexivity].
  - destruct s; [discriminate|].
    unfold lit_50000 in Hlo. apply ltb_finite in Hlo.
    apply valid_normal in Hv; [|lia]. destruct Hv as [Hm He].
    assert (Hdm : Zdigits2 (Zpos m) = 53)
      by (apply Zdigits2_unique; [exact Hm | lia]).
    change (2 ^ 52) with 4503599627370496 in Hm.
    change (2 ^ 53) with 9007199254740992 in Hm.
    unfold PyFloat.div, SFdiv, SFdiv_core_binary, lit_52. cbn [xorb].
    rewrite Hdm.
    change (Zdigits2 (Zpos 7318349394477056)) with 53.
    assert (He' : Z.min (fexp prec emax (53 + e - (53 + -47))) (e - -47) = e - 6)
      by (unfold fexp, SpecFloat.emin, prec, emax; lia).
    rewrite He'.
    replace (e - -47 - (e - 6)) with 53 by lia.
    rewrite Z.shiftl_mul_pow2 by lia.
    change (2 ^ 53) with 9007199254740992.
    pose proof (Z_div_mod (Zpos m * 9007199254740992) 7318349394477056
                  ltac:(lia)) as Hqr.
    destruct (Z.div_eucl (Zpos m * 9007199254740992) 7318349394477056)
      as [q r].
    destruct Hqr as [Hq Hr].
    set (l := new_location 7318349394477056 r). clearbody l.
    assert (Hd : Zdigits2 q = 53 \/ Zdigits2 q = 54).
    { destruct (Z_lt_le_dec q 9007199254740992) as [Hlt | Hge].
      - left. apply Zdigits2_unique; [|lia].
        change (2 ^ (53 - 1)) with 4503599627370496.
        change (2 ^ 53) with 9007199254740992. lia.
      - right. apply Zdigits2_unique; [|lia].
        change (2 ^ (54 - 1)) with 9007199254740992.
        change (2 ^ 54) with 18014398509481984. lia. }
    assert (Hqpos : 0 < q) by lia.
    unfold pay_50000.
    destruct Hd as [Hd | Hd].
    + pose proof (round_aux_bracket q (e - 6) l 53 Hqpos Hd
                    ltac:(lia) ltac:(lia)) as Hb.
      assert (Hdb : 4503599627370496 <= q < 9007199254740992).
      { destruct q as [|p|p]; try lia.
        pose proof (Zdigits2_bounds p) as Hdb. rewrite Hd in Hdb. exact Hdb. }
      change (2 ^ (53 - 53)) with 1 in Hb. rewrite Z.div_1_r in Hb.
      change (2 ^ 52) with 4503599627370496 in Hb.
      change (2 ^ 53 - 1) with 9007199254740991 in Hb.
      destruct (binary_round_aux prec emax false q (e - 6) l)
        as [s | s | | s mr er]; try (destruct s); try contradiction;
        try reflexivity.
      rewrite ltb_finite. lia.
    + pose proof (round_aux_bracket q (e - 6) l 54 Hqpos Hd
                    ltac:(lia) ltac:(lia)) as Hb.
      change (2 ^ (54 - 53)) with 2 in Hb.
      change (2 ^ 52) with 4503599627370496 in Hb.
      change (2 ^ 53 - 1) with 9007199254740991 in Hb.
      destruct (binary_round_aux prec emax false q (e - 6) l)
        as [s | s | | s mr er]; try (destruct s); try contradiction;
        try reflexivity.
      rewrite ltb_finite. lia.
Qed.

(** The pay calculation.  On a well-formed instance whose pay amount
    [p] is a binary64 value other than NaN, [calc_pay] returns without
    changing anything: for the salaried classes it returns
    [p / 52.0], which is above [50000 / 52]; for the hourly classes it
    returns [p * 40], which lies between 600.00 and 3999.60. *)
Theorem calc_pay_bounds (st : state) (p : float) :
  well_formed (self st) = true ->
  pay_amount (self st) = Some p ->
  PyFloat.valid p = true -> PyFloat.is_nan p = false ->
  if issubclass (ob_class (self st)) cSalaried
  then calc_pay st = (Ok (PFloat (PyFloat.div p lit_52)), st)
       /\ PyFloat.ltb pay_50000 (PyFloat.div p lit_52) = true
  else calc_pay st = (Ok (PFloat (PyFloat.mul p lit_40)), st)
       /\ PyFloat.leb lit_600 (PyFloat.mul p lit_40) = true
       /\ PyFloat.leb (PyFloat.mul p lit_40) lit_3999_60 = true.
Proof.
  intros Hwf Hp Hv Hn. destruct st as [k o]. cbn [self] in *.
  destruct o as [c [n|] [e|] [i|] [idn|] y h r d hd ld]; try discriminate Hwf.
  unfold well_formed in Hwf. unfold pay_amount in Hp.
  cbn [ob_class _yearly _hourly] in *. split_andb.
  destruct c; try discriminate;
    destruct y as [y|], h as [h|], r as [r|], d as [d|], hd as [hd|], ld as [ld|];
    try discriminate; injection Hp as ->; split_andb;
    (split; [reflexivity|]).
  all: first [ apply salaried_pay_bound; [exact Hv | now apply not_leb_ltb]
             | unfold in_hourly_range in *; split_andb;
               now apply hourly_pay_bounds ].
Qed.

Lemma calc_pay_bounds_witness :
  (calc_pay (mkState 7 sample_manager)
   = (Ok (PFloat (PyFloat.div (of_decimal false 7500050 (-2)) lit_52)),
      mkState 7 sample_manager)
   /\ PyFloat.ltb pay_50000 (PyFloat.div (of_decimal false 7500050 (-2)) lit_52)
      = true)
  /\ (calc_pay (mkState 7 sample_temp)
      = (Ok (PFloat (PyFloat.mul (of_decimal false 4500 (-2)) lit_40)),
         mkState 7 sample_temp)
      /\ PyFloat.leb lit_600 (PyFloat.mul (of_decimal false 4500 (-2)) lit_40)
         = true
      /\ PyFloat.leb (PyFloat.mul (of_decimal false 4500 (-2)) lit_40)
           lit_3999_60 = true).
Proof.
  split.
  - apply (calc_pay_bounds (mkState 7 sample_manager)
             (of_decimal false 7500050 (-2))); reflexivity.
  - apply (calc_pay_bounds (mkState 7 sample_temp)
             (of_decimal false 4500 (-2))); reflexivity.
Defined.
